(** * Referral, reward and balance engine of watch-earn

    A shallow embedding of the business logic in [src/lib/referral.ts] and of
    the route handlers that confirm deposits, approve rewards, report totals
    and submit withdrawals.

    - The relational store behind Prisma is a record of tables, every table
      a list of rows in insertion order with an autoincrement [id].  That
      keys are unique is a hypothesis of the statements that need it.
    - A handler is a function from the store and its request to a new store
      and a result.  A transaction is a computation in the error monad
      [Result]: when its body throws, the caller keeps the store it started
      from.  Writes outside a transaction are threaded one after the other.
    - Money and plan amounts are whole numbers ([Z]): the tier table and the
      allowed plans are integral, and the statements about balances are sums
      and differences.  Dates are [Z] ticks; [now] is an argument.
    - The random bytes of [generateReferralCode] are an argument as well.
    - The authentication middleware is taken as given: a handler receives
      the caller as [AuthUser].

    Handlers that exist in several versions are kept apart by name:
    [AutoPay.confirmDeposit] is [unnamed/part_006],
    [PendingOnly.confirmDeposit] is [unnamed/part_007]; the four [GET]
    handlers of the account summary are in [AllProgress];
    [DepositOnly.submitDeposit] is [unnamed/part_005] and
    [RewardAtSubmit.submitDeposit] is [deposits/submit/route.ts]; the
    statistics route is [Stats.GET].  Of the version of [confirmDeposit]
    that computes the reward as [depositAmount * 0.04]
    ([deposits/confirm/route.ts]) the formula is embedded, on binary64
    numbers ([InlineReward]); the handler is not. *)

From Stdlib Require Import ZArith List String Ascii Bool Lia Permutation.
From Stdlib.Strings Require Import Byte.
From Stdlib Require Import DecimalString DecimalZ DecimalPos.
From Stdlib Require Floats Uint63.
Import ListNotations.

Local Open Scope string_scope.
Local Open Scope list_scope.
Local Open Scope Z_scope.

Set Implicit Arguments.

(** ** Thrown errors *)

Inductive Result (A : Type) : Type :=
| Ok : A -> Result A
| Throw : string -> Result A.

Arguments Ok {A} _.
Arguments Throw {A} _.

Definition bind {A B : Type} (m : Result A) (k : A -> Result B) : Result B :=
  match m with
  | Ok a => k a
  | Throw e => Throw e
  end.

Notation "'let*' x ':=' m 'in' k" := (bind m (fun x => k))
  (at level 10, x pattern, m at level 100, k at level 200).

Definition isOk {A : Type} (m : Result A) : bool :=
  match m with Ok _ => true | Throw _ => false end.

(** ** Strings as JavaScript uses them here *)

Definition toUpperChar (c : ascii) : ascii :=
  let n := nat_of_ascii c in
  if (97 <=? n)%nat && (n <=? 122)%nat then ascii_of_nat (n - 32) else c.

Fixpoint toUpperCase (s : string) : string :=
  match s with
  | EmptyString => EmptyString
  | String c r => String (toUpperChar c) (toUpperCase r)
  end.

Fixpoint prefixb (p l : list ascii) : bool :=
  match p, l with
  | [], _ => true
  | _ :: _, [] => false
  | a :: p', b :: l' => Ascii.eqb a b && prefixb p' l'
  end.

(** [s.endsWith(suffix)] *)
Definition endsWith (s suffix : string) : bool :=
  prefixb (rev (list_ascii_of_string suffix)) (rev (list_ascii_of_string s)).

(** the character class [[A-Z0-9]] *)
Definition isUpperAlnum (c : ascii) : bool :=
  let n := nat_of_ascii c in
  ((48 <=? n)%nat && (n <=? 57)%nat) || ((65 <=? n)%nat && (n <=? 90)%nat).

(** [/^[A-Z0-9]{8}$/.test(s)] *)
Definition isCanonicalCode (s : string) : bool :=
  (String.length s =? 8)%nat && forallb isUpperAlnum (list_ascii_of_string s).

(** [n.toString()] of an integral number *)
Definition toString (n : Z) : string := NilZero.string_of_int (Z.to_int n).

(** ** Data model (the Prisma models the handlers touch) *)

Class Row (A : Type) := { row_id : A -> Z }.

Module User.
Record t := mk {
  id : Z;
  referralCode : option string;
  referredById : option Z;
  referredByCode : option string;
  referralCount : Z;
  balance : Z;
  totalEarned : Z
}.
Definition credit (amt : Z) (u : t) : t :=
  mk (id u) (referralCode u) (referredById u) (referredByCode u)
     (referralCount u) (balance u + amt) (totalEarned u + amt).
Definition addBalance (amt : Z) (u : t) : t :=
  mk (id u) (referralCode u) (referredById u) (referredByCode u)
     (referralCount u) (balance u + amt) (totalEarned u).
Definition setReferralCode (c : string) (u : t) : t :=
  mk (id u) (Some c) (referredById u) (referredByCode u)
     (referralCount u) (balance u) (totalEarned u).
Definition setReferredBy (code : string) (rid : Z) (u : t) : t :=
  mk (id u) (referralCode u) (Some rid) (Some code)
     (referralCount u) (balance u) (totalEarned u).
Definition incReferralCount (u : t) : t :=
  mk (id u) (referralCode u) (referredById u) (referredByCode u)
     (referralCount u + 1) (balance u) (totalEarned u).
End User.

Module Deposit.
Inductive Status := pending | confirmed | approved | rejected.
Definition status_eqb (a b : Status) : bool :=
  match a, b with
  | pending, pending | confirmed, confirmed
  | approved, approved | rejected, rejected => true
  | _, _ => false
  end.
Record t := mk {
  id : Z;
  userId : Z;
  amount : Z;
  currency : string;
  transactionHash : string;
  paymentProofUrl : string;
  status : Status;
  confirmedAt : option Z;
  createdAt : Z
}.
End Deposit.

Module UserPlanProgress.
Record t := mk {
  id : Z;
  userId : Z;
  planAmount : Z;
  profit : Z;
  roundCount : Z;
  canWithdraw : bool;
  lastRoundDate : option Z
}.
Definition decProfit (amt : Z) (p : t) : t :=
  mk (id p) (userId p) (planAmount p) (profit p - amt) (roundCount p)
     (canWithdraw p) (lastRoundDate p).
End UserPlanProgress.

Module ReferralReward.
Inductive Status := pending | paid | rejected.
Definition status_eqb (a b : Status) : bool :=
  match a, b with
  | pending, pending | paid, paid | rejected, rejected => true
  | _, _ => false
  end.
Record t := mk {
  id : Z;
  referrerId : Z;
  referredUserId : Z;
  amount : Z;
  planAmount : Z;
  planType : option string;
  status : Status;
  createdAt : Z;
  paidAt : option Z
}.
Definition setPaid (now : Z) (r : t) : t :=
  mk (id r) (referrerId r) (referredUserId r) (amount r) (planAmount r)
     (planType r) paid (createdAt r) (Some now).
Definition setPlanType (pt : string) (r : t) : t :=
  mk (id r) (referrerId r) (referredUserId r) (amount r) (planAmount r)
     (Some pt) (status r) (createdAt r) (paidAt r).
End ReferralReward.

Module Withdrawal.
Inductive Status := pending | completed | rejected.
Record t := mk {
  id : Z;
  userId : Z;
  amount : Z;
  currency : string;
  recipientAddress : string;
  status : Status
}.
End Withdrawal.

#[export] Instance Row_User : Row User.t := { row_id := User.id }.
#[export] Instance Row_Deposit : Row Deposit.t := { row_id := Deposit.id }.
#[export] Instance Row_Progress : Row UserPlanProgress.t :=
  { row_id := UserPlanProgress.id }.
#[export] Instance Row_Reward : Row ReferralReward.t :=
  { row_id := ReferralReward.id }.
#[export] Instance Row_Withdrawal : Row Withdrawal.t :=
  { row_id := Withdrawal.id }.

Record DB := mkDB {
  user : list User.t;
  deposit : list Deposit.t;
  userPlanProgress : list UserPlanProgress.t;
  referralReward : list ReferralReward.t;
  withdrawal : list Withdrawal.t
}.

Definition withUser (us : list User.t) (db : DB) : DB :=
  mkDB us (deposit db) (userPlanProgress db) (referralReward db) (withdrawal db).
Definition withDeposit (ds : list Deposit.t) (db : DB) : DB :=
  mkDB (user db) ds (userPlanProgress db) (referralReward db) (withdrawal db).
Definition withProgress (ps : list UserPlanProgress.t) (db : DB) : DB :=
  mkDB (user db) (deposit db) ps (referralReward db) (withdrawal db).
Definition withReward (rs : list ReferralReward.t) (db : DB) : DB :=
  mkDB (user db) (deposit db) (userPlanProgress db) rs (withdrawal db).
Definition withWithdrawal (ws : list Withdrawal.t) (db : DB) : DB :=
  mkDB (user db) (deposit db) (userPlanProgress db) (referralReward db) ws.

(** ** Table primitives *)

Section Table.
Context {A : Type} `{Row A}.

Definition hasId (i : Z) (r : A) : bool := row_id r =? i.

(** [findUnique({ where: { id } })] *)
Definition findUnique (i : Z) (t : list A) : option A := find (hasId i) t.

(** [findFirst({ where })]: the first row the filter keeps *)
Definition findFirst (p : A -> bool) (t : list A) : option A := find p t.

(** [findMany({ where })] *)
Definition findMany (p : A -> bool) (t : list A) : list A := filter p t.

(** [update({ where: { id }, data })]: the row with that primary key is
    rewritten and returned; Prisma throws when there is none. *)
Definition update (i : Z) (f : A -> A) (t : list A) : Result (list A * A) :=
  match findUnique i t with
  | Some r => Ok (map (fun x => if hasId i x then f x else x) t, f r)
  | None => Throw "Record to update not found"
  end.

(** autoincrement primary key *)
Definition nextId (t : list A) : Z := 1 + fold_right Z.max 0 (map row_id t).

(** [create({ data })] *)
Definition create (mkRow : Z -> A) (t : list A) : list A * A :=
  let r := mkRow (nextId t) in (t ++ [r], r).

(** [orderBy]: a stable insertion sort by the given order *)
Fixpoint insertBy (le : A -> A -> bool) (x : A) (l : list A) : list A :=
  match l with
  | [] => [x]
  | y :: l' => if le x y then x :: l else y :: insertBy le x l'
  end.

Definition orderBy (le : A -> A -> bool) (l : list A) : list A :=
  fold_right (insertBy le) [] l.
End Table.

Definition sumZ (l : list Z) : Z := fold_right Z.add 0 l.

(** [x || 0] on a number *)
Definition orZero (x : Z) : Z := if x =? 0 then 0 else x.

Definition eqOpt (o : option Z) (i : Z) : bool :=
  match o with Some j => j =? i | None => false end.

(** ** Referral code registry ([src/lib/referral.ts]) *)

Definition chars : string := "0123456789ABCDEFGHIJKLMNOPQRSTUVWXYZ".

(** [chars[i]] appended to a string: a character, or the text of
    [undefined] when the index is out of range. *)
Definition charAt (s : string) (i : nat) : string :=
  match String.get i s with
  | Some c => String c EmptyString
  | None => "undefined"
  end.

Fixpoint generateFrom (randomValues : nat -> byte) (i n : nat) : string :=
  match n with
  | O => EmptyString
  | S n' =>
      (charAt chars (Byte.to_nat (randomValues i) mod String.length chars)
       ++ generateFrom randomValues (S i) n')%string
  end.

(** [generateReferralCode(length = 8)]; [randomValues] is the filled
    [Uint8Array]. *)
Definition generateReferralCode (randomValues : nat -> byte) (length : nat)
  : string :=
  generateFrom randomValues 0 length.

Definition maxAttempts : nat := 10.

Definition referralCodeIs (code : string) (u : User.t) : bool :=
  match User.referralCode u with
  | Some c => String.eqb c code
  | None => false
  end.

(** The transaction of one attempt: [None] is the [null] of a taken code. *)
Definition assignCode (db : DB) (userId : Z) (code : string)
  : Result (option (DB * User.t)) :=
  match findFirst (referralCodeIs code) (user db) with
  | Some _ => Ok None
  | None =>
      let* (us, u) := update userId (User.setReferralCode code) (user db) in
      Ok (Some (withUser us db, u))
  end.

Record CodeRun := mkCodeRun {
  outcome : Result string;
  store : DB;
  candidates : list string
}.

(** The retry loop, by recursion on the iterations left
    ([maxAttempts - attempts]); [attempts] is the loop counter and [tried]
    the candidates generated so far. *)
Fixpoint retryLoop (rng : nat -> nat -> byte) (userId : Z) (db : DB)
  (left attempts : nat) (tried : list string) : CodeRun :=
  match left with
  | O =>
      mkCodeRun
        (Throw "Failed to generate a unique referral code after multiple attempts")
        db tried
  | S left' =>
      let code := generateReferralCode (rng attempts) 8 in
      let tried' := tried ++ [code] in
      match assignCode db userId code with
      | Ok (Some (db', u)) =>
          match User.referralCode u with
          | Some c =>
              if (String.length c =? 0)%nat
              then retryLoop rng userId db' left' (S attempts) tried'
              else mkCodeRun (Ok c) db' tried'
          | None => retryLoop rng userId db' left' (S attempts) tried'
          end
      | Ok None => retryLoop rng userId db left' (S attempts) tried'
      | Throw _ => retryLoop rng userId db left' (S attempts) tried'
      end
  end.

Definition getOrCreateUserReferralCode (rng : nat -> nat -> byte)
  (db : DB) (userId : Z) : CodeRun :=
  match findUnique userId (user db) with
  | None =>
      mkCodeRun (Throw ("User with ID " ++ toString userId ++ " not found")%string)
        db []
  | Some u =>
      match User.referralCode u with
      | Some c =>
          if negb (String.length c =? 0)%nat && isCanonicalCode c
          then mkCodeRun (Ok c) db []
          else retryLoop rng userId db maxAttempts 0 []
      | None => retryLoop rng userId db maxAttempts 0 []
      end
  end.

(** ** Referral attribution ([processReferral]) *)

(** A string argument is falsy when it is missing or empty. *)
Definition truthyStr (o : option string) : option string :=
  match o with
  | Some s => if (String.length s =? 0)%nat then None else Some s
  | None => None
  end.

(** A numeric argument is falsy when it is missing or zero. *)
Definition truthyNum (o : option Z) : option Z :=
  match o with
  | Some n => if n =? 0 then None else Some n
  | None => None
  end.

(** The two writes are separate statements, not one transaction; the store
    returned next to a [Throw] is the one reached when it was thrown. *)
Definition processReferral (db : DB) (userId : Z) (referralCode : option string)
  : DB * Result (option Z) :=
  match truthyStr referralCode with
  | None => (db, Ok None)
  | Some code =>
      match findFirst
              (fun u => referralCodeIs (toUpperCase code) u
                        && negb (User.id u =? userId)) (user db) with
      | None => (db, Ok None)
      | Some referrer =>
          match update userId
                  (User.setReferredBy (toUpperCase code) (User.id referrer))
                  (user db) with
          | Throw e => (db, Throw e)
          | Ok (us1, _) =>
              match update (User.id referrer) User.incReferralCount us1 with
              | Throw e => (withUser us1 db, Throw e)
              | Ok (us2, _) => (withUser us2 db, Ok (Some (User.id referrer)))
              end
          end
      end
  end.

(** ** Reward computation ([PLAN_REWARDS], [processReferralReward]) *)

Definition PLAN_REWARDS : list (string * Z) :=
  [ ("50", 2); ("100", 4); ("150", 6); ("250", 10);
    ("500", 20); ("1000", 40); ("1500", 60); ("2500", 100) ].

Fixpoint lookupKey (k : string) (tbl : list (string * Z)) : option Z :=
  match tbl with
  | [] => None
  | (k', v) :: tbl' => if String.eqb k' k then Some v else lookupKey k tbl'
  end.

(** [PLAN_REWARDS[key] || 0] *)
Definition planReward (key : string) : Z :=
  match lookupKey key PLAN_REWARDS with
  | Some v => orZero v
  | None => 0
  end.

Definition idDesc {A : Type} `{Row A} (a b : A) : bool := row_id b <=? row_id a.
Definition idAsc {A : Type} `{Row A} (a b : A) : bool := row_id a <=? row_id b.

Record RewardResult := mkRewardResult {
  rewardAmount : Z;
  rewardId : Z;
  res_referrerId : Z;
  res_referredUserId : Z;
  res_planAmount : Z
}.

Definition planTypeLabel (planAmount : Z) : string :=
  ("Referral Bonus ($" ++ toString planAmount ++ " Plan)")%string.

(** The transaction inside [processReferralReward]. *)
Definition createPendingReward (now : Z) (db : DB) (referrerId referredUserId : Z)
  : Result (DB * RewardResult) :=
  match findFirst
          (fun d => (Deposit.userId d =? referredUserId)
                    && Deposit.status_eqb (Deposit.status d) Deposit.approved)
          (orderBy idDesc (deposit db)) with
  | None =>
      Throw ("[ReferralReward] No approved deposit found for user "
             ++ toString referredUserId)%string
  | Some _ =>
      match findFirst (fun p => UserPlanProgress.userId p =? referredUserId)
              (orderBy idDesc (userPlanProgress db)) with
      | None =>
          Throw ("[ReferralReward] No plan found for referred user "
                 ++ toString referredUserId)%string
      | Some referredUserPlan =>
          let referredUserPlanAmount :=
            UserPlanProgress.planAmount referredUserPlan in
          let rewardAmount := planReward (toString referredUserPlanAmount) in
          if rewardAmount <=? 0
          then Throw ("[ReferralReward] Invalid reward amount for plan "
                      ++ toString referredUserPlanAmount)%string
          else
            let (rs, r) :=
              create (fun i =>
                        ReferralReward.mk i referrerId referredUserId
                          rewardAmount referredUserPlanAmount
                          (Some (planTypeLabel referredUserPlanAmount))
                          ReferralReward.pending now None)
                     (referralReward db) in
            Ok (withReward rs db,
                mkRewardResult rewardAmount (ReferralReward.id r) referrerId
                  referredUserId referredUserPlanAmount)
      end
  end.

(** [referredUser.referredBy]: the related row, when the key is truthy. *)
Definition referrerOf (db : DB) (referredUserId : Z) : option User.t :=
  match findUnique referredUserId (user db) with
  | None => None
  | Some referredUser =>
      match truthyNum (User.referredById referredUser) with
      | None => None
      | Some rid => findUnique rid (user db)
      end
  end.

Definition paidRewardOf (referredUserId referrerId : Z) (r : ReferralReward.t)
  : bool :=
  (ReferralReward.referredUserId r =? referredUserId)
  && (ReferralReward.referrerId r =? referrerId)
  && ReferralReward.status_eqb (ReferralReward.status r) ReferralReward.paid.

Definition processReferralReward (now : Z) (db : DB) (referredUserId : Z)
  : DB * Result (option RewardResult) :=
  match referrerOf db referredUserId with
  | None => (db, Ok None)
  | Some referrer =>
      match findFirst (paidRewardOf referredUserId (User.id referrer))
              (referralReward db) with
      | Some _ => (db, Ok None)
      | None =>
          match createPendingReward now db (User.id referrer) referredUserId with
          | Ok (db', res) => (db', Ok (Some res))
          | Throw e => (db, Throw e)
          end
      end
  end.

(** ** Approval: the library function and the admin route *)

Definition isReferredUserBonus (r : ReferralReward.t) : bool :=
  match ReferralReward.planType r with
  | Some pt => String.eqb pt "Referred User Bonus"
  | None => false
  end.

(** [approveReferralReward] of [src/lib/referral.ts], one transaction. *)
Definition approveReferralReward (now : Z) (db : DB) (rewardId : Z)
  : Result (DB * ReferralReward.t) :=
  match findUnique rewardId (referralReward db) with
  | None => Throw "Invalid or already processed reward"
  | Some reward =>
      if ReferralReward.status_eqb (ReferralReward.status reward)
           ReferralReward.paid
      then Throw "Invalid or already processed reward"
      else
        let userIdToCredit :=
          if isReferredUserBonus reward
          then ReferralReward.referredUserId reward
          else ReferralReward.referrerId reward in
        let* (us, _) :=
          update userIdToCredit (User.credit (ReferralReward.amount reward))
            (user db) in
        let* (rs, updated) :=
          update rewardId (ReferralReward.setPaid now) (referralReward db) in
        Ok (withReward rs (withUser us db), updated)
  end.

Record AuthUser := mkAuthUser { auth_id : Z; role : string }.

Record Response (A : Type) := mkResponse {
  httpStatus : Z;
  message : string;
  payload : option A
}.

Definition respond {A : Type} (code : Z) (msg : string) : Response A :=
  mkResponse code msg None.

(** The transaction of the admin route: only a reward that is still pending
    is found. *)
Definition approveTransaction (now : Z) (db : DB) (rewardId : Z)
  : Result (DB * ReferralReward.t) :=
  match findFirst
          (fun r => hasId rewardId r
                    && ReferralReward.status_eqb (ReferralReward.status r)
                         ReferralReward.pending)
          (referralReward db) with
  | None => Throw "Pending reward not found or already processed"
  | Some reward =>
      let* (rs, updatedReward) :=
        update rewardId (ReferralReward.setPaid now) (referralReward db) in
      let* (us, _) :=
        update (ReferralReward.referrerId reward)
          (User.credit (ReferralReward.amount reward)) (user db) in
      Ok (withUser us (withReward rs db), updatedReward)
  end.

(** [POST] handler of the approval route (the second module of
    [unnamed/part_004]). *)
Definition approveReferralRewardRoute (now : Z) (db : DB) (caller : AuthUser)
  (rewardId : option Z) : DB * Response ReferralReward.t :=
  if negb (String.eqb (role caller) "admin")
  then (db, respond 403 "Unauthorized - Admin access required")
  else
    match truthyNum rewardId with
    | None => (db, respond 400 "Reward ID is required")
    | Some rid =>
        match approveTransaction now db rid with
        | Ok (db', reward) =>
            (db', mkResponse 200 "Referral reward approved and paid successfully"
                    (Some reward))
        | Throw e => (db, respond 500 e)
        end
    end.

(** ** Deposit confirmation *)

Definition allowedPlans : list Z := [50; 100; 150; 250; 500; 1000; 1500; 2500].

Definition includes (l : list Z) (x : Z) : bool := existsb (Z.eqb x) l.

Module DepositRequest.
Record t := mk {
  transactionHash : option string;
  amount : option Z;
  currency : option string;
  paymentProofUrl : string
}.
End DepositRequest.

(** [upsert({ where: { userId_planAmount }, update: {}, create })]; the
    columns the create leaves out take the defaults that the account-summary
    handler writes out ([profit: 0, roundCount: 0, canWithdraw: false]). *)
Definition upsertProgress (userId planAmount : Z)
  (t : list UserPlanProgress.t) : list UserPlanProgress.t :=
  match findFirst (fun p => (UserPlanProgress.userId p =? userId)
                            && (UserPlanProgress.planAmount p =? planAmount)) t with
  | Some _ => t
  | None =>
      fst (create (fun i => UserPlanProgress.mk i userId planAmount 0 0 false None) t)
  end.

Definition orElse (a b : string) : string :=
  if (String.length a =? 0)%nat then b else a.

Definition confirmRow (now : Z) (proof : string) (d : Deposit.t) : Deposit.t :=
  Deposit.mk (Deposit.id d) (Deposit.userId d) (Deposit.amount d)
    (Deposit.currency d) (Deposit.transactionHash d) proof
    Deposit.confirmed (Some now) (Deposit.createdAt d).

(** The checks all variants of [confirmDeposit] run before they write:
    the validated request, or the 400 message. *)
Definition validateDeposit (db : DB) (userId : Z) (req : DepositRequest.t)
  : string * Z * string + string :=
  match truthyStr (DepositRequest.transactionHash req),
        truthyNum (DepositRequest.amount req),
        truthyStr (DepositRequest.currency req) with
  | Some transactionHash, Some depositAmount, Some currency =>
      match findFirst (fun p => UserPlanProgress.userId p =? userId)
              (userPlanProgress db) with
      | Some _ =>
          inr "You have already made a deposit. Only one deposit is allowed per user."
      | None =>
          if negb (includes allowedPlans depositAmount)
          then inr "Deposit amount must match a valid plan."
          else inl (transactionHash, depositAmount, currency)
      end
  | _, _, _ => inr "Transaction hash, amount, and currency are required"
  end.

(** *** The variant that pays the reward at once ([unnamed/part_006]) *)
Module AutoPay.

Definition confirmTransaction (now : Z) (db : DB) (userId : Z)
  (transactionHash : string) (depositAmount : Z) (currency proof : string)
  : Result (DB * Deposit.t) :=
  match findFirst
          (fun d => (Deposit.userId d =? userId)
                    && Deposit.status_eqb (Deposit.status d) Deposit.pending
                    && String.eqb (Deposit.transactionHash d) transactionHash)
          (deposit db) with
  | None => Throw "Pending deposit not found for this transaction"
  | Some pending =>
      if negb (Deposit.amount pending =? depositAmount)
         || negb (String.eqb (Deposit.currency pending) currency)
      then Throw "Submitted amount/currency does not match the pending deposit"
      else
        let* (ds, dep) :=
          update (Deposit.id pending)
            (confirmRow now (orElse proof (Deposit.paymentProofUrl pending)))
            (deposit db) in
        let* (us, _) := update userId (User.credit depositAmount) (user db) in
        let ps := upsertProgress userId depositAmount (userPlanProgress db) in
        Ok (withProgress ps (withUser us (withDeposit ds db)), dep)
  end.

(** After the transaction: create the reward and approve it. *)
Definition payout (now : Z) (db : DB) (userId : Z)
  : DB * option ReferralReward.t :=
  match findUnique userId (user db) with
  | None => (db, None)
  | Some u =>
      match truthyNum (User.referredById u) with
      | None => (db, None)
      | Some _ =>
          match processReferralReward now db userId with
          | (db1, Ok (Some rewardRes)) =>
              if rewardId rewardRes =? 0 then (db1, None)
              else
                match approveReferralReward now db1 (rewardId rewardRes) with
                | Ok (db2, reward) => (db2, Some reward)
                | Throw _ => (db1, None)
                end
          | (db1, _) => (db1, None)
          end
      end
  end.

Definition confirmDeposit (now : Z) (db : DB) (caller : AuthUser)
  (req : DepositRequest.t)
  : DB * Response (Deposit.t * option ReferralReward.t) :=
  let userId := auth_id caller in
  match validateDeposit db userId req with
  | inr msg => (db, respond 400 msg)
  | inl (transactionHash, depositAmount, currency) =>
      match confirmTransaction now db userId transactionHash depositAmount
              currency (DepositRequest.paymentProofUrl req) with
      | Throw _ => (db, respond 500 "Internal server error")
      | Ok (db1, dep) =>
          let (db2, reward) := payout now db1 userId in
          (db2, mkResponse 201 "Deposit confirmed and processed successfully"
                  (Some (dep, reward)))
      end
  end.

End AutoPay.

(** *** The variant that leaves the reward pending ([unnamed/part_007]) *)
Module PendingOnly.

Definition depositTransaction (now : Z) (db : DB) (userId : Z)
  (transactionHash : string) (depositAmount : Z) (currency proof : string)
  : Result (DB * Deposit.t) :=
  let (ds, dep) :=
    create (fun i => Deposit.mk i userId depositAmount currency
                       transactionHash proof Deposit.approved (Some now) now)
           (deposit db) in
  let* (us, _) := update userId (User.credit depositAmount) (user db) in
  let ps := upsertProgress userId depositAmount (userPlanProgress db) in
  Ok (withProgress ps (withUser us (withDeposit ds db)), dep).

Definition otherApproved (userId depositId : Z) (d : Deposit.t) : bool :=
  (Deposit.userId d =? userId)
  && negb (Deposit.id d =? depositId)
  && Deposit.status_eqb (Deposit.status d) Deposit.approved.

Definition pendingReward (now : Z) (db : DB) (userId depositId : Z) : DB :=
  match findUnique userId (user db) with
  | None => db
  | Some u =>
      match truthyNum (User.referredById u) with
      | None => db
      | Some _ =>
          let depositCount :=
            List.length (findMany (otherApproved userId depositId) (deposit db)) in
          if (depositCount =? 0)%nat
          then fst (processReferralReward now db userId)
          else db
      end
  end.

Definition confirmDeposit (now : Z) (db : DB) (caller : AuthUser)
  (req : DepositRequest.t) : DB * Response Deposit.t :=
  let userId := auth_id caller in
  match validateDeposit db userId req with
  | inr msg => (db, respond 400 msg)
  | inl (transactionHash, depositAmount, currency) =>
      match depositTransaction now db userId transactionHash depositAmount
              currency (DepositRequest.paymentProofUrl req) with
      | Throw _ => (db, respond 500 "Internal server error")
      | Ok (db1, dep) =>
          (pendingReward now db1 userId (Deposit.id dep),
           mkResponse 201 "Deposit confirmed and processed successfully"
             (Some dep))
      end
  end.

End PendingOnly.

(** ** Account summary ([all-progress]) *)

Module AllProgress.

Record Summary := mkSummary {
  totalProfit : Z;
  balance : option Z;
  canWithdraw : bool;
  planProfit : Z;
  referralProfit : Z;
  totalReferralRewards : nat
}.

(** [lastRoundDate: "desc"], rows without a date first *)
Definition lastRoundDesc (a b : UserPlanProgress.t) : bool :=
  match UserPlanProgress.lastRoundDate a, UserPlanProgress.lastRoundDate b with
  | None, _ => true
  | Some _, None => false
  | Some x, Some y => y <=? x
  end.

Definition progressesOf (db : DB) (userId : Z) : list UserPlanProgress.t :=
  orderBy lastRoundDesc
    (findMany (fun p => UserPlanProgress.userId p =? userId)
       (userPlanProgress db)).

(** [progresses.reduce((sum, p) => sum + (p.profit || 0), 0)] *)
Definition sumProfit (ps : list UserPlanProgress.t) : Z :=
  fold_left (fun sum p => sum + orZero (UserPlanProgress.profit p)) ps 0.

(** [rewards.reduce((sum, r) => sum + Number(r.amount), 0)] *)
Definition sumAmount (rs : list ReferralReward.t) : Z :=
  fold_left (fun sum r => sum + ReferralReward.amount r) rs 0.

Definition eligible (ps : list UserPlanProgress.t) : bool :=
  existsb (fun p => UserPlanProgress.canWithdraw p
                    && (0 <? UserPlanProgress.profit p)
                    && (0 <? UserPlanProgress.roundCount p)) ps.

Definition isPaid (r : ReferralReward.t) : bool :=
  ReferralReward.status_eqb (ReferralReward.status r) ReferralReward.paid.
Definition isPending (r : ReferralReward.t) : bool :=
  ReferralReward.status_eqb (ReferralReward.status r) ReferralReward.pending.

(** First handler of [all-progress/route.ts]: plan profit plus the paid
    rewards in which the user is referrer or referred. *)
Definition GET_paidEitherRole (db : DB) (userId : Z) : Summary :=
  let progresses := progressesOf db userId in
  let referralRewards :=
    findMany (fun r => ((ReferralReward.referrerId r =? userId)
                        || (ReferralReward.referredUserId r =? userId))
                       && isPaid r) (referralReward db) in
  let planProfit := sumProfit progresses in
  let referralProfit :=
    fold_left (fun sum reward =>
                 if isPaid reward then sum + ReferralReward.amount reward
                 else sum) referralRewards 0 in
  mkSummary (planProfit + referralProfit) None (eligible progresses)
    planProfit referralProfit (List.length referralRewards).

(** Third handler of [all-progress/route.ts]: plan profit plus the paid
    rewards of the user as referrer. *)
Definition GET_paidReferrer (db : DB) (userId : Z) : Summary :=
  let progresses := progressesOf db userId in
  let referralRewards :=
    findMany (fun r => (ReferralReward.referrerId r =? userId) && isPaid r)
      (referralReward db) in
  let planProfit := sumProfit progresses in
  let referralProfit := sumAmount referralRewards in
  mkSummary (planProfit + referralProfit) None (eligible progresses)
    planProfit referralProfit (List.length referralRewards).

(** The plan row that the two later handlers create for a user who has a
    confirmed deposit and no progress yet. *)
Definition createdDesc (a b : Deposit.t) : bool :=
  Deposit.createdAt b <=? Deposit.createdAt a.

Definition ensureProgress (db : DB) (userId : Z) : DB :=
  match progressesOf db userId with
  | _ :: _ => db
  | [] =>
      match findFirst
              (fun d => (Deposit.userId d =? userId)
                        && Deposit.status_eqb (Deposit.status d) Deposit.confirmed)
              (orderBy createdDesc (deposit db)) with
      | None => db
      | Some latestConfirmedDeposit =>
          withProgress
            (upsertProgress userId (Deposit.amount latestConfirmedDeposit)
               (userPlanProgress db)) db
      end
  end.

(** Handler of [unnamed/part_004]: plan profit plus paid and pending rewards
    of the user as referrer. *)
Definition GET_pendingInclusive (db : DB) (userId : Z) : DB * Summary :=
  let referralRewards :=
    findMany (fun r => (ReferralReward.referrerId r =? userId)
                       && (isPending r || isPaid r)) (referralReward db) in
  let db1 := ensureProgress db userId in
  let progresses := progressesOf db1 userId in
  let planProfit := sumProfit progresses in
  let referralPaid := sumAmount (filter isPaid referralRewards) in
  let referralPending := sumAmount (filter isPending referralRewards) in
  let referralProfit := referralPaid + referralPending in
  (db1, mkSummary (planProfit + referralProfit) None (eligible progresses)
          planProfit referralProfit (List.length referralRewards)).

(** *** Reconciliation (second handler of [all-progress/route.ts]) *)

Definition creditedSuffix : string := " [credited]".

Definition uncredited (userId : Z) (r : ReferralReward.t) : bool :=
  (ReferralReward.referrerId r =? userId)
  && isPaid r
  && match ReferralReward.planType r with
     | None => true
     | Some pt => negb (endsWith pt creditedSuffix)
     end.

(** [`${r.planType ?? 'Referral Bonus'} [credited]`] *)
Definition creditedLabel (r : ReferralReward.t) : string :=
  (match ReferralReward.planType r with
   | Some pt => pt
   | None => "Referral Bonus"
   end ++ creditedSuffix)%string.

Fixpoint markCredited (rows : list ReferralReward.t)
  (tbl : list ReferralReward.t) : Result (list ReferralReward.t) :=
  match rows with
  | [] => Ok tbl
  | r :: rows' =>
      let* (tbl', _) :=
        update (ReferralReward.id r)
          (ReferralReward.setPlanType (creditedLabel r)) tbl in
      markCredited rows' tbl'
  end.

(** The reconciliation transaction. *)
Definition reconcile (db : DB) (userId : Z) : Result DB :=
  let uncreditedPaid := findMany (uncredited userId) (referralReward db) in
  if (0 <? List.length uncreditedPaid)%nat
  then
    let totalToCredit := sumAmount uncreditedPaid in
    let* us :=
      (if 0 <? totalToCredit
       then let* (us, _) := update userId (User.credit totalToCredit) (user db) in
            Ok us
       else Ok (user db)) in
    let* rs := markCredited uncreditedPaid (referralReward db) in
    Ok (withReward rs (withUser us db))
  else Ok db.

Definition GET_reconciling (db : DB) (userId : Z) : DB * Response Summary :=
  match reconcile db userId with
  | Throw _ => (db, respond 500 "Internal server error")
  | Ok db1 =>
      let balance :=
        match findUnique userId (user db1) with
        | Some u => User.balance u
        | None => 0
        end in
      let referralRewards :=
        findMany (fun r => isPaid r && (ReferralReward.referrerId r =? userId))
          (referralReward db1) in
      let db2 := ensureProgress db1 userId in
      let progresses := progressesOf db2 userId in
      let planProfit := sumProfit progresses in
      let referralProfit := sumAmount referralRewards in
      (db2, mkResponse 200 "success"
              (Some (mkSummary (balance + planProfit) (Some balance)
                       (eligible progresses) planProfit referralProfit
                       (List.length referralRewards))))
  end.

End AllProgress.

(** ** Withdrawal submission ([submitWithdrawal]) *)

Module WithdrawalRequest.
Record t := mk {
  amount : option Z;
  currency : option string;
  recipientAddress : option string
}.
End WithdrawalRequest.

(** The loop over [progressesForUpdate]; returns the table and what is left
    of [remaining]. *)
Fixpoint drain (rows : list UserPlanProgress.t) (remaining : Z)
  (tbl : list UserPlanProgress.t) : Result (list UserPlanProgress.t * Z) :=
  match rows with
  | [] => Ok (tbl, remaining)
  | p :: rows' =>
      if remaining <=? 0 then Ok (tbl, remaining)
      else
        let take := Z.min (orZero (UserPlanProgress.profit p)) remaining in
        if 0 <? take
        then
          let* (tbl', _) :=
            update (UserPlanProgress.id p) (UserPlanProgress.decProfit take) tbl in
          drain rows' (remaining - take) tbl'
        else drain rows' remaining tbl
  end.

Definition progressesForUpdate (db : DB) (userId : Z) : list UserPlanProgress.t :=
  orderBy idAsc
    (findMany (fun p => (UserPlanProgress.userId p =? userId)
                        && (0 <? UserPlanProgress.profit p))
       (userPlanProgress db)).

(** The [if (neededTopUp > 0)] block of the transaction. *)
Definition topUp (db : DB) (userId neededTopUp : Z) : Result DB :=
  if 0 <? neededTopUp
  then
    let* (ps, _) :=
      drain (progressesForUpdate db userId) neededTopUp (userPlanProgress db) in
    let* (us, _) := update userId (User.addBalance neededTopUp) (user db) in
    Ok (withUser us (withProgress ps db))
  else Ok db.

Definition withdrawTransaction (db : DB) (userId parsedAmount : Z)
  (currency recipientAddress : string) (neededTopUp : Z)
  : Result (DB * Withdrawal.t) :=
  let* db1 := topUp db userId neededTopUp in
  let* (us, _) := update userId (User.addBalance (- parsedAmount)) (user db1) in
  let (ws, w) :=
    create (fun i => Withdrawal.mk i userId parsedAmount currency
                       recipientAddress Withdrawal.pending)
           (withdrawal db1) in
  Ok (withWithdrawal ws (withUser us db1), w).

(** [totalProfit] as [submitWithdrawal] computes it: plan profit plus the
    paid rewards of the user as referrer. *)
Definition withdrawableTotal (db : DB) (userId : Z) : Z :=
  let progresses :=
    findMany (fun p => UserPlanProgress.userId p =? userId) (userPlanProgress db) in
  let planProfit := AllProgress.sumProfit progresses in
  let referralProfit :=
    orZero (sumZ (map ReferralReward.amount
                    (findMany (fun r => (ReferralReward.referrerId r =? userId)
                                        && AllProgress.isPaid r)
                       (referralReward db)))) in
  planProfit + referralProfit.

Definition submitWithdrawal (db : DB) (caller : AuthUser)
  (req : WithdrawalRequest.t) : DB * Response Withdrawal.t :=
  let userId := auth_id caller in
  match truthyNum (WithdrawalRequest.amount req),
        truthyStr (WithdrawalRequest.currency req),
        truthyStr (WithdrawalRequest.recipientAddress req) with
  | Some parsedAmount, Some currency, Some recipientAddress =>
      if parsedAmount <=? 0
      then (db, respond 400 "Amount must be a positive number")
      else
        match findUnique userId (user db) with
        | None => (db, respond 404 "User not found")
        | Some u =>
            let available := User.balance u in
            let totalProfit := withdrawableTotal db userId in
            if totalProfit <? parsedAmount
            then (db, respond 400 "Insufficient balance")
            else
              let neededTopUp := Z.max 0 (parsedAmount - available) in
              match withdrawTransaction db userId parsedAmount currency
                      recipientAddress neededTopUp with
              | Ok (db', w) =>
                  (db', mkResponse 201
                          "Withdrawal request submitted successfully. It will be processed within 24 hours."
                          (Some w))
              | Throw _ => (db, respond 500 "Internal server error")
              end
        end
  | _, _, _ =>
      (db, respond 400 "Amount, currency, and recipient address are required")
  end.

(** ** Quantities the statements below are phrased in *)

(** the sum of [profit] over the plan rows of a user *)
Definition planProfitOf (db : DB) (userId : Z) : Z :=
  sumZ (map UserPlanProgress.profit
          (filter (fun p => UserPlanProgress.userId p =? userId)
             (userPlanProgress db))).

(** the sum of [amount] over the rewards a filter keeps *)
Definition rewardSum (p : ReferralReward.t -> bool) (db : DB) : Z :=
  sumZ (map ReferralReward.amount (filter p (referralReward db))).

(** the balance of a user, 0 when there is no such row *)
Definition balanceOf (db : DB) (userId : Z) : Z :=
  match findUnique userId (user db) with
  | Some u => User.balance u
  | None => 0
  end.

Definition asReferrer (userId : Z) (r : ReferralReward.t) : bool :=
  ReferralReward.referrerId r =? userId.

Definition asReferred (userId : Z) (r : ReferralReward.t) : bool :=
  ReferralReward.referredUserId r =? userId.

(** the candidates of attempts [from .. from + n - 1] *)
Definition attemptCodes (rng : nat -> nat -> byte) (from n : nat) : list string :=
  map (fun k => generateReferralCode (rng k) 8) (seq from n).

(** the filter of [processReferral]'s lookup *)
Definition codeOwner (code : string) (userId : Z) (u : User.t) : bool :=
  referralCodeIs (toUpperCase code) u && negb (User.id u =? userId).

(** the user the library [approveReferralReward] credits *)
Definition recipient (r : ReferralReward.t) : Z :=
  if isReferredUserBonus r
  then ReferralReward.referredUserId r
  else ReferralReward.referrerId r.

Module Marking.

(** the write of one iteration of the marking loop *)
Definition mark (r : ReferralReward.t) : ReferralReward.t -> ReferralReward.t :=
  ReferralReward.setPlanType (AllProgress.creditedLabel r).

(** what the whole loop does to one row of the table *)
Definition applyMarks (rows : list ReferralReward.t) (x : ReferralReward.t)
  : ReferralReward.t :=
  fold_left (fun y r => if hasId (ReferralReward.id r) y then mark r y else y)
    rows x.

End Marking.

(** the sum of [profit] over the plan rows of a user that have some *)
Definition positiveProfitOf (db : DB) (userId : Z) : Z :=
  sumZ (map UserPlanProgress.profit
          (filter (fun p => (UserPlanProgress.userId p =? userId)
                            && (0 <? UserPlanProgress.profit p))
             (userPlanProgress db))).

(** the profit a plan row holds for a given user *)
Definition ownProfit (userId : Z) (p : UserPlanProgress.t) : Z :=
  if UserPlanProgress.userId p =? userId then UserPlanProgress.profit p else 0.

(** ** Deposit submission ([submitDeposit]) *)

(** The checks both variants of [submitDeposit] run before they write: the
    validated request, or the 400 message.  Here the plan check comes before
    the lookup of a pending deposit. *)
Definition submitChecks (db : DB) (userId : Z) (req : DepositRequest.t)
  : string * Z * string + string :=
  match truthyStr (DepositRequest.transactionHash req),
        truthyNum (DepositRequest.amount req),
        truthyStr (DepositRequest.currency req) with
  | Some transactionHash, Some depositAmount, Some currency =>
      if negb (includes allowedPlans depositAmount)
      then inr "Deposit amount must match a valid plan."
      else
        match findFirst
                (fun d => (Deposit.userId d =? userId)
                          && Deposit.status_eqb (Deposit.status d) Deposit.pending)
                (deposit db) with
        | Some _ =>
            inr "You already have a pending deposit awaiting confirmation."
        | None => inl (transactionHash, depositAmount, currency)
        end
  | _, _, _ => inr "Transaction hash, amount, and currency are required"
  end.

(** [deposit.create] of a pending deposit *)
Definition pendingDeposit (now : Z) (userId : Z) (transactionHash : string)
  (depositAmount : Z) (currency proof : string) (i : Z) : Deposit.t :=
  Deposit.mk i userId depositAmount currency transactionHash proof
    Deposit.pending None now.

(** *** The variant that only records the deposit ([unnamed/part_005]) *)
Module DepositOnly.

(** The foreign keys of the schema are not part of the source: a caller
    without a user row is let through here as the code lets it through. *)

Definition submitDeposit (now : Z) (db : DB) (caller : AuthUser)
  (req : DepositRequest.t) : DB * Response Deposit.t :=
  let userId := auth_id caller in
  match submitChecks db userId req with
  | inr msg => (db, respond 400 msg)
  | inl (transactionHash, depositAmount, currency) =>
      let (ds, dep) :=
        create (pendingDeposit now userId transactionHash depositAmount
                  currency (DepositRequest.paymentProofUrl req))
               (deposit db) in
      (withDeposit ds db,
       mkResponse 201 "Deposit submitted and pending confirmation" (Some dep))
  end.

End DepositOnly.

(** *** The variant written to create the pending reward as well
    ([deposits/submit/route.ts]) *)
Module RewardAtSubmit.

(** the guard: any reward of the pair, whatever its status *)
Definition rewardOfPair (referrerId referredUserId : Z) (r : ReferralReward.t)
  : bool :=
  (ReferralReward.referrerId r =? referrerId)
  && (ReferralReward.referredUserId r =? referredUserId).

(** [import { PLAN_REWARDS } from "@/lib/referral"]: the library declares
    the table without exporting it, so the name this module reads is
    [undefined]. *)
Definition PLAN_REWARDS : option (list (string * Z)) := None.

(** [PLAN_REWARDS[key] || 0]; reading a property of [undefined] throws a
    [TypeError]. *)
Definition planReward (key : string) : Result Z :=
  match PLAN_REWARDS with
  | None =>
      Throw ("Cannot read properties of undefined (reading '" ++ key ++ "')")%string
  | Some tbl =>
      Ok match lookupKey key tbl with
         | Some v => orZero v
         | None => 0
         end
  end.

(** The transaction: the deposit, then the reward of a referred user who
    has none yet with this referrer.  [Math.trunc] is the identity on the
    plan amounts that pass the checks. *)
Definition submitTransaction (now : Z) (db : DB) (userId : Z)
  (transactionHash : string) (depositAmount : Z) (currency proof : string)
  : Result (DB * Deposit.t) :=
  let (ds, dep) :=
    create (pendingDeposit now userId transactionHash depositAmount currency
              proof) (deposit db) in
  let db1 := withDeposit ds db in
  match findUnique userId (user db1) with
  | None => Ok (db1, dep)
  | Some u =>
      match truthyNum (User.referredById u) with
      | None => Ok (db1, dep)
      | Some referredById =>
          match findFirst (rewardOfPair referredById userId)
                  (referralReward db1) with
          | Some _ => Ok (db1, dep)
          | None =>
              let* rewardAmount := planReward (toString depositAmount) in
              if 0 <? rewardAmount
              then
                let (rs, _) :=
                  create (fun i =>
                            ReferralReward.mk i referredById userId rewardAmount
                              depositAmount (Some (planTypeLabel depositAmount))
                              ReferralReward.pending now None)
                         (referralReward db1) in
                Ok (withReward rs db1, dep)
              else Ok (db1, dep)
          end
      end
  end.

Definition submitDeposit (now : Z) (db : DB) (caller : AuthUser)
  (req : DepositRequest.t) : DB * Response Deposit.t :=
  let userId := auth_id caller in
  match submitChecks db userId req with
  | inr msg => (db, respond 400 msg)
  | inl (transactionHash, depositAmount, currency) =>
      match submitTransaction now db userId transactionHash depositAmount
              currency (DepositRequest.paymentProofUrl req) with
      | Ok (db1, dep) =>
          (db1,
           mkResponse 201 "Deposit submitted and pending confirmation"
             (Some dep))
      | Throw _ => (db, respond 500 "Internal server error")
      end
  end.

End RewardAtSubmit.

(** ** Referrer lookup by code *)

(** [GET ?code=] of the second module of [auth/register/route.ts]: the code
    is compared as given. *)
Definition lookupReferrer (db : DB) (code : option string) : Response Z :=
  match truthyStr code with
  | None => respond 400 "Referral code is required"
  | Some c =>
      match findFirst (referralCodeIs c) (user db) with
      | Some referrer => mkResponse 200 "success" (Some (User.id referrer))
      | None => respond 404 "Referral code not found"
      end
  end.

(** ** Referral statistics ([GET] of [referrals/stats/route.ts]) *)

Module Stats.

Definition chars : string := "ABCDEFGHIJKLMNOPQRSTUVWXYZ0123456789".

(** [s.charAt(i)]: the empty string when the index is out of range *)
Definition charAt (s : string) (i : nat) : string :=
  match String.get i s with
  | Some c => String c EmptyString
  | None => EmptyString
  end.

(** The route's own [generateReferralCode(length = 8)]; [draws i] is the
    value of [Math.floor(Math.random() * charsLength)] in iteration [i]. *)
Fixpoint generateFrom (draws : nat -> nat) (i n : nat) : string :=
  match n with
  | O => EmptyString
  | S n' => (charAt chars (draws i) ++ generateFrom draws (S i) n')%string
  end.

Definition generateReferralCode (draws : nat -> nat) (length : nat) : string :=
  generateFrom draws 0 length.

(** The fields of the answer that are computed from the modelled columns;
    the list [referredUsers] (names, emails, dates) is left out, its length
    is [totalReferrals]. *)
Record Body := mkBody {
  totalEarnings : Z;
  totalReferrals : nat;
  pendingRewards : nat;
  referralCode : string;
  rewards : list ReferralReward.t
}.

Definition createdDesc (a b : ReferralReward.t) : bool :=
  ReferralReward.createdAt b <=? ReferralReward.createdAt a.

(** [user.update({ data: { referralCode } })].  [referralCode] is a unique
    column (the lookup routes query it with [findUnique]), so the write is
    refused when another row holds the code. *)
Definition writeCode (userId : Z) (code : string) (us : list User.t)
  : Result (list User.t * User.t) :=
  match findUnique userId us with
  | None => Throw "Record to update not found"
  | Some _ =>
      match findFirst (fun x => referralCodeIs code x && negb (hasId userId x))
              us with
      | Some _ => Throw "Unique constraint failed on the fields: (`referralCode`)"
      | None => update userId (User.setReferralCode code) us
      end
  end.

(** The handler from the verified token on: [decoded] is the user id of the
    token, [None] when [verifyToken] returned [null]. *)
Definition GET (draws : nat -> nat) (db : DB) (decoded : option Z)
  : DB * Response Body :=
  match decoded with
  | None => (db, respond 401 "Invalid or expired token")
  | Some userId =>
      if userId =? 0
      then (db, respond 400 "Invalid user ID in token")
      else
        let rewards :=
          orderBy createdDesc
            (findMany (fun r => ReferralReward.referrerId r =? userId)
               (referralReward db)) in
        let referredUsers :=
          findMany (fun x => eqOpt (User.referredById x) userId) (user db) in
        let totalEarnings :=
          AllProgress.sumAmount (filter AllProgress.isPaid rewards) in
        let pendingRewards :=
          List.length (filter AllProgress.isPending rewards) in
        let body := fun code =>
          mkBody totalEarnings (List.length referredUsers) pendingRewards
            code rewards in
        match match findUnique userId (user db) with
              | Some x => truthyStr (User.referralCode x)
              | None => None
              end with
        | Some code => (db, mkResponse 200 "success" (Some (body code)))
        | None =>
            let referralCode := generateReferralCode draws 8 in
            match writeCode userId referralCode (user db) with
            | Throw _ => (db, respond 500 "Failed to fetch referral statistics")
            | Ok (us, x) =>
                (withUser us db,
                 mkResponse 200 "success"
                   (Some (body match truthyStr (User.referralCode x) with
                               | Some code => code
                               | None => EmptyString
                               end)))
            end
        end
  end.

End Stats.

(** ** The reward computed in place ([deposits/confirm/route.ts]) *)

Module InlineReward.
Import PrimFloat.

(** An amount as the number [parseFloat] returns, for the whole amounts
    from 0 to 2^53. *)
Definition number (a : Z) : float := of_uint63 (Uint63.of_Z a).

(** [depositAmount * 0.04], the [amount] of the reward this version
    creates; the literal is read as the nearest binary64 number, as
    JavaScript reads it *)
#[warnings="-inexact-float"]
Definition fourPercent (depositAmount : Z) : float :=
  mul (number depositAmount) 0.04%float.

End InlineReward.

(** ** Quantities of the further properties *)

(** the 256 values an element of the [Uint8Array] can take *)
Definition allBytes : list byte :=
  flat_map (fun n => match Byte.of_nat n with Some b => [b] | None => [] end)
    (seq 0 256).

(** the byte values that make [generateReferralCode] write character [c] *)
Definition bytesYielding (c : string) : list byte :=
  filter (fun b => String.eqb
                     (charAt chars (Byte.to_nat b mod String.length chars)) c)
    allBytes.

(** no two users hold the same referral code *)
Definition codesUnique (us : list User.t) : Prop :=
  forall a b c,
    In a us -> In b us ->
    User.referralCode a = Some c -> User.referralCode b = Some c ->
    User.id a = User.id b.

(** the candidate of attempt [k] *)
Definition candidate (rng : nat -> nat -> byte) (k : nat) : string :=
  generateReferralCode (rng k) 8.

(** a lower-case letter, the characters [toUpperCase] rewrites *)
Definition isLowerChar (c : ascii) : bool :=
  let n := nat_of_ascii c in (97 <=? n)%nat && (n <=? 122)%nat.

(** the string holds no lower-case letter *)
Definition noLower (s : string) : bool :=
  forallb (fun c => negb (isLowerChar c)) (list_ascii_of_string s).

(** the reward's label does not carry the credited marker *)
Definition unmarked (r : ReferralReward.t) : bool :=
  match ReferralReward.planType r with
  | None => true
  | Some pt => negb (endsWith pt AllProgress.creditedSuffix)
  end.

(** what the next reconciliation would credit to a user *)
Definition owedTo (db : DB) (userId : Z) : Z :=
  sumZ (map ReferralReward.amount
          (findMany (AllProgress.uncredited userId) (referralReward db))).

(** the same withdrawal request submitted [n] times in a row: the store
    reached and the status of each answer *)
Fixpoint repeatWithdrawal (n : nat) (db : DB) (caller : AuthUser)
  (req : WithdrawalRequest.t) : DB * list Z :=
  match n with
  | O => (db, [])
  | S n' =>
      let (db1, resp) := submitWithdrawal db caller req in
      let (db2, codes) := repeatWithdrawal n' db1 caller req in
      (db2, httpStatus resp :: codes)
  end.

(** a paid reward of which the user is the referrer *)
Definition paidTo (userId : Z) (r : ReferralReward.t) : bool :=
  (ReferralReward.referrerId r =? userId) && AllProgress.isPaid r.

(** the user has no pending deposit *)
Definition noPendingDeposit (db : DB) (userId : Z) : Prop :=
  forall d, In d (deposit db) -> Deposit.userId d = userId ->
            Deposit.status d <> Deposit.pending.




(** * Scenarios *)

Definition plainUser (i : Z) (code : option string) (bal : Z) : User.t :=
  User.mk i code None None 0 bal bal.

Definition referredUser (i : Z) (code : option string) (by_ : Z)
  (byCode : string) (bal : Z) : User.t :=
  User.mk i code (Some by_) (Some byCode) 0 bal bal.

Definition emptyDB : DB := mkDB [] [] [] [] [].

(** every random byte is zero: each candidate is ["00000000"] *)
Definition zeroRng (attempt i : nat) : byte := x00.

(** user 1 holds a canonical code *)
Definition dbHasCode : DB :=
  withUser [plainUser 1 (Some "ABCDEFG1") 0] emptyDB.

(** user 1 holds a legacy code, user 2 holds the code every attempt draws *)
Definition dbCollide : DB :=
  withUser [plainUser 1 (Some "b7e1-legacy-uuid") 0;
            plainUser 2 (Some "00000000") 0] emptyDB.

(** referrer 1 with two paid rewards not yet folded into the balance, one
    reward already folded in and one still pending *)
Definition dbOwed : DB :=
  mkDB [ plainUser 1 (Some "AAAAAAA1") 100;
         referredUser 2 None 1 "AAAAAAA1" 0;
         referredUser 3 None 1 "AAAAAAA1" 0;
         referredUser 4 None 1 "AAAAAAA1" 0;
         referredUser 5 None 1 "AAAAAAA1" 0 ]
       [] []
       [ ReferralReward.mk 1 1 2 4 100 (Some "Referral Bonus ($100 Plan)")
           ReferralReward.paid 10 (Some 11);
         ReferralReward.mk 2 1 3 10 250 None ReferralReward.paid 12 (Some 13);
         ReferralReward.mk 3 1 4 20 500
           (Some "Referral Bonus ($500 Plan) [credited]")
           ReferralReward.paid 14 (Some 15);
         ReferralReward.mk 4 1 5 40 1000 (Some "Referral Bonus ($1000 Plan)")
           ReferralReward.pending 16 None ]
       [].

(** referrer 1 and referred user 2 with one pending reward of 4 *)
Definition rewardPending : ReferralReward.t :=
  ReferralReward.mk 1 1 2 4 100 (Some "Referral Bonus ($100 Plan)")
    ReferralReward.pending 10 None.

Definition dbPending : DB :=
  mkDB [plainUser 1 (Some "AAAAAAA1") 0; referredUser 2 None 1 "AAAAAAA1" 100]
       [] [] [rewardPending] [].

(** the same pair with a pending reward labelled as the referred user's
    bonus *)
Definition rewardBonus : ReferralReward.t :=
  ReferralReward.mk 1 1 2 4 100 (Some "Referred User Bonus")
    ReferralReward.pending 10 None.

Definition dbBonus : DB :=
  mkDB [plainUser 1 (Some "AAAAAAA1") 0; referredUser 2 None 1 "AAAAAAA1" 100]
       [] [] [rewardBonus] [].

(** User 2, referred by user 1, holds an approved deposit of 100 and a
    pending one, and has no plan row yet. *)
Definition dbTwoDeposits : DB :=
  mkDB [plainUser 1 (Some "AAAAAAA1") 0; referredUser 2 None 1 "AAAAAAA1" 0]
       [ Deposit.mk 1 2 100 "USDT" "0xaaa" "" Deposit.approved (Some 5) 4;
         Deposit.mk 2 2 100 "USDT" "0xbbb" "" Deposit.pending None 6 ]
       [] [] [].

Definition callerTwo : AuthUser := mkAuthUser 2 "user".

Definition confirmSecond : DepositRequest.t :=
  DepositRequest.mk (Some "0xbbb") (Some 100) (Some "USDT") "".

(** User 2, referred by user 1, with an approved deposit and a plan of 100,
    and no reward yet. *)
Definition dbFirstDeposit : DB :=
  mkDB [plainUser 1 (Some "AAAAAAA1") 0; referredUser 2 None 1 "AAAAAAA1" 100]
       [ Deposit.mk 1 2 100 "USDT" "0xaaa" "" Deposit.approved (Some 5) 4 ]
       [ UserPlanProgress.mk 1 2 100 0 0 false None ]
       [] [].

(** two users with codes and a new user 2 without a referrer *)
Definition dbThree : DB :=
  withUser [plainUser 1 (Some "AAAAAAA1") 0;
            plainUser 2 None 0;
            plainUser 3 (Some "CCCCCCC3") 0] emptyDB.

(** User 1 with balance 100 and plan profit 7; as referrer a paid reward of
    4 already folded into the balance and a pending one of 10; as referred
    user a paid reward of 2. *)
Definition dbDiverge : DB :=
  mkDB [ referredUser 1 (Some "AAAAAAA1") 9 "ZZZZZZZ9" 100;
         referredUser 2 None 1 "AAAAAAA1" 0;
         referredUser 3 None 1 "AAAAAAA1" 0;
         plainUser 9 (Some "ZZZZZZZ9") 0 ]
       []
       [ UserPlanProgress.mk 1 1 100 7 3 true (Some 20) ]
       [ ReferralReward.mk 1 1 2 4 100
           (Some "Referral Bonus ($100 Plan) [credited]")
           ReferralReward.paid 10 (Some 11);
         ReferralReward.mk 2 1 3 10 250 (Some "Referral Bonus ($250 Plan)")
           ReferralReward.pending 12 None;
         ReferralReward.mk 3 9 1 2 50 (Some "Referral Bonus ($50 Plan)")
           ReferralReward.paid 13 (Some 14) ]
       [].

(** User 1 has balance 0 and plan profit 3, and a paid reward of 10 as
    referrer whose credit has been withdrawn before. *)
Definition dbSpent : DB :=
  mkDB [plainUser 1 (Some "AAAAAAA1") 0; referredUser 2 None 1 "AAAAAAA1" 0]
       []
       [ UserPlanProgress.mk 1 1 100 3 2 true (Some 20) ]
       [ ReferralReward.mk 1 1 2 10 250 (Some "Referral Bonus ($250 Plan)")
           ReferralReward.paid 10 (Some 11) ]
       [].

Definition callerOne : AuthUser := mkAuthUser 1 "user".

Definition withdrawThirteen : WithdrawalRequest.t :=
  WithdrawalRequest.mk (Some 13) (Some "USDT") (Some "TXYZ-wallet").

(** User 1 has balance 5 and plan rows with profit 4 and 6. *)
Definition dbFunded : DB :=
  mkDB [plainUser 1 (Some "AAAAAAA1") 5]
       []
       [ UserPlanProgress.mk 1 1 100 4 2 true (Some 20);
         UserPlanProgress.mk 2 1 250 6 1 true (Some 21) ]
       [] [].

Definition withdrawEight : WithdrawalRequest.t :=
  WithdrawalRequest.mk (Some 8) (Some "USDT") (Some "TXYZ-wallet").

(** User 2, referred by user 1, has made no deposit yet. *)
Definition dbFresh : DB :=
  withUser [plainUser 1 (Some "AAAAAAA1") 0;
            referredUser 2 None 1 "AAAAAAA1" 0] emptyDB.

Definition deposit250 : DepositRequest.t :=
  DepositRequest.mk (Some "0xccc") (Some 250) (Some "USDT") "".

(** User 2, referred by user 1, with an approved deposit and a plan row
    whose amount (999) is no tier of the table. *)
Definition dbOddPlan : DB :=
  mkDB [plainUser 1 (Some "AAAAAAA1") 0; referredUser 2 None 1 "AAAAAAA1" 0]
       [ Deposit.mk 1 2 999 "USDT" "0xddd" "" Deposit.approved (Some 5) 4 ]
       [ UserPlanProgress.mk 1 2 999 0 0 false None ]
       [] [].

(** attempt 0 draws ["00000000"], every later attempt ["11111111"] *)
Definition stepRng (attempt i : nat) : byte :=
  match attempt with O => x00 | S _ => x01 end.

(** every draw is index 0: the statistics route generates ["AAAAAAAA"] *)
Definition firstDraw (i : nat) : nat := 0%nat.

(** user 2 of [dbFresh] after a submitted deposit of 250, still pending *)
Definition dbSubmitted : DB :=
  withDeposit [Deposit.mk 1 2 250 "USDT" "0xccc" "" Deposit.pending None 40]
    dbFresh.


(** * Properties *)

Unset Implicit Arguments.

(** projections of a store out of the [with...] updates *)
Ltac store_simpl :=
  cbn [user deposit userPlanProgress referralReward withdrawal
       withUser withDeposit withProgress withReward withWithdrawal].

Ltac store_simpl_in H :=
  cbn [user deposit userPlanProgress referralReward withdrawal
       withUser withDeposit withProgress withReward withWithdrawal] in H.

(** ** Tables *)

Section TableFacts.
Context {A : Type} `{Row A}.

Lemma update_found (i : Z) (f : A -> A) (t : list A) (r : A) :
  findUnique i t = Some r ->
  update i f t = Ok (map (fun x => if hasId i x then f x else x) t, f r).
Proof. unfold update. intros ->. reflexivity. Qed.

Lemma update_missing (i : Z) (f : A -> A) (t : list A) :
  findUnique i t = None -> update i f t = Throw "Record to update not found".
Proof. unfold update. intros ->. reflexivity. Qed.

Lemma update_inv (i : Z) (f : A -> A) (t t' : list A) (r' : A) :
  update i f t = Ok (t', r') ->
  exists r, findUnique i t = Some r
            /\ t' = map (fun x => if hasId i x then f x else x) t
            /\ r' = f r.
Proof.
  unfold update. destruct (findUnique i t) as [r|]; [|discriminate].
  intros E. inversion E; subst. exists r. auto.
Qed.

Lemma findUnique_hasId (i : Z) (t : list A) (r : A) :
  findUnique i t = Some r -> row_id r = i /\ In r t.
Proof.
  unfold findUnique. intros E. apply find_some in E. destruct E as [Hin Hid].
  unfold hasId in Hid. apply Z.eqb_eq in Hid. auto.
Qed.

(** With unique keys, the row found under a key is the row that carries it. *)
Lemma findUnique_In (t : list A) (r : A) :
  NoDup (map row_id t) -> In r t -> findUnique (row_id r) t = Some r.
Proof.
  unfold findUnique. induction t as [|x t IH]; simpl; [tauto|].
  intros Hnd [->|Hin].
  - unfold hasId. now rewrite Z.eqb_refl.
  - inversion Hnd as [|? ? Hx Hnd']; subst.
    unfold hasId at 1. destruct (row_id x =? row_id r) eqn:E.
    + apply Z.eqb_eq in E. exfalso. apply Hx. rewrite E. now apply in_map.
    + auto.
Qed.

(** After an update that keeps keys, the row under any key is the image of
    the row that was there. *)
Lemma findUnique_map (i j : Z) (f : A -> A) (t : list A) :
  (forall x, row_id (f x) = row_id x) ->
  findUnique j (map (fun x => if hasId i x then f x else x) t)
  = option_map (fun x => if hasId i x then f x else x) (findUnique j t).
Proof.
  intros Hf. unfold findUnique. induction t as [|x t IH]; simpl; [reflexivity|].
  assert (E : hasId j (if hasId i x then f x else x) = hasId j x).
  { unfold hasId. destruct (row_id x =? i); [now rewrite Hf|reflexivity]. }
  rewrite E. destruct (hasId j x); [reflexivity|exact IH].
Qed.

Lemma map_update_ids (i : Z) (f : A -> A) (t : list A) :
  (forall x, row_id (f x) = row_id x) ->
  map row_id (map (fun x => if hasId i x then f x else x) t) = map row_id t.
Proof.
  intros Hf. rewrite map_map. apply map_ext. intros x.
  destruct (hasId i x); [apply Hf|reflexivity].
Qed.

Lemma insertBy_perm (le : A -> A -> bool) (x : A) (l : list A) :
  Permutation (insertBy le x l) (x :: l).
Proof.
  induction l as [|y l IH]; simpl; [reflexivity|].
  destruct (le x y); [reflexivity|].
  rewrite IH. apply perm_swap.
Qed.

Lemma orderBy_perm (le : A -> A -> bool) (l : list A) :
  Permutation (orderBy le l) l.
Proof.
  induction l as [|x l IH]; simpl; [constructor|].
  rewrite insertBy_perm. now constructor.
Qed.

Lemma orderBy_In (le : A -> A -> bool) (l : list A) (x : A) :
  In x (orderBy le l) <-> In x l.
Proof.
  split; apply Permutation_in; [|symmetry]; apply orderBy_perm.
Qed.

End TableFacts.

Lemma find_app_none {A : Type} (p : A -> bool) (l l' : list A) :
  find p l = None -> find p (l ++ l') = find p l'.
Proof.
  induction l as [|x l IH]; simpl; [reflexivity|].
  destruct (p x); [discriminate|exact IH].
Qed.

Lemma find_app_some {A : Type} (p : A -> bool) (l l' : list A) (x : A) :
  find p l = Some x -> find p (l ++ l') = Some x.
Proof.
  induction l as [|y l IH]; simpl; [discriminate|].
  destruct (p y); [auto|exact IH].
Qed.

Lemma find_none_iff {A : Type} (p : A -> bool) (l : list A) :
  find p l = None <-> (forall x, In x l -> p x = false).
Proof.
  split.
  - intros E x Hx. eapply find_none; eauto.
  - induction l as [|y l IH]; simpl; [reflexivity|]. intros Hall.
    rewrite (Hall y (or_introl eq_refl)). apply IH. intros x Hx. apply Hall. now right.
Qed.

Lemma filter_nil_iff {A : Type} (p : A -> bool) (l : list A) :
  filter p l = [] <-> (forall x, In x l -> p x = false).
Proof.
  induction l as [|y l IH]; simpl.
  - split; [intros _ x []|reflexivity].
  - destruct (p y) eqn:E; split.
    + discriminate.
    + intros Hall. rewrite (Hall y (or_introl eq_refl)) in E. discriminate.
    + intros Hn x [->|Hx]; [exact E|]. now apply IH.
    + intros Hall. apply IH. intros x Hx. apply Hall. now right.
Qed.

(** ** Referral code registry *)

Lemma alphabet_ok (k : nat) :
  (k < 36)%nat ->
  exists c, charAt chars k = String c EmptyString /\ isUpperAlnum c = true.
Proof.
  intros Hk.
  assert (Hall : forallb
            (fun k => match String.get k chars with
                      | Some c => isUpperAlnum c
                      | None => false
                      end) (seq 0 36) = true) by (vm_compute; reflexivity).
  rewrite forallb_forall in Hall.
  specialize (Hall k). rewrite in_seq in Hall.
  assert (Hin : (0 <= k < 0 + 36)%nat) by lia. specialize (Hall Hin).
  unfold charAt. destruct (String.get k chars) as [c|]; [|discriminate].
  exists c. auto.
Qed.

Lemma generateFrom_shape (rv : nat -> byte) (n i : nat) :
  String.length (generateFrom rv i n) = n
  /\ forallb isUpperAlnum (list_ascii_of_string (generateFrom rv i n)) = true.
Proof.
  revert i. induction n as [|n IH]; intros i; [simpl; auto|].
  destruct (alphabet_ok (Byte.to_nat (rv i) mod 36)) as [c [Hc Hal]].
  { apply Nat.mod_upper_bound. discriminate. }
  cbn [generateFrom]. change (String.length chars) with 36%nat.
  rewrite Hc. cbn [append String.length list_ascii_of_string forallb].
  destruct (IH (S i)) as [Hlen Hall]. rewrite Hlen, Hal, Hall. auto.
Qed.

(** Every candidate is eight characters over the alphabet. *)
Lemma generateReferralCode_canonical (rv : nat -> byte) :
  isCanonicalCode (generateReferralCode rv 8) = true.
Proof.
  unfold isCanonicalCode, generateReferralCode.
  destruct (generateFrom_shape rv 8 0) as [Hlen Hall].
  rewrite Hlen, Hall. reflexivity.
Qed.

Lemma canonical_nonempty (c : string) :
  isCanonicalCode c = true -> (String.length c =? 0)%nat = false.
Proof.
  unfold isCanonicalCode. intros E. apply andb_prop in E. destruct E as [E _].
  apply Nat.eqb_eq in E. now rewrite E.
Qed.

(** The loop draws at most [left] candidates, the first ones of the random
    source in order. *)
Lemma retryLoop_candidates (rng : nat -> nat -> byte) (userId : Z) (left : nat) :
  forall db attempts tried,
    exists n, (n <= left)%nat
      /\ candidates (retryLoop rng userId db left attempts tried)
         = tried ++ attemptCodes rng attempts n.
Proof.
  induction left as [|left IH]; intros db attempts tried; simpl.
  - exists 0%nat. split; [lia|]. now rewrite app_nil_r.
  - assert (Hrec : forall db',
        exists n, (n <= S left)%nat
          /\ candidates (retryLoop rng userId db' left (S attempts)
                           (tried ++ [generateReferralCode (rng attempts) 8]))
             = tried ++ attemptCodes rng attempts n).
    { intros db'. destruct (IH db' (S attempts)
        (tried ++ [generateReferralCode (rng attempts) 8])) as [n [Hn E]].
      exists (S n). split; [lia|]. rewrite E. unfold attemptCodes. simpl.
      now rewrite <- app_assoc. }
    destruct (assignCode db userId _) as [[[db' u]|]|e]; auto.
    destruct (User.referralCode u) as [c|]; auto.
    destruct (String.length c =? 0)%nat; auto.
    exists 1%nat. split; [lia|]. reflexivity.
Qed.

(** When every candidate is taken, the loop gives up after [left] draws and
    has written nothing. *)
Lemma retryLoop_exhausted (rng : nat -> nat -> byte) (userId : Z) (db : DB)
  (left : nat) :
  forall attempts tried,
    (forall k, (attempts <= k < attempts + left)%nat ->
       exists v, findFirst (referralCodeIs (generateReferralCode (rng k) 8))
                   (user db) = Some v) ->
    retryLoop rng userId db left attempts tried
    = mkCodeRun
        (Throw "Failed to generate a unique referral code after multiple attempts")
        db (tried ++ attemptCodes rng attempts left).
Proof.
  induction left as [|left IH]; intros attempts tried Htaken; simpl.
  - now rewrite app_nil_r.
  - destruct (Htaken attempts) as [v Hv]; [lia|].
    unfold assignCode. rewrite Hv. rewrite IH.
    + unfold attemptCodes. simpl. now rewrite <- app_assoc.
    + intros k Hk. apply Htaken. lia.
Qed.

(** C9. [getOrCreateUserReferralCode] is a total function whose loop draws
    at most ten candidates, each of them eight characters over [0-9A-Z]; a
    user whose code already has the canonical format gets it back with no
    draw and no write; and when the user has no such code and all ten
    candidates are taken, the call throws the exhaustion error after exactly
    ten draws, leaving the store as it was. *)
Theorem getOrCreateUserReferralCode_bounded
  (rng : nat -> nat -> byte) (db : DB) (userId : Z) :
  let run := getOrCreateUserReferralCode rng db userId in
  (List.length (candidates run) <= maxAttempts)%nat
  /\ Forall (fun c => isCanonicalCode c = true) (candidates run)
  /\ (forall u c,
        findUnique userId (user db) = Some u ->
        User.referralCode u = Some c ->
        isCanonicalCode c = true ->
        run = mkCodeRun (Ok c) db [])
  /\ (forall u,
        findUnique userId (user db) = Some u ->
        match User.referralCode u with
        | Some c => isCanonicalCode c = false
        | None => True
        end ->
        (forall k, (k < maxAttempts)%nat ->
           exists v, findFirst (referralCodeIs (generateReferralCode (rng k) 8))
                       (user db) = Some v) ->
        run = mkCodeRun
                (Throw "Failed to generate a unique referral code after multiple attempts")
                db (attemptCodes rng 0 maxAttempts)).
Proof.
  intros run.
  assert (Hcand : exists n, (n <= maxAttempts)%nat
                            /\ candidates run = attemptCodes rng 0 n).
  { subst run. unfold getOrCreateUserReferralCode.
    destruct (findUnique userId (user db)) as [u|];
      [|exists 0%nat; split; [lia|reflexivity]].
    destruct (User.referralCode u) as [c|].
    - destruct (negb (String.length c =? 0)%nat && isCanonicalCode c).
      + exists 0%nat. split; [lia|reflexivity].
      + apply (retryLoop_candidates rng userId maxAttempts db 0 []).
    - apply (retryLoop_candidates rng userId maxAttempts db 0 []). }
  destruct Hcand as [n [Hn Hc]].
  split; [|split; [|split]].
  - rewrite Hc. unfold attemptCodes. rewrite length_map, length_seq. exact Hn.
  - rewrite Hc. unfold attemptCodes. apply Forall_forall. intros c Hin.
    apply in_map_iff in Hin. destruct Hin as [k [<- _]].
    apply generateReferralCode_canonical.
  - intros u c Hu Hcode Hcan. subst run. unfold getOrCreateUserReferralCode.
    rewrite Hu, Hcode, Hcan, (canonical_nonempty c Hcan). reflexivity.
  - intros u Hu Hbad Htaken. subst run. unfold getOrCreateUserReferralCode.
    rewrite Hu.
    assert (Hloop : retryLoop rng userId db maxAttempts 0 []
                    = mkCodeRun
                        (Throw "Failed to generate a unique referral code after multiple attempts")
                        db (attemptCodes rng 0 maxAttempts)).
    { rewrite retryLoop_exhausted; [reflexivity|].
      intros k Hk. apply Htaken. lia. }
    destruct (User.referralCode u) as [c|]; [|exact Hloop].
    rewrite Hbad, andb_false_r. exact Hloop.
Qed.

(** A user with a canonical code, and a store in which all ten draws
    collide. *)
Lemma getOrCreateUserReferralCode_bounded_witness :
  getOrCreateUserReferralCode zeroRng dbHasCode 1
  = mkCodeRun (Ok "ABCDEFG1") dbHasCode []
  /\ getOrCreateUserReferralCode zeroRng dbCollide 1
     = mkCodeRun
         (Throw "Failed to generate a unique referral code after multiple attempts")
         dbCollide (attemptCodes zeroRng 0 maxAttempts).
Proof.
  split.
  - apply (getOrCreateUserReferralCode_bounded zeroRng dbHasCode 1)
      with (u := plainUser 1 (Some "ABCDEFG1") 0); reflexivity.
  - apply (getOrCreateUserReferralCode_bounded zeroRng dbCollide 1)
      with (u := plainUser 1 (Some "b7e1-legacy-uuid") 0).
    + reflexivity.
    + reflexivity.
    + intros k _. exists (plainUser 2 (Some "00000000") 0). reflexivity.
Defined.

(** ** Reconciliation *)

Lemma list_ascii_of_string_app (a b : string) :
  list_ascii_of_string (a ++ b)%string
  = list_ascii_of_string a ++ list_ascii_of_string b.
Proof. induction a as [|c a IH]; simpl; [reflexivity|now rewrite IH]. Qed.

Lemma prefixb_app (p q : list ascii) : prefixb p (p ++ q) = true.
Proof.
  induction p as [|c p IH]; simpl; [reflexivity|].
  now rewrite Ascii.eqb_refl, IH.
Qed.

Lemma endsWith_append (s suffix : string) :
  endsWith (s ++ suffix)%string suffix = true.
Proof.
  unfold endsWith. rewrite list_ascii_of_string_app, rev_app_distr.
  apply prefixb_app.
Qed.

Lemma fold_left_add_acc {A : Type} (f : A -> Z) (l : list A) (a : Z) :
  fold_left (fun sum x => sum + f x) l a = a + sumZ (map f l).
Proof.
  revert a. induction l as [|x l IH]; intros a; simpl; [lia|].
  rewrite IH. lia.
Qed.

Lemma sumAmount_sumZ (rs : list ReferralReward.t) :
  AllProgress.sumAmount rs = sumZ (map ReferralReward.amount rs).
Proof. unfold AllProgress.sumAmount. now rewrite fold_left_add_acc. Qed.

Lemma sumZ_nonneg (l : list Z) : Forall (fun x => 0 <= x) l -> 0 <= sumZ l.
Proof. induction 1; simpl; lia. Qed.

Lemma unique_row {A : Type} `{Row A} (t : list A) (a b : A) :
  NoDup (map row_id t) -> In a t -> In b t -> row_id a = row_id b -> a = b.
Proof.
  intros Hnd Ha Hb E.
  pose proof (findUnique_In t a Hnd Ha) as Fa.
  pose proof (findUnique_In t b Hnd Hb) as Fb.
  rewrite E in Fa. congruence.
Qed.

Module ReconcileFacts.
Import AllProgress.
Import Marking.

Lemma mark_id (r x : ReferralReward.t) : row_id (mark r x) = row_id x.
Proof. reflexivity. Qed.

Lemma markCredited_map (rows : list ReferralReward.t) :
  forall tbl,
    (forall r, In r rows ->
       exists r0, findUnique (ReferralReward.id r) tbl = Some r0) ->
    markCredited rows tbl = Ok (map (applyMarks rows) tbl).
Proof.
  induction rows as [|r rows IH]; intros tbl Hex; simpl.
  - now rewrite map_id.
  - destruct (Hex r (or_introl eq_refl)) as [r0 Hr0].
    rewrite (update_found _ _ _ _ Hr0). simpl.
    rewrite IH.
    + now rewrite map_map.
    + intros r' Hin. destruct (Hex r' (or_intror Hin)) as [r1 Hr1].
      rewrite (findUnique_map _ _ (mark r) tbl (mark_id r)), Hr1.
      simpl. eauto.
Qed.

Lemma applyMarks_row (x : ReferralReward.t) (rows : list ReferralReward.t) :
  (forall r, In r rows -> ReferralReward.id r = ReferralReward.id x -> r = x) ->
  forall y, y = x \/ y = mark x x ->
    applyMarks rows y
    = if existsb (fun r => ReferralReward.id r =? ReferralReward.id x) rows
      then mark x x else y.
Proof.
  unfold applyMarks.
  induction rows as [|r rows IH]; intros Hsame y Hy; simpl; [reflexivity|].
  assert (Hid : ReferralReward.id y = ReferralReward.id x)
    by (destruct Hy as [->| ->]; reflexivity).
  assert (Hh : hasId (ReferralReward.id r) y
               = (ReferralReward.id r =? ReferralReward.id x)).
  { unfold hasId. simpl. rewrite Hid. apply Z.eqb_sym. }
  rewrite Hh.
  destruct (ReferralReward.id r =? ReferralReward.id x) eqn:E; simpl.
  - apply Z.eqb_eq in E. rewrite (Hsame r (or_introl eq_refl) E).
    assert (Hm : mark x y = mark x x) by (destruct Hy as [->| ->]; reflexivity).
    rewrite Hm, IH;
      [|intros r' Hr' Er'; apply Hsame; [now right|exact Er']|now right].
    now destruct (existsb _ rows).
  - apply IH; [intros r' Hr' Er'; apply Hsame; [now right|exact Er']|exact Hy].
Qed.

(** With unique keys, marking the rows a filter selected is a map over the
    table that rewrites exactly those rows. *)
Lemma markCredited_filter (p : ReferralReward.t -> bool)
  (tbl : list ReferralReward.t) :
  NoDup (map row_id tbl) ->
  markCredited (filter p tbl) tbl
  = Ok (map (fun x => if p x then mark x x else x) tbl).
Proof.
  intros Hnd. rewrite markCredited_map.
  - f_equal. apply map_ext_in. intros x Hx.
    rewrite (@applyMarks_row x (filter p tbl)); [| |now left].
    + destruct (p x) eqn:Px.
      * assert (Hex : existsb (fun r => ReferralReward.id r =? ReferralReward.id x)
                        (filter p tbl) = true).
        { apply existsb_exists. exists x. split; [|apply Z.eqb_refl].
          apply filter_In. auto. }
        now rewrite Hex.
      * assert (Hex : existsb (fun r => ReferralReward.id r =? ReferralReward.id x)
                        (filter p tbl) = false).
        { apply not_true_is_false. intros Ht. apply existsb_exists in Ht.
          destruct Ht as [r [Hr E]]. apply filter_In in Hr. destruct Hr as [Hr Pr].
          apply Z.eqb_eq in E.
          assert (r = x) by (apply (unique_row tbl); auto). subst r. congruence. }
        now rewrite Hex.
    + intros r Hr E. apply filter_In in Hr. destruct Hr as [Hr _].
      apply (unique_row tbl); auto.
  - intros r Hr. apply filter_In in Hr. destruct Hr as [Hr _].
    exists r. apply (findUnique_In tbl r Hnd Hr).
Qed.

Lemma marked_is_credited (userId : Z) (r x : ReferralReward.t) :
  uncredited userId (mark r x) = false.
Proof.
  unfold uncredited, mark, creditedLabel. simpl.
  rewrite endsWith_append. simpl. apply andb_false_r.
Qed.

End ReconcileFacts.

(** C1. Reconciliation credits once and is idempotent.  For a user whose
    row exists, over a reward table with unique keys and no negative amount:
    one run of the reconciliation transaction succeeds, adds to [balance]
    and to [totalEarned] exactly the sum of the paid rewards of the user as
    referrer that do not carry the credited marker, puts the marker on each
    of them and changes nothing else in the table; in the store it leaves no
    reward is uncredited, and a second run returns that store unchanged. *)
Theorem reconcile_idempotent (db : DB) (userId : Z) (u : User.t) :
  findUnique userId (user db) = Some u ->
  NoDup (map row_id (referralReward db)) ->
  Forall (fun r => 0 <= ReferralReward.amount r) (referralReward db) ->
  let owed := findMany (AllProgress.uncredited userId) (referralReward db) in
  let total := sumZ (map ReferralReward.amount owed) in
  exists db1 u1,
    AllProgress.reconcile db userId = Ok db1
    /\ findUnique userId (user db1) = Some u1
    /\ User.balance u1 = User.balance u + total
    /\ User.totalEarned u1 = User.totalEarned u + total
    /\ referralReward db1
       = map (fun r => if AllProgress.uncredited userId r
                       then ReferralReward.setPlanType
                              (AllProgress.creditedLabel r) r
                       else r) (referralReward db)
    /\ findMany (AllProgress.uncredited userId) (referralReward db1) = []
    /\ AllProgress.reconcile db1 userId = Ok db1.
Proof.
  intros Hu Hnd Hpos. cbv zeta.
  remember (findMany (AllProgress.uncredited userId) (referralReward db))
    as owed eqn:Eowed.
  set (total := sumZ (map ReferralReward.amount owed)).
  assert (Htot : 0 <= total).
  { apply sumZ_nonneg. apply Forall_forall. intros a Ha.
    apply in_map_iff in Ha. destruct Ha as [r [<- Hr]].
    rewrite Eowed in Hr. apply filter_In in Hr. destruct Hr as [Hr _].
    rewrite Forall_forall in Hpos. now apply Hpos. }
  assert (Hclean : forall tbl,
            findMany (AllProgress.uncredited userId)
              (map (fun r => if AllProgress.uncredited userId r
                             then Marking.mark r r else r) tbl) = []).
  { intros tbl. apply filter_nil_iff. intros x Hx. apply in_map_iff in Hx.
    destruct Hx as [r [<- _]].
    destruct (AllProgress.uncredited userId r) eqn:E; [|exact E].
    apply ReconcileFacts.marked_is_credited. }
  assert (Hagain : forall d,
            findMany (AllProgress.uncredited userId) (referralReward d) = [] ->
            AllProgress.reconcile d userId = Ok d).
  { intros d E. unfold AllProgress.reconcile. now rewrite E. }
  pose proof (ReconcileFacts.markCredited_filter
                (AllProgress.uncredited userId) (referralReward db) Hnd) as Hmark.
  unfold findMany in Eowed. rewrite <- Eowed in Hmark.
  destruct owed as [|r0 owed'].
  - (* nothing is owed *)
    exists db, u.
    assert (Hall : forall x, In x (referralReward db) ->
                             AllProgress.uncredited userId x = false).
    { apply filter_nil_iff. now rewrite <- Eowed. }
    split; [apply Hagain; unfold findMany; now rewrite <- Eowed|].
    split; [exact Hu|].
    split; [subst total; simpl; lia|].
    split; [subst total; simpl; lia|].
    split.
    { symmetry. erewrite map_ext_in; [apply map_id|].
      intros x Hx. simpl. now rewrite (Hall x Hx). }
    split; [unfold findMany; now rewrite <- Eowed|].
    apply Hagain. unfold findMany. now rewrite <- Eowed.
  - unfold AllProgress.reconcile at 1. unfold findMany. rewrite <- Eowed.
    change (0 <? List.length (r0 :: owed'))%nat with true. cbv iota.
    rewrite sumAmount_sumZ. fold total. rewrite Hmark.
    destruct (0 <? total) eqn:Epos.
    + rewrite (update_found _ _ _ _ Hu). simpl.
      eexists _, (User.credit total u). split; [reflexivity|]. simpl.
      split.
      { rewrite (findUnique_map userId userId (User.credit total) (user db));
          [|reflexivity].
        rewrite Hu. simpl. destruct (findUnique_hasId _ _ _ Hu) as [Hid _].
        unfold hasId. simpl in Hid. simpl. rewrite Hid, Z.eqb_refl. reflexivity. }
      split; [reflexivity|]. split; [reflexivity|]. split; [reflexivity|].
      split; [apply Hclean|]. apply Hagain. simpl. apply Hclean.
    + apply Z.ltb_ge in Epos. assert (total = 0) by lia. simpl.
      eexists _, u. split; [reflexivity|]. simpl.
      split; [exact Hu|].
      split; [lia|]. split; [lia|]. split; [reflexivity|].
      split; [apply Hclean|]. apply Hagain. simpl. apply Hclean.
Qed.

(** Two owed rewards (4 and 10) are folded into balance 100. *)
Lemma reconcile_idempotent_witness :
  exists db1 u1,
    AllProgress.reconcile dbOwed 1 = Ok db1
    /\ findUnique 1 (user db1) = Some u1
    /\ User.balance u1 = 100 + 14
    /\ User.totalEarned u1 = 100 + 14
    /\ referralReward db1
       = map (fun r => if AllProgress.uncredited 1 r
                       then ReferralReward.setPlanType
                              (AllProgress.creditedLabel r) r
                       else r) (referralReward dbOwed)
    /\ findMany (AllProgress.uncredited 1) (referralReward db1) = []
    /\ AllProgress.reconcile db1 1 = Ok db1.
Proof.
  apply (reconcile_idempotent dbOwed 1 (plainUser 1 (Some "AAAAAAA1") 100)).
  - reflexivity.
  - simpl. repeat constructor; simpl; intuition lia.
  - repeat constructor; simpl; lia.
Defined.

(** A reward paid through the approval route carries no credited marker:
    the next reconciliation credits its amount a second time. *)
Lemma approved_reward_is_reconciled_again :
  exists db1 r db2,
    approveTransaction 50 dbPending 1 = Ok (db1, r)
    /\ balanceOf dbPending 1 = 0
    /\ balanceOf db1 1 = 4
    /\ AllProgress.reconcile db1 1 = Ok db2
    /\ balanceOf db2 1 = 8.
Proof. eexists _, _, _. vm_compute. repeat split; reflexivity. Qed.

(** ** Approval *)

Section UpdateFacts.
Context {A : Type} `{Row A}.
Variable f : A -> A.
Hypothesis f_id : forall x, row_id (f x) = row_id x.

Lemma findUnique_updated (i : Z) (t : list A) (r : A) :
  findUnique i t = Some r ->
  findUnique i (map (fun x => if hasId i x then f x else x) t) = Some (f r).
Proof.
  intros E. rewrite (findUnique_map i i f t f_id), E. simpl.
  destruct (findUnique_hasId _ _ _ E) as [Hid _].
  unfold hasId. now rewrite Hid, Z.eqb_refl.
Qed.

Lemma findUnique_untouched (i j : Z) (t : list A) :
  i <> j ->
  findUnique j (map (fun x => if hasId i x then f x else x) t) = findUnique j t.
Proof.
  intros Hij. rewrite (findUnique_map i j f t f_id).
  destruct (findUnique j t) as [r|] eqn:E; [|reflexivity]. simpl.
  destruct (findUnique_hasId _ _ _ E) as [Hid _].
  unfold hasId. rewrite Hid.
  destruct (j =? i) eqn:Eji; [apply Z.eqb_eq in Eji; congruence|reflexivity].
Qed.

End UpdateFacts.

Lemma find_refine {A : Type} (p q : A -> bool) (l : list A) (r : A) :
  find p l = Some r -> q r = true -> find (fun x => p x && q x) l = Some r.
Proof.
  induction l as [|x l IH]; simpl; [discriminate|].
  destruct (p x) eqn:Px; simpl.
  - intros E Hq. inversion E; subst. now rewrite Hq.
  - auto.
Qed.

Section Approval.
Variables (now : Z) (db : DB) (rewardId : Z).
Hypothesis keys : NoDup (map row_id (referralReward db)).

Let paidRows : list ReferralReward.t :=
  map (fun x => if hasId rewardId x then ReferralReward.setPaid now x else x)
    (referralReward db).

Lemma no_pending_row :
  (findUnique rewardId (referralReward db) = None
   \/ exists r, findUnique rewardId (referralReward db) = Some r
                /\ ReferralReward.status r <> ReferralReward.pending) ->
  findFirst
    (fun r => hasId rewardId r
              && ReferralReward.status_eqb (ReferralReward.status r)
                   ReferralReward.pending) (referralReward db) = None.
Proof.
  intros Hcase. apply find_none_iff. intros x Hx.
  destruct (hasId rewardId x) eqn:Eid; [|reflexivity]. simpl.
  unfold hasId in Eid. apply Z.eqb_eq in Eid.
  pose proof (findUnique_In _ x keys Hx) as Fx. rewrite Eid in Fx.
  destruct Hcase as [Hn|[r [Hr Hs]]]; [congruence|].
  assert (r = x) by congruence. subst r.
  destruct (ReferralReward.status x); try reflexivity. congruence.
Qed.

Lemma approveTransaction_pending (r : ReferralReward.t) (u : User.t) :
  findUnique rewardId (referralReward db) = Some r ->
  ReferralReward.status r = ReferralReward.pending ->
  findUnique (ReferralReward.referrerId r) (user db) = Some u ->
  approveTransaction now db rewardId
  = Ok (withUser
          (map (fun x => if hasId (ReferralReward.referrerId r) x
                         then User.credit (ReferralReward.amount r) x else x)
             (user db))
          (withReward paidRows db),
        ReferralReward.setPaid now r).
Proof.
  intros Hr Hs Hu. unfold approveTransaction, findFirst.
  rewrite (find_refine (hasId rewardId)
             (fun x => ReferralReward.status_eqb (ReferralReward.status x)
                         ReferralReward.pending) _ r Hr);
    [|now rewrite Hs].
  rewrite (update_found _ _ _ _ Hr). simpl.
  rewrite (update_found _ _ _ _ Hu). reflexivity.
Qed.

Lemma approveTransaction_refused :
  (findUnique rewardId (referralReward db) = None
   \/ exists r, findUnique rewardId (referralReward db) = Some r
                /\ ReferralReward.status r <> ReferralReward.pending) ->
  approveTransaction now db rewardId
  = Throw "Pending reward not found or already processed".
Proof.
  intros Hcase. unfold approveTransaction. now rewrite (no_pending_row Hcase).
Qed.

Lemma approveReferralReward_unpaid (r : ReferralReward.t) (u : User.t) :
  findUnique rewardId (referralReward db) = Some r ->
  ReferralReward.status r <> ReferralReward.paid ->
  findUnique (recipient r) (user db) = Some u ->
  approveReferralReward now db rewardId
  = Ok (withReward paidRows
          (withUser
             (map (fun x => if hasId (recipient r) x
                            then User.credit (ReferralReward.amount r) x else x)
                (user db)) db),
        ReferralReward.setPaid now r).
Proof.
  intros Hr Hs Hu. unfold approveReferralReward. rewrite Hr.
  assert (E : ReferralReward.status_eqb (ReferralReward.status r)
                ReferralReward.paid = false)
    by (destruct (ReferralReward.status r); try reflexivity; congruence).
  rewrite E. fold (recipient r).
  rewrite (update_found _ _ _ _ Hu). simpl.
  rewrite (update_found _ _ _ _ Hr). reflexivity.
Qed.

Lemma approveReferralReward_refused :
  (findUnique rewardId (referralReward db) = None
   \/ exists r, findUnique rewardId (referralReward db) = Some r
                /\ ReferralReward.status r = ReferralReward.paid) ->
  approveReferralReward now db rewardId
  = Throw "Invalid or already processed reward".
Proof.
  intros [Hn|[r [Hr Hs]]]; unfold approveReferralReward.
  - now rewrite Hn.
  - now rewrite Hr, Hs.
Qed.

End Approval.

(** C2, as the code has it.  Over a reward table with unique keys.
    The admin route: a reward that exists and is pending becomes paid with
    [paidAt = now], its referrer is credited the amount in [balance] and
    [totalEarned], nothing else changes, and approving it again fails; a
    reward that is missing or not pending (paid or rejected) makes the
    transaction throw and the handler answer 500 with the store untouched.
    The library function: a pending reward becomes paid and the amount is
    credited to the referrer, or to the referred user when the reward is
    labelled "Referred User Bonus", and approving it again fails; a reward
    that is missing or already paid makes it throw. *)
Theorem approval_credits_once (now : Z) (db : DB) (rewardId : Z) :
  NoDup (map row_id (referralReward db)) ->
  (forall r u,
     findUnique rewardId (referralReward db) = Some r ->
     ReferralReward.status r = ReferralReward.pending ->
     findUnique (ReferralReward.referrerId r) (user db) = Some u ->
     exists db',
       approveTransaction now db rewardId = Ok (db', ReferralReward.setPaid now r)
       /\ findUnique rewardId (referralReward db')
          = Some (ReferralReward.setPaid now r)
       /\ findUnique (ReferralReward.referrerId r) (user db')
          = Some (User.credit (ReferralReward.amount r) u)
       /\ (forall j, j <> rewardId ->
             findUnique j (referralReward db') = findUnique j (referralReward db))
       /\ (forall j, j <> ReferralReward.referrerId r ->
             findUnique j (user db') = findUnique j (user db))
       /\ (forall now', approveTransaction now' db' rewardId
                        = Throw "Pending reward not found or already processed")
       /\ (rewardId <> 0 ->
           forall i,
             approveReferralRewardRoute now db (mkAuthUser i "admin")
               (Some rewardId)
             = (db', mkResponse 200
                       "Referral reward approved and paid successfully"
                       (Some (ReferralReward.setPaid now r)))))
  /\ ((findUnique rewardId (referralReward db) = None
       \/ exists r, findUnique rewardId (referralReward db) = Some r
                    /\ ReferralReward.status r <> ReferralReward.pending) ->
      approveTransaction now db rewardId
      = Throw "Pending reward not found or already processed"
      /\ (rewardId <> 0 ->
          forall i,
            approveReferralRewardRoute now db (mkAuthUser i "admin")
              (Some rewardId)
            = (db, respond 500 "Pending reward not found or already processed")))
  /\ (forall r u,
        findUnique rewardId (referralReward db) = Some r ->
        ReferralReward.status r = ReferralReward.pending ->
        findUnique (recipient r) (user db) = Some u ->
        exists db',
          approveReferralReward now db rewardId
          = Ok (db', ReferralReward.setPaid now r)
          /\ findUnique rewardId (referralReward db')
             = Some (ReferralReward.setPaid now r)
          /\ findUnique (recipient r) (user db')
             = Some (User.credit (ReferralReward.amount r) u)
          /\ (forall j, j <> rewardId ->
                findUnique j (referralReward db') = findUnique j (referralReward db))
          /\ (forall j, j <> recipient r ->
                findUnique j (user db') = findUnique j (user db))
          /\ (forall now', approveReferralReward now' db' rewardId
                           = Throw "Invalid or already processed reward"))
  /\ ((findUnique rewardId (referralReward db) = None
       \/ exists r, findUnique rewardId (referralReward db) = Some r
                    /\ ReferralReward.status r = ReferralReward.paid) ->
      approveReferralReward now db rewardId
      = Throw "Invalid or already processed reward").
Proof.
  intros keys.
  assert (Hpaid : forall r,
            findUnique rewardId (referralReward db) = Some r ->
            findUnique rewardId
              (map (fun x => if hasId rewardId x
                             then ReferralReward.setPaid now x else x)
                 (referralReward db)) = Some (ReferralReward.setPaid now r)).
  { intros r Hr. apply (findUnique_updated (ReferralReward.setPaid now));
      [reflexivity|exact Hr]. }
  assert (Hother : forall j, j <> rewardId ->
            findUnique j
              (map (fun x => if hasId rewardId x
                             then ReferralReward.setPaid now x else x)
                 (referralReward db)) = findUnique j (referralReward db)).
  { intros j Hj. apply (findUnique_untouched (ReferralReward.setPaid now));
      [reflexivity|congruence]. }
  assert (keys' : NoDup (map row_id
            (map (fun x => if hasId rewardId x
                           then ReferralReward.setPaid now x else x)
               (referralReward db)))).
  { rewrite map_update_ids; [exact keys|reflexivity]. }
  split; [|split; [|split]].
  - intros r u Hr Hs Hu.
    rewrite (approveTransaction_pending now db rewardId r u Hr Hs Hu).
    eexists. split; [reflexivity|]. simpl.
    split; [apply Hpaid, Hr|].
    split; [apply (findUnique_updated (User.credit (ReferralReward.amount r)));
            [reflexivity|exact Hu]|].
    split; [exact Hother|].
    split.
    + intros j Hj. apply (findUnique_untouched (User.credit (ReferralReward.amount r)));
        [reflexivity|congruence].
    + split.
      * intros now'. apply approveTransaction_refused; [exact keys'|].
        right. exists (ReferralReward.setPaid now r). split; [apply Hpaid, Hr|].
        discriminate.
      * intros Hnz i. unfold approveReferralRewardRoute. simpl.
        destruct (rewardId =? 0) eqn:E0; [apply Z.eqb_eq in E0; congruence|].
        now rewrite (approveTransaction_pending now db rewardId r u Hr Hs Hu).
  - intros Hcase.
    pose proof (approveTransaction_refused now db rewardId keys Hcase) as E.
    split; [exact E|]. intros Hnz i. unfold approveReferralRewardRoute. simpl.
    destruct (rewardId =? 0) eqn:E0; [apply Z.eqb_eq in E0; congruence|].
    now rewrite E.
  - intros r u Hr Hs Hu.
    rewrite (approveReferralReward_unpaid now db rewardId r u Hr);
      [|rewrite Hs; discriminate|exact Hu].
    eexists. split; [reflexivity|]. simpl.
    split; [apply Hpaid, Hr|].
    split; [apply (findUnique_updated (User.credit (ReferralReward.amount r)));
            [reflexivity|exact Hu]|].
    split; [exact Hother|].
    split.
    + intros j Hj. apply (findUnique_untouched (User.credit (ReferralReward.amount r)));
        [reflexivity|congruence].
    + intros now'. apply approveReferralReward_refused.
      right. exists (ReferralReward.setPaid now r). split; [apply Hpaid, Hr|].
      reflexivity.
  - apply approveReferralReward_refused.
Qed.

(** The pending reward of 4 is paid to referrer 1 by both variants. *)
Lemma approval_credits_once_witness :
  (exists db',
     approveTransaction 50 dbPending 1
     = Ok (db', ReferralReward.setPaid 50 rewardPending)
     /\ findUnique 1 (user db')
        = Some (User.credit 4 (plainUser 1 (Some "AAAAAAA1") 0)))
  /\ exists db',
       approveReferralReward 50 dbPending 1
       = Ok (db', ReferralReward.setPaid 50 rewardPending)
       /\ findUnique 1 (user db')
          = Some (User.credit 4 (plainUser 1 (Some "AAAAAAA1") 0)).
Proof.
  assert (keys : NoDup (map row_id (referralReward dbPending)))
    by (simpl; repeat constructor; simpl; tauto).
  destruct (approval_credits_once 50 dbPending 1 keys) as [Hroute [_ [Hlib _]]].
  split.
  - destruct (Hroute rewardPending (plainUser 1 (Some "AAAAAAA1") 0)
                eq_refl eq_refl eq_refl) as [db' [E [_ [Hu _]]]].
    exists db'. split; [exact E|exact Hu].
  - destruct (Hlib rewardPending (plainUser 1 (Some "AAAAAAA1") 0)
                eq_refl eq_refl eq_refl) as [db' [E [_ [Hu _]]]].
    exists db'. split; [exact E|exact Hu].
Defined.

(** The claim fails on the library function: a pending reward labelled
    "Referred User Bonus" is approved without any credit to its referrer
    (user 1 keeps balance 0); the amount goes to the referred user. *)
Lemma approve_bonus_label_skips_referrer :
  findUnique 1 (referralReward dbBonus) = Some rewardBonus
  /\ ReferralReward.status rewardBonus = ReferralReward.pending
  /\ ReferralReward.referrerId rewardBonus = 1
  /\ ReferralReward.amount rewardBonus = 4
  /\ exists db' r',
       approveReferralReward 50 dbBonus 1 = Ok (db', r')
       /\ ReferralReward.status r' = ReferralReward.paid
       /\ option_map User.balance (findUnique 1 (user dbBonus)) = Some 0
       /\ option_map User.balance (findUnique 1 (user db')) = Some 0
       /\ option_map User.balance (findUnique 2 (user dbBonus)) = Some 100
       /\ option_map User.balance (findUnique 2 (user db')) = Some 104.
Proof.
  repeat split; try reflexivity.
  eexists _, _. split; [reflexivity|]. repeat split; reflexivity.
Qed.

(** ** Who pays a reward *)


(** [processReferralReward] writes nothing, or appends one reward that is
    pending and unpaid. *)
Lemma processReferralReward_pending (now : Z) (db : DB) (referredUserId : Z) :
  let db' := fst (processReferralReward now db referredUserId) in
  user db' = user db
  /\ deposit db' = deposit db
  /\ userPlanProgress db' = userPlanProgress db
  /\ (referralReward db' = referralReward db
      \/ exists r, referralReward db' = referralReward db ++ [r]
                   /\ ReferralReward.status r = ReferralReward.pending
                   /\ ReferralReward.paidAt r = None
                   /\ ReferralReward.referredUserId r = referredUserId).
Proof.
  unfold processReferralReward.
  destruct (referrerOf db referredUserId) as [referrer|]; simpl; [|tauto].
  destruct (findFirst _ (referralReward db)); simpl; [tauto|].
  unfold createPendingReward.
  destruct (findFirst _ (orderBy idDesc (deposit db))); simpl; [|tauto].
  destruct (findFirst _ (orderBy idDesc (userPlanProgress db))) as [plan|];
    simpl; [|tauto].
  destruct (planReward _ <=? 0); simpl; [tauto|].
  repeat split. right. eexists. split; [reflexivity|]. simpl. auto.
Qed.

(** X16. The variant of [confirmDeposit] that leaves approval to the admin route
    keeps every existing reward and adds at most one, pending. *)
Lemma confirmDeposit_leaves_pending (now : Z) (db : DB) (caller : AuthUser)
  (req : DepositRequest.t) :
  let db' := fst (PendingOnly.confirmDeposit now db caller req) in
  referralReward db' = referralReward db
  \/ exists r, referralReward db' = referralReward db ++ [r]
               /\ ReferralReward.status r = ReferralReward.pending
               /\ ReferralReward.paidAt r = None.
Proof.
  unfold PendingOnly.confirmDeposit.
  destruct (validateDeposit db (auth_id caller) req) as [[[h a] c]|msg];
    simpl; [|tauto].
  unfold PendingOnly.depositTransaction. simpl.
  destruct (update (auth_id caller) (User.credit a) (user db)) as [[us u]|e];
    simpl; [|tauto].
  unfold PendingOnly.pendingReward. simpl.
  destruct (findUnique (auth_id caller) us) as [u'|]; simpl; [|tauto].
  destruct (truthyNum (User.referredById u')); simpl; [|tauto].
  match goal with |- context [if ?c then _ else _] => destruct c end;
    simpl; [|tauto].
  match goal with
  | |- context [processReferralReward now ?d ?i] =>
      destruct (processReferralReward_pending now d i) as [_ [_ [_ Hr]]]
  end.
  simpl in Hr. destruct Hr as [Hr|[r [Hr [Hs [Hp _]]]]]; [now left|].
  right. exists r. auto.
Qed.

(** The payout branch of the [confirmDeposit] that pays at once, run on a
    store that no handler produces: user 2 holds an approved deposit and has
    no plan row.  There the handler answers 201 and the reward it created
    for referrer 1 is already paid.  On the stores the handlers produce the
    branch is never reached (see the last section). *)
Theorem confirmDeposit_autopay_pays_without_admin :
  String.eqb (role callerTwo) "admin" = false
  /\ referralReward dbTwoDeposits = []
  /\ option_map User.balance (findUnique 1 (user dbTwoDeposits)) = Some 0
  /\ (let (db', resp) :=
        AutoPay.confirmDeposit 50 dbTwoDeposits callerTwo confirmSecond in
      httpStatus resp = 201
      /\ referralReward db'
         = [ ReferralReward.mk 1 1 2 4 100 (Some "Referral Bonus ($100 Plan)")
               ReferralReward.paid 50 (Some 50) ]
      /\ option_map User.balance (findUnique 1 (user db')) = Some 4
      /\ option_map User.totalEarned (findUnique 1 (user db')) = Some 4).
Proof. vm_compute. repeat split; reflexivity. Qed.

(** ** One reward per referred user *)

(** C4, evaluated where the code departs from it.  Two calls of
    [processReferralReward] for user 2 leave two reward rows for the pair
    (referrer 1, referred 2): the guard looks for a paid reward only, and
    the row of the first call is pending. *)
Theorem processReferralReward_twice_two_rows :
  referralReward dbFirstDeposit = []
  /\ (let (db1, res1) := processReferralReward 50 dbFirstDeposit 2 in
      let (db2, res2) := processReferralReward 60 db1 2 in
      referralReward db1
      = [ ReferralReward.mk 1 1 2 4 100 (Some "Referral Bonus ($100 Plan)")
            ReferralReward.pending 50 None ]
      /\ referralReward db2
         = [ ReferralReward.mk 1 1 2 4 100 (Some "Referral Bonus ($100 Plan)")
               ReferralReward.pending 50 None;
             ReferralReward.mk 2 1 2 4 100 (Some "Referral Bonus ($100 Plan)")
               ReferralReward.pending 60 None ]
      /\ isOk res1 = true /\ isOk res2 = true).
Proof. vm_compute. repeat split; reflexivity. Qed.

Lemma nextId_above {A : Type} `{Row A} (t : list A) (x : A) :
  In x t -> row_id x < nextId t.
Proof.
  unfold nextId. induction t as [|y t IH]; [intros []|].
  cbn [map fold_right In].
  intros [->|Hin]; [lia|]. specialize (IH Hin). lia.
Qed.

(** X8. Whenever a call of [processReferralReward] creates a reward, the next
    call for the same user creates a second one for the same pair. *)
Lemma processReferralReward_repeats (now now' : Z) (db db1 : DB)
  (referredUserId : Z) (res : RewardResult) :
  processReferralReward now db referredUserId = (db1, Ok (Some res)) ->
  exists r1 r2 res',
    db1 = withReward (referralReward db ++ [r1]) db
    /\ processReferralReward now' db1 referredUserId
       = (withReward (referralReward db ++ [r1; r2]) db, Ok (Some res'))
    /\ ReferralReward.status r1 = ReferralReward.pending
    /\ ReferralReward.status r2 = ReferralReward.pending
    /\ ReferralReward.referrerId r2 = ReferralReward.referrerId r1
    /\ ReferralReward.referredUserId r1 = referredUserId
    /\ ReferralReward.referredUserId r2 = referredUserId
    /\ ReferralReward.id r1 < ReferralReward.id r2.
Proof.
  unfold processReferralReward.
  destruct (referrerOf db referredUserId) as [referrer|] eqn:Eref;
    [|discriminate].
  destruct (findFirst (paidRewardOf referredUserId (User.id referrer))
              (referralReward db)) eqn:Epaid; [discriminate|].
  unfold createPendingReward.
  destruct (findFirst _ (orderBy idDesc (deposit db))) eqn:Edep;
    [|discriminate].
  destruct (findFirst _ (orderBy idDesc (userPlanProgress db))) as [plan|] eqn:Eplan;
    [|discriminate].
  destruct (planReward (toString (UserPlanProgress.planAmount plan)) <=? 0) eqn:Eamt;
    [discriminate|].
  simpl. intros E. inversion E; subst; clear E.
  set (r1 := ReferralReward.mk (nextId (referralReward db)) (User.id referrer)
               referredUserId
               (planReward (toString (UserPlanProgress.planAmount plan)))
               (UserPlanProgress.planAmount plan)
               (Some (planTypeLabel (UserPlanProgress.planAmount plan)))
               ReferralReward.pending now None).
  set (r2 := ReferralReward.mk (nextId (referralReward db ++ [r1]))
               (User.id referrer) referredUserId
               (planReward (toString (UserPlanProgress.planAmount plan)))
               (UserPlanProgress.planAmount plan)
               (Some (planTypeLabel (UserPlanProgress.planAmount plan)))
               ReferralReward.pending now' None).
  exists r1, r2. eexists. split; [reflexivity|].
  split.
  - assert (Eref' : referrerOf (withReward (referralReward db ++ [r1]) db)
                      referredUserId = Some referrer) by exact Eref.
    rewrite Eref'. simpl referralReward. unfold findFirst.
    rewrite (find_app_none _ _ _ Epaid). simpl.
    unfold paidRewardOf at 1. simpl. rewrite andb_false_r.
    unfold findFirst in Edep, Eplan.
    simpl deposit. rewrite Edep.
    simpl userPlanProgress. rewrite Eplan, Eamt.
    unfold withReward. simpl. rewrite <- app_assoc. reflexivity.
  - do 5 (split; [reflexivity|]).
    change (row_id r1 < nextId (referralReward db ++ [r1])).
    apply nextId_above. apply in_or_app. right. now left.
Qed.

(** ** Attribution *)

(** C5, as the code has it.  [processReferral] never reads the user's
    current referrer.  Over a user table with unique keys: when the code is
    present and, upper-cased, belongs to another user, the call sets
    [referredById] and [referredByCode] of the user to that referrer,
    whatever they were before, adds one to the referrer's [referralCount]
    and changes no other user; when the code is missing or empty, or no
    other user holds it, the store is returned as it was. *)
Theorem processReferral_sets_referrer (db : DB) (userId : Z)
  (referralCode : option string) :
  NoDup (map row_id (user db)) ->
  (forall code referrer u,
     truthyStr referralCode = Some code ->
     findFirst (codeOwner code userId) (user db) = Some referrer ->
     findUnique userId (user db) = Some u ->
     exists db',
       processReferral db userId referralCode
       = (db', Ok (Some (User.id referrer)))
       /\ findUnique userId (user db')
          = Some (User.setReferredBy (toUpperCase code) (User.id referrer) u)
       /\ findUnique (User.id referrer) (user db')
          = Some (User.incReferralCount referrer)
       /\ (forall j, j <> userId -> j <> User.id referrer ->
             findUnique j (user db') = findUnique j (user db)))
  /\ ((truthyStr referralCode = None
       \/ exists code, truthyStr referralCode = Some code
                       /\ findFirst (codeOwner code userId) (user db) = None) ->
      processReferral db userId referralCode = (db, Ok None)).
Proof.
  intros keys. split.
  - intros code referrer u Hcode Hfind Hu.
    unfold processReferral. rewrite Hcode.
    fold (codeOwner code userId). rewrite Hfind.
    rewrite (update_found _ _ _ _ Hu).
    unfold findFirst in Hfind. apply find_some in Hfind.
    destruct Hfind as [Hin Hp]. unfold codeOwner in Hp.
    apply andb_prop in Hp. destruct Hp as [_ Hne].
    apply negb_true_iff, Z.eqb_neq in Hne.
    pose proof (findUnique_In _ referrer keys Hin) as Href.
    change (row_id referrer) with (User.id referrer) in Href.
    set (setRef := User.setReferredBy (toUpperCase code) (User.id referrer)).
    assert (Href1 : findUnique (User.id referrer)
                      (map (fun x => if hasId userId x then setRef x else x)
                         (user db)) = Some referrer).
    { rewrite (findUnique_untouched setRef); [exact Href|reflexivity|congruence]. }
    rewrite (update_found _ _ _ _ Href1).
    eexists. split; [reflexivity|]. simpl.
    split; [|split].
    + rewrite (findUnique_untouched User.incReferralCount);
        [|reflexivity|exact Hne].
      apply (findUnique_updated setRef); [reflexivity|exact Hu].
    + apply (findUnique_updated User.incReferralCount); [reflexivity|exact Href1].
    + intros j Hj1 Hj2.
      rewrite (findUnique_untouched User.incReferralCount);
        [|reflexivity|congruence].
      apply (findUnique_untouched setRef); [reflexivity|congruence].
  - intros [Hn|[code [Hcode Hfind]]]; unfold processReferral.
    + now rewrite Hn.
    + rewrite Hcode. fold (codeOwner code userId). now rewrite Hfind.
Qed.

(** User 2 is attributed to user 1 through the code of user 1. *)
Lemma processReferral_sets_referrer_witness :
  exists db',
    processReferral dbThree 2 (Some "aaaaaaa1") = (db', Ok (Some 1))
    /\ findUnique 2 (user db')
       = Some (User.setReferredBy "AAAAAAA1" 1 (plainUser 2 None 0))
    /\ findUnique 1 (user db')
       = Some (User.incReferralCount (plainUser 1 (Some "AAAAAAA1") 0)).
Proof.
  assert (keys : NoDup (map row_id (user dbThree))).
  { simpl. repeat constructor; simpl; intuition discriminate. }
  destruct (processReferral_sets_referrer dbThree 2 (Some "aaaaaaa1") keys)
    as [Hset _].
  destruct (Hset "aaaaaaa1" (plainUser 1 (Some "AAAAAAA1") 0)
              (plainUser 2 None 0) eq_refl eq_refl eq_refl)
    as [db' [E [H2 [H1 _]]]].
  exists db'. split; [exact E|]. split; [exact H2|exact H1].
Defined.

(** The claim fails: attributing user 2 first with the code of user 1 and
    then with the code of user 3 leaves user 3 recorded as the referrer;
    the second call is not a no-op and counts a referral for user 3. *)
Lemma processReferral_second_call_overwrites :
  let (db1, res1) := processReferral dbThree 2 (Some "AAAAAAA1") in
  let (db2, res2) := processReferral db1 2 (Some "CCCCCCC3") in
  option_map User.referredById (findUnique 2 (user db1)) = Some (Some 1)
  /\ option_map User.referredById (findUnique 2 (user db2)) = Some (Some 3)
  /\ option_map User.referredByCode (findUnique 2 (user db2))
     = Some (Some "CCCCCCC3")
  /\ option_map User.referralCount (findUnique 1 (user db2)) = Some 1
  /\ option_map User.referralCount (findUnique 3 (user db2)) = Some 1.
Proof. vm_compute. repeat split; reflexivity. Qed.

(** ** Totals *)

Lemma sumZ_perm (l l' : list Z) : Permutation l l' -> sumZ l = sumZ l'.
Proof. induction 1; simpl; lia. Qed.

Lemma sumZ_app (l l' : list Z) : sumZ (l ++ l') = sumZ l + sumZ l'.
Proof. induction l as [|x l IH]; simpl; lia. Qed.

Lemma orZero_id (x : Z) : orZero x = x.
Proof. unfold orZero. destruct (x =? 0) eqn:E; [apply Z.eqb_eq in E|]; lia. Qed.

Lemma sumProfit_sumZ (ps : list UserPlanProgress.t) :
  AllProgress.sumProfit ps = sumZ (map UserPlanProgress.profit ps).
Proof.
  unfold AllProgress.sumProfit.
  rewrite (fold_left_add_acc (fun p => orZero (UserPlanProgress.profit p))).
  simpl. f_equal. apply map_ext. intros p. apply orZero_id.
Qed.

Lemma progressesOf_profit (db : DB) (userId : Z) :
  AllProgress.sumProfit (AllProgress.progressesOf db userId)
  = planProfitOf db userId.
Proof.
  rewrite sumProfit_sumZ. unfold AllProgress.progressesOf, planProfitOf, findMany.
  apply sumZ_perm, Permutation_map, orderBy_perm.
Qed.

Lemma upsertProgress_profit (userId planAmount : Z)
  (t : list UserPlanProgress.t) :
  sumZ (map UserPlanProgress.profit
          (filter (fun p => UserPlanProgress.userId p =? userId)
             (upsertProgress userId planAmount t)))
  = sumZ (map UserPlanProgress.profit
            (filter (fun p => UserPlanProgress.userId p =? userId) t)).
Proof.
  unfold upsertProgress. destruct (findFirst _ t); [reflexivity|].
  simpl. rewrite filter_app. simpl. rewrite Z.eqb_refl.
  rewrite map_app, sumZ_app. simpl. lia.
Qed.

(** Creating the missing plan row does not change the plan profit. *)
Lemma ensureProgress_profit (db : DB) (userId : Z) :
  planProfitOf (AllProgress.ensureProgress db userId) userId
  = planProfitOf db userId.
Proof.
  unfold AllProgress.ensureProgress.
  destruct (AllProgress.progressesOf db userId); [|reflexivity].
  destruct (findFirst _ (orderBy AllProgress.createdDesc (deposit db)));
    [|reflexivity].
  unfold planProfitOf. simpl. apply upsertProgress_profit.
Qed.

Lemma filter_filter {A : Type} (p q : A -> bool) (l : list A) :
  filter p (filter q l) = filter (fun x => q x && p x) l.
Proof.
  induction l as [|x l IH]; simpl; [reflexivity|].
  destruct (q x); simpl; [|exact IH].
  destruct (p x); now rewrite IH.
Qed.

Lemma fold_paid_only (rs : list ReferralReward.t) :
  Forall (fun r => AllProgress.isPaid r = true) rs ->
  forall a,
    fold_left (fun sum reward =>
                 if AllProgress.isPaid reward
                 then sum + ReferralReward.amount reward else sum) rs a
    = a + sumZ (map ReferralReward.amount rs).
Proof.
  induction 1 as [|r rs Hr _ IH]; intros a; simpl; [lia|].
  rewrite Hr, IH. lia.
Qed.

(** C6, as the code has it.  The handlers that report [totalProfit] do not
    share one formula.  With [planProfit] the sum of [profit] over the
    user's plan rows: the reconciling handler returns the balance left by
    reconciliation plus [planProfit]; the first handler of the same route
    returns [planProfit] plus the paid rewards in which the user is referrer
    or referred; the third returns [planProfit] plus the paid rewards of the
    user as referrer; the pending-inclusive handler returns [planProfit]
    plus the paid and the pending rewards of the user as referrer; and the
    total that [submitWithdrawal] checks a request against is [planProfit]
    plus the paid rewards of the user as referrer. *)
Theorem totalProfit_formulas (db : DB) (userId : Z) :
  (forall db1,
     AllProgress.reconcile db userId = Ok db1 ->
     exists db2 s,
       AllProgress.GET_reconciling db userId
       = (db2, mkResponse 200 "success" (Some s))
       /\ AllProgress.totalProfit s = balanceOf db1 userId + planProfitOf db userId
       /\ AllProgress.balance s = Some (balanceOf db1 userId)
       /\ AllProgress.planProfit s = planProfitOf db userId)
  /\ AllProgress.totalProfit (AllProgress.GET_paidEitherRole db userId)
     = planProfitOf db userId
       + rewardSum (fun r => (asReferrer userId r || asReferred userId r)
                             && AllProgress.isPaid r) db
  /\ AllProgress.totalProfit (AllProgress.GET_paidReferrer db userId)
     = planProfitOf db userId
       + rewardSum (fun r => asReferrer userId r && AllProgress.isPaid r) db
  /\ AllProgress.totalProfit (snd (AllProgress.GET_pendingInclusive db userId))
     = planProfitOf db userId
       + rewardSum (fun r => asReferrer userId r && AllProgress.isPaid r) db
       + rewardSum (fun r => asReferrer userId r && AllProgress.isPending r) db
  /\ withdrawableTotal db userId
     = planProfitOf db userId
       + rewardSum (fun r => asReferrer userId r && AllProgress.isPaid r) db.
Proof.
  split; [|split; [|split; [|split]]].
  - intros db1 Hrec. unfold AllProgress.GET_reconciling. rewrite Hrec.
    eexists _, _. split; [reflexivity|]. simpl.
    rewrite progressesOf_profit, ensureProgress_profit.
    assert (Hplan : planProfitOf db1 userId = planProfitOf db userId).
    { unfold AllProgress.reconcile in Hrec.
      destruct (0 <? List.length _)%nat; [|inversion Hrec; reflexivity].
      destruct (0 <? AllProgress.sumAmount _).
      - destruct (update userId _ (user db)) as [[us u]|]; [|discriminate].
        simpl in Hrec.
        destruct (AllProgress.markCredited _ _); [|discriminate].
        inversion Hrec. reflexivity.
      - simpl in Hrec.
        destruct (AllProgress.markCredited _ _); [|discriminate].
        inversion Hrec. reflexivity. }
    rewrite Hplan. unfold balanceOf. auto.
  - unfold AllProgress.GET_paidEitherRole. simpl.
    rewrite progressesOf_profit. f_equal.
    rewrite fold_paid_only; [reflexivity|].
    apply Forall_forall. intros r Hr. apply filter_In in Hr.
    destruct Hr as [_ Hp]. apply andb_prop in Hp. tauto.
  - unfold AllProgress.GET_paidReferrer. simpl.
    rewrite progressesOf_profit, sumAmount_sumZ. reflexivity.
  - unfold AllProgress.GET_pendingInclusive. simpl.
    rewrite progressesOf_profit, ensureProgress_profit, !sumAmount_sumZ.
    unfold findMany. rewrite !filter_filter. unfold rewardSum, asReferrer.
    rewrite Z.add_assoc. f_equal; [f_equal|]; f_equal; f_equal;
      apply filter_ext; intros r;
      destruct (ReferralReward.referrerId r =? userId);
      destruct (AllProgress.isPending r) eqn:E1;
      destruct (AllProgress.isPaid r) eqn:E2; reflexivity.
  - unfold withdrawableTotal, findMany.
    rewrite sumProfit_sumZ, orZero_id. reflexivity.
Qed.

(** The claim fails: on one store the four handlers report four different
    totals for user 1 (107, 13, 11 and 21); only the first is balance plus
    plan profit. *)
Lemma totalProfit_differs_between_handlers :
  AllProgress.reconcile dbDiverge 1 = Ok dbDiverge
  /\ balanceOf dbDiverge 1 + planProfitOf dbDiverge 1 = 107
  /\ option_map AllProgress.totalProfit
       (payload (snd (AllProgress.GET_reconciling dbDiverge 1))) = Some 107
  /\ AllProgress.totalProfit (AllProgress.GET_paidEitherRole dbDiverge 1) = 13
  /\ AllProgress.totalProfit (AllProgress.GET_paidReferrer dbDiverge 1) = 11
  /\ AllProgress.totalProfit (snd (AllProgress.GET_pendingInclusive dbDiverge 1))
     = 21
  /\ withdrawableTotal dbDiverge 1 = 11.
Proof. vm_compute. repeat split; reflexivity. Qed.

(** ** Withdrawal *)

Lemma findUnique_exists {A : Type} `{Row A} (t : list A) (x : A) :
  In x t -> exists x0, findUnique (row_id x) t = Some x0.
Proof.
  intros Hin. unfold findUnique.
  destruct (find (hasId (row_id x)) t) as [x0|] eqn:E; [eauto|].
  pose proof (find_none _ _ E x Hin) as Hx. unfold hasId in Hx.
  rewrite Z.eqb_refl in Hx. discriminate.
Qed.

(** The drain loop never throws when its rows come from the table. *)
Lemma drain_succeeds (rows : list UserPlanProgress.t) :
  forall remaining tbl,
    (forall p, In p rows ->
       exists p0, findUnique (UserPlanProgress.id p) tbl = Some p0) ->
    exists tbl' rest, drain rows remaining tbl = Ok (tbl', rest).
Proof.
  induction rows as [|p rows IH]; intros remaining tbl Hex; simpl.
  - eauto.
  - destruct (remaining <=? 0); [eauto|].
    destruct (0 <? Z.min (orZero (UserPlanProgress.profit p)) remaining).
    + destruct (Hex p (or_introl eq_refl)) as [p0 Hp0].
      rewrite (update_found _ _ _ _ Hp0). simpl.
      apply IH. intros q Hq. destruct (Hex q (or_intror Hq)) as [q0 Hq0].
      rewrite (findUnique_map _ _
                 (UserPlanProgress.decProfit
                    (Z.min (orZero (UserPlanProgress.profit p)) remaining)) tbl);
        [|reflexivity].
      rewrite Hq0. simpl. eauto.
    + apply IH. intros q Hq. apply Hex. now right.
Qed.

Lemma progressesForUpdate_rows (db : DB) (userId : Z) (p : UserPlanProgress.t) :
  In p (progressesForUpdate db userId) ->
  exists p0, findUnique (UserPlanProgress.id p) (userPlanProgress db) = Some p0.
Proof.
  unfold progressesForUpdate, findMany. intros Hin.
  apply orderBy_In in Hin. apply filter_In in Hin. destruct Hin as [Hin _].
  destruct (findUnique_exists (userPlanProgress db) p Hin) as [p0 Hp0].
  exists p0. exact Hp0.
Qed.

(** The top-up block credits the whole of [neededTopUp], whatever the loop
    drained. *)
Lemma topUp_credit (db : DB) (userId neededTopUp : Z) (u : User.t) :
  findUnique userId (user db) = Some u ->
  0 <= neededTopUp ->
  exists db1,
    topUp db userId neededTopUp = Ok db1
    /\ findUnique userId (user db1) = Some (User.addBalance neededTopUp u)
    /\ referralReward db1 = referralReward db
    /\ withdrawal db1 = withdrawal db.
Proof.
  intros Hu Hn. unfold topUp. destruct (0 <? neededTopUp) eqn:E.
  - destruct (drain_succeeds (progressesForUpdate db userId) neededTopUp
                (userPlanProgress db) (progressesForUpdate_rows db userId))
      as [ps [rest Hd]].
    rewrite Hd. simpl. rewrite (update_found _ _ _ _ Hu). simpl.
    eexists. split; [reflexivity|]. simpl. split; [|auto].
    apply (findUnique_updated (User.addBalance neededTopUp));
      [reflexivity|exact Hu].
  - apply Z.ltb_ge in E. assert (neededTopUp = 0) by lia. subst.
    exists db. split; [reflexivity|]. split; [|auto].
    rewrite Hu. f_equal. destruct u. unfold User.addBalance. simpl.
    f_equal. lia.
Qed.

(** *** What the drain loop takes *)

Lemma sum_own_profit (userId : Z) (l : list UserPlanProgress.t) :
  sumZ (map UserPlanProgress.profit
          (filter (fun p => UserPlanProgress.userId p =? userId) l))
  = sumZ (map (ownProfit userId) l).
Proof.
  induction l as [|x l IH]; simpl; [reflexivity|]. unfold ownProfit at 1.
  destruct (UserPlanProgress.userId x =? userId); simpl; lia.
Qed.

(** The rows a query keeps have unique keys when the table has. *)
Lemma findMany_keys {A : Type} `{Row A} (keep : A -> bool) (tbl : list A) :
  NoDup (map row_id tbl) -> NoDup (map row_id (findMany keep tbl)).
Proof.
  unfold findMany. intros Hkeys.
  induction tbl as [|row tbl IH]; cbn [filter map]; [constructor|].
  apply NoDup_cons_iff in Hkeys. destruct Hkeys as [Hfresh Hkeys].
  destruct (keep row); [|exact (IH Hkeys)].
  cbn [map]. apply NoDup_cons; [|exact (IH Hkeys)].
  intros Hdup. apply Hfresh. apply in_map_iff in Hdup.
  destruct Hdup as [other [Eid Hother]]. apply filter_In in Hother.
  rewrite <- Eid. apply in_map. exact (proj1 Hother).
Qed.

(** Taking [t] from the one row with the key of [p] lowers the user's plan
    profit by [t]. *)
Lemma own_profit_after_take (userId t : Z) (tbl : list UserPlanProgress.t)
  (p : UserPlanProgress.t) :
  NoDup (map row_id tbl) ->
  In p tbl ->
  UserPlanProgress.userId p = userId ->
  sumZ (map (ownProfit userId)
          (map (fun x => if hasId (UserPlanProgress.id p) x
                         then UserPlanProgress.decProfit t x else x) tbl))
  = sumZ (map (ownProfit userId) tbl) - t.
Proof.
  intros Hnd Hin Hu. subst userId.
  assert (Hkeep : forall l,
            ~ In (UserPlanProgress.id p) (map row_id l) ->
            map (fun x => if hasId (UserPlanProgress.id p) x
                          then UserPlanProgress.decProfit t x else x) l = l).
  { intros l Hl. erewrite map_ext_in; [apply map_id|]. intros y Hy. cbv beta.
    destruct (hasId (UserPlanProgress.id p) y) eqn:E; [|reflexivity].
    unfold hasId in E. apply Z.eqb_eq in E. exfalso. apply Hl.
    rewrite <- E. now apply in_map. }
  induction tbl as [|x tbl IH]; [destruct Hin|].
  apply NoDup_cons_iff in Hnd. destruct Hnd as [Hx Hnd'].
  cbn [map]. unfold sumZ. cbn [fold_right]. fold sumZ.
  fold (sumZ (map (ownProfit (UserPlanProgress.userId p)) tbl)).
  fold (sumZ (map (ownProfit (UserPlanProgress.userId p))
                (map (fun x => if hasId (UserPlanProgress.id p) x
                               then UserPlanProgress.decProfit t x else x) tbl))).
  destruct Hin as [->|Hin].
  - assert (Hself : hasId (UserPlanProgress.id p) p = true)
      by (unfold hasId; apply Z.eqb_refl).
    rewrite Hself, (Hkeep tbl Hx). unfold ownProfit at 1 3.
    cbn [UserPlanProgress.decProfit UserPlanProgress.userId
         UserPlanProgress.profit].
    rewrite Z.eqb_refl. lia.
  - assert (Hne : hasId (UserPlanProgress.id p) x = false).
    { destruct (hasId (UserPlanProgress.id p) x) eqn:E; [|reflexivity].
      unfold hasId in E. apply Z.eqb_eq in E. exfalso. apply Hx.
      rewrite E. exact (in_map (@row_id _ Row_Progress) tbl p Hin). }
    rewrite Hne, (IH Hnd' Hin). lia.
Qed.

(** The loop over rows of the user that hold profit: what it takes from the
    table is [remaining - rest], it stops with
    [rest = max 0 (remaining - profit of the rows)], and it drives no row
    below zero. *)
Lemma drain_accounting (userId : Z) (rows : list UserPlanProgress.t) :
  forall remaining tbl tbl' rest,
    NoDup (map row_id tbl) ->
    NoDup (map row_id rows) ->
    (forall p, In p rows ->
       In p tbl /\ UserPlanProgress.userId p = userId
       /\ 0 < UserPlanProgress.profit p) ->
    0 <= remaining ->
    drain rows remaining tbl = Ok (tbl', rest) ->
    sumZ (map (ownProfit userId) tbl')
    = sumZ (map (ownProfit userId) tbl) - (remaining - rest)
    /\ rest = Z.max 0 (remaining - sumZ (map UserPlanProgress.profit rows))
    /\ (Forall (fun p => 0 <= UserPlanProgress.profit p) tbl ->
        Forall (fun p => 0 <= UserPlanProgress.profit p) tbl').
Proof.
  induction rows as [|p rows IH];
    intros remaining tbl tbl' rest Hnd Hrows Hin Hrem Hdrain.
  - simpl in Hdrain. inversion Hdrain; subst. simpl.
    split; [lia|]. split; [lia|auto].
  - assert (Hsum : 0 <= sumZ (map UserPlanProgress.profit rows)).
    { apply sumZ_nonneg. apply Forall_forall. intros a Ha.
      apply in_map_iff in Ha. destruct Ha as [q [<- Hq]].
      destruct (Hin q (or_intror Hq)) as [_ [_ Hpos]]. lia. }
    destruct (Hin p (or_introl eq_refl)) as [Hp [Hpu Hppos]].
    inversion Hrows as [|? ? Hpfresh Hrows']; subst.
    cbn [drain] in Hdrain. cbn [map sumZ fold_right].
    fold (sumZ (map UserPlanProgress.profit rows)).
    destruct (remaining <=? 0) eqn:Estop.
    + apply Z.leb_le in Estop. inversion Hdrain; subst.
      split; [lia|]. split; [lia|auto].
    + apply Z.leb_gt in Estop. rewrite orZero_id in Hdrain.
      set (take := Z.min (UserPlanProgress.profit p) remaining) in *.
      assert (Htake : 0 < take) by (subst take; lia).
      destruct (0 <? take) eqn:Et; [|apply Z.ltb_ge in Et; lia].
      destruct (findUnique_exists tbl p Hp) as [p0 Hp0].
      change (row_id p) with (UserPlanProgress.id p) in Hp0.
      rewrite (update_found _ _ _ _ Hp0) in Hdrain. cbn [bind] in Hdrain.
      set (tbl1 := map (fun x => if hasId (UserPlanProgress.id p) x
                                 then UserPlanProgress.decProfit take x else x)
                     tbl) in *.
      assert (Hnd1 : NoDup (map row_id tbl1)).
      { subst tbl1. rewrite map_update_ids; [exact Hnd|reflexivity]. }
      assert (Hin1 : forall q, In q rows ->
                 In q tbl1 /\ UserPlanProgress.userId q = UserPlanProgress.userId p
                 /\ 0 < UserPlanProgress.profit q).
      { intros q Hq. destruct (Hin q (or_intror Hq)) as [Hqt [Hqu Hqp]].
        split; [|auto]. subst tbl1.
        assert (Hne : hasId (UserPlanProgress.id p) q = false).
        { unfold hasId. apply Z.eqb_neq. intros E. apply Hpfresh.
          change (row_id p) with (UserPlanProgress.id p). rewrite <- E.
          now apply in_map. }
        apply in_map_iff. exists q. now rewrite Hne. }
      destruct (IH (remaining - take) tbl1 tbl' rest Hnd1 Hrows' Hin1)
        as [Hw [Hrest Hnn]]; [subst take; lia|exact Hdrain|].
      subst tbl1. rewrite (own_profit_after_take _ take tbl p Hnd Hp eq_refl) in Hw.
      split; [lia|]. split; [subst take; lia|].
      intros Hall. apply Hnn. rewrite Forall_forall in *. intros q Hq.
      apply in_map_iff in Hq. destruct Hq as [y [<- Hy]].
      destruct (hasId (UserPlanProgress.id p) y) eqn:Ey; [|now apply Hall].
      assert (y = p).
      { apply (unique_row tbl); auto. unfold hasId in Ey.
        now apply Z.eqb_eq in Ey. }
      subst y. cbn [UserPlanProgress.decProfit UserPlanProgress.profit].
      subst take. lia.
Qed.

(** X13. The top-up block takes from the user's plan rows the smaller of the
    shortfall and the profit those rows hold; the balance is credited the
    shortfall all the same (see [topUp_credit]). *)
Lemma topUp_drains_min (db db1 : DB) (userId neededTopUp : Z) :
  NoDup (map row_id (userPlanProgress db)) ->
  0 < neededTopUp ->
  topUp db userId neededTopUp = Ok db1 ->
  planProfitOf db userId - planProfitOf db1 userId
  = Z.min neededTopUp (positiveProfitOf db userId)
  /\ (Forall (fun p => 0 <= UserPlanProgress.profit p) (userPlanProgress db) ->
      Forall (fun p => 0 <= UserPlanProgress.profit p) (userPlanProgress db1)).
Proof.
  intros Hnd Hpos Htop. unfold topUp in Htop.
  destruct (0 <? neededTopUp) eqn:E; [|apply Z.ltb_ge in E; lia].
  destruct (drain (progressesForUpdate db userId) neededTopUp
              (userPlanProgress db)) as [[ps rest]|] eqn:Hd; [|discriminate].
  cbn [bind] in Htop.
  destruct (update userId _ (user db)) as [[us u]|]; [|discriminate].
  cbn [bind] in Htop. inversion Htop; subst db1; clear Htop.
  assert (Hperm : Permutation (progressesForUpdate db userId)
                    (filter (fun p => (UserPlanProgress.userId p =? userId)
                                      && (0 <? UserPlanProgress.profit p))
                       (userPlanProgress db)))
    by apply orderBy_perm.
  destruct (drain_accounting userId (progressesForUpdate db userId)
              neededTopUp (userPlanProgress db) ps rest) as [Hw [Hrest Hnn]].
  - exact Hnd.
  - apply (Permutation_NoDup (Permutation_map row_id (Permutation_sym Hperm))).
    apply (findMany_keys
             (fun p => (UserPlanProgress.userId p =? userId)
                       && (0 <? UserPlanProgress.profit p))
             (userPlanProgress db) Hnd).
  - intros p Hp. apply (Permutation_in _ Hperm) in Hp.
    apply filter_In in Hp. destruct Hp as [Hp Hf].
    apply andb_prop in Hf. destruct Hf as [Hu Hpp].
    apply Z.eqb_eq in Hu. apply Z.ltb_lt in Hpp. auto.
  - lia.
  - exact Hd.
  - unfold planProfitOf, positiveProfitOf. store_simpl.
    rewrite !sum_own_profit, Hw.
    rewrite (sumZ_perm _ _ (Permutation_map UserPlanProgress.profit Hperm)) in Hrest.
    split; [lia|exact Hnn].
Qed.

(** X14. A request whose amount is not positive, or exceeds the total the
    handler computes, is refused and the store is returned as it was. *)
Lemma submitWithdrawal_refuses (db : DB) (caller : AuthUser)
  (req : WithdrawalRequest.t) (X : Z) :
  WithdrawalRequest.amount req = Some X ->
  X <= 0 \/ withdrawableTotal db (auth_id caller) < X ->
  fst (submitWithdrawal db caller req) = db
  /\ (httpStatus (snd (submitWithdrawal db caller req)) = 400
      \/ httpStatus (snd (submitWithdrawal db caller req)) = 404).
Proof.
  intros Ha Hbad. unfold submitWithdrawal. rewrite Ha. cbn [truthyNum].
  destruct (X =? 0); [simpl; auto|].
  destruct (truthyStr (WithdrawalRequest.currency req)); [|simpl; auto].
  destruct (truthyStr (WithdrawalRequest.recipientAddress req)); [|simpl; auto].
  destruct (X <=? 0) eqn:E1; [simpl; auto|]. apply Z.leb_gt in E1.
  destruct (findUnique (auth_id caller) (user db)); [|simpl; auto].
  destruct (withdrawableTotal db (auth_id caller) <? X) eqn:E2; [simpl; auto|].
  apply Z.ltb_ge in E2. lia.
Qed.

(** C10. In [submitWithdrawal] the credit of the top-up is the full
    shortfall.  For every accepted request (amount [X] positive and at most
    the total the handler computes) of an existing user, the top-up block
    succeeds and raises the balance by exactly [max 0 (X - balance)], under
    no condition on the plan rows, and the handler answers 201 with the
    balance at [balance + max 0 (X - balance) - X].  And there is a store
    (user 1 with balance 0, plan profit 3 and a paid reward of 10, asking
    for 13) in which the request passes the check although balance plus plan
    profit is below [X]: the loop drains 3, the balance is credited 13, and
    balance plus plan profit stands at 13 after the top-up, up from 3. *)
Theorem topUp_credits_full_shortfall :
  (forall db caller X currency recipientAddress u,
     0 < X ->
     (String.length currency =? 0)%nat = false ->
     (String.length recipientAddress =? 0)%nat = false ->
     findUnique (auth_id caller) (user db) = Some u ->
     X <= withdrawableTotal db (auth_id caller) ->
     let neededTopUp := Z.max 0 (X - User.balance u) in
     exists db1 db2 w,
       topUp db (auth_id caller) neededTopUp = Ok db1
       /\ balanceOf db1 (auth_id caller) = User.balance u + neededTopUp
       /\ submitWithdrawal db caller
            (WithdrawalRequest.mk (Some X) (Some currency) (Some recipientAddress))
          = (db2, mkResponse 201
                    "Withdrawal request submitted successfully. It will be processed within 24 hours."
                    (Some w))
       /\ balanceOf db2 (auth_id caller) = User.balance u + neededTopUp - X
       /\ Withdrawal.amount w = X
       /\ Withdrawal.status w = Withdrawal.pending)
  /\ (exists db userId X db1,
        0 < X
        /\ X <= withdrawableTotal db userId
        /\ balanceOf db userId + planProfitOf db userId < X
        /\ topUp db userId (Z.max 0 (X - balanceOf db userId)) = Ok db1
        /\ planProfitOf db userId - planProfitOf db1 userId
           < balanceOf db1 userId - balanceOf db userId
        /\ balanceOf db userId + planProfitOf db userId
           < balanceOf db1 userId + planProfitOf db1 userId).
Proof.
  split.
  - intros db caller X currency recipientAddress u HX Hc Ha Hu Htot neededTopUp.
    destruct (topUp_credit db (auth_id caller) neededTopUp u Hu)
      as [db1 [Htop [Hu1 [Hr1 Hw1]]]]; [subst neededTopUp; lia|].
    pose proof (findUnique_updated (User.addBalance (- X)) (fun _ => eq_refl)
                  (auth_id caller) (user db1) _ Hu1) as Hu2.
    eexists db1, _, _. split; [exact Htop|].
    split; [unfold balanceOf; rewrite Hu1; reflexivity|].
    split.
    + unfold submitWithdrawal. simpl.
      destruct (X =? 0) eqn:E0; [apply Z.eqb_eq in E0; lia|].
      rewrite Hc, Ha.
      destruct (X <=? 0) eqn:E1; [apply Z.leb_le in E1; lia|].
      rewrite Hu.
      destruct (withdrawableTotal db (auth_id caller) <? X) eqn:E2;
        [apply Z.ltb_lt in E2; lia|].
      unfold withdrawTransaction. fold neededTopUp. rewrite Htop. simpl.
      rewrite (update_found _ _ _ _ Hu1). simpl. reflexivity.
    + simpl. split; [|split; reflexivity].
      unfold balanceOf. simpl. rewrite Hu2. simpl. lia.
  - exists dbSpent, 1, 13. eexists. vm_compute.
    repeat split; try reflexivity; discriminate.
Qed.

(** An accepted request of 8 against balance 5: the top-up credits 3. *)
Lemma topUp_credits_full_shortfall_witness :
  exists db1 db2 w,
    topUp dbFunded 1 (Z.max 0 (8 - 5)) = Ok db1
    /\ balanceOf db1 1 = 5 + Z.max 0 (8 - 5)
    /\ submitWithdrawal dbFunded callerOne withdrawEight
       = (db2, mkResponse 201
                 "Withdrawal request submitted successfully. It will be processed within 24 hours."
                 (Some w))
    /\ balanceOf db2 1 = 5 + Z.max 0 (8 - 5) - 8
    /\ Withdrawal.amount w = 8
    /\ Withdrawal.status w = Withdrawal.pending.
Proof.
  destruct topUp_credits_full_shortfall as [Hall _].
  apply (Hall dbFunded callerOne 8 "USDT" "TXYZ-wallet"
           (plainUser 1 (Some "AAAAAAA1") 5)).
  - reflexivity.
  - reflexivity.
  - reflexivity.
  - reflexivity.
  - vm_compute. discriminate.
Defined.

(** C7, evaluated where the code departs from it.  User 1 has balance 0,
    plan profit 3 and a paid reward of 10, so the handler's total is 13 and
    a request for 13 is accepted.  The shortfall is 13, the plan rows yield
    only 3, yet the balance is credited 13 before it is debited: the
    withdrawal of 13 is created against 3 of drained profit. *)
Theorem submitWithdrawal_credits_more_than_drained :
  balanceOf dbSpent 1 = 0
  /\ planProfitOf dbSpent 1 = 3
  /\ withdrawableTotal dbSpent 1 = 13
  /\ (exists db1,
        topUp dbSpent 1 13 = Ok db1
        /\ planProfitOf db1 1 = 0
        /\ balanceOf db1 1 = 13)
  /\ (let (db', resp) := submitWithdrawal dbSpent callerOne withdrawThirteen in
      httpStatus resp = 201
      /\ withdrawal db'
         = [Withdrawal.mk 1 1 13 "USDT" "TXYZ-wallet" Withdrawal.pending]
      /\ balanceOf db' 1 = 0
      /\ planProfitOf db' 1 = 0).
Proof.
  split; [reflexivity|]. split; [reflexivity|]. split; [reflexivity|].
  split; [eexists; vm_compute; repeat split; reflexivity|].
  vm_compute. repeat split; reflexivity.
Qed.

(** ** Tier table *)

Lemma toString_inj (a b : Z) : toString a = toString b -> a = b.
Proof.
  unfold toString. intros E. apply DecimalZ.to_int_inj.
  assert (Hn : forall n, Z.to_int n <> Decimal.Pos Decimal.Nil
                         /\ Z.to_int n <> Decimal.Neg Decimal.Nil).
  { intros [|p|p]; simpl; split; try discriminate;
      intros [= Hp]; exact (Unsigned.to_uint_nonnil p Hp). }
  pose proof (NilZero.isi (Z.to_int a) (proj1 (Hn a)) (proj2 (Hn a))) as Ha.
  pose proof (NilZero.isi (Z.to_int b) (proj1 (Hn b)) (proj2 (Hn b))) as Hb.
  rewrite E in Ha. congruence.
Qed.

Lemma lookupKey_none (k : string) (tbl : list (string * Z)) :
  (forall k' v, In (k', v) tbl -> k' <> k) -> lookupKey k tbl = None.
Proof.
  induction tbl as [|[k' v] tbl IH]; simpl; [reflexivity|]. intros Hne.
  destruct (String.eqb k' k) eqn:E.
  - apply String.eqb_eq in E. exfalso. exact (Hne k' v (or_introl eq_refl) E).
  - apply IH. intros k2 v2 Hin. apply (Hne k2 v2). now right.
Qed.

(** A plan amount outside the tier set has no entry: the lookup gives 0. *)
Lemma planReward_unknown (n : Z) :
  includes allowedPlans n = false -> planReward (toString n) = 0.
Proof.
  intros Hn. unfold planReward. rewrite lookupKey_none; [reflexivity|].
  intros k' v Hin Hk.
  assert (Hkeys : map fst PLAN_REWARDS = map toString allowedPlans)
    by reflexivity.
  assert (Hm : exists m, k' = toString m /\ includes allowedPlans m = true).
  { apply (in_map fst) in Hin. rewrite Hkeys in Hin. simpl fst in Hin.
    apply in_map_iff in Hin. destruct Hin as [m [<- Hm]].
    exists m. split; [reflexivity|].
    unfold includes. apply existsb_exists. exists m.
    split; [exact Hm|apply Z.eqb_refl]. }
  destruct Hm as [m [-> Hm]]. apply toString_inj in Hk. subst m. congruence.
Qed.

Lemma validateDeposit_off_tier (db : DB) (userId : Z) (req : DepositRequest.t)
  (a : Z) :
  DepositRequest.amount req = Some a ->
  includes allowedPlans a = false ->
  exists msg, validateDeposit db userId req = inr msg.
Proof.
  intros Ha Hoff. unfold validateDeposit. rewrite Ha.
  destruct (truthyStr (DepositRequest.transactionHash req)); [|eauto].
  destruct (truthyNum (Some a)) as [a'|] eqn:Ea; [|eauto].
  destruct (truthyStr (DepositRequest.currency req)); [|eauto].
  destruct (findFirst _ (userPlanProgress db)); [eauto|].
  assert (a' = a) by (simpl in Ea; destruct (a =? 0); congruence). subst a'.
  rewrite Hoff. simpl. eauto.
Qed.

(** The reward that [createPendingReward] writes is the tier of the user's
    latest plan; with no tier it throws. *)
Lemma createPendingReward_tier (now : Z) (db : DB) (referrerId referredUserId : Z)
  (d : Deposit.t) (plan : UserPlanProgress.t) :
  findFirst (fun d => (Deposit.userId d =? referredUserId)
                      && Deposit.status_eqb (Deposit.status d) Deposit.approved)
    (orderBy idDesc (deposit db)) = Some d ->
  findFirst (fun p => UserPlanProgress.userId p =? referredUserId)
    (orderBy idDesc (userPlanProgress db)) = Some plan ->
  let planAmount := UserPlanProgress.planAmount plan in
  let amount := planReward (toString planAmount) in
  createPendingReward now db referrerId referredUserId
  = if amount <=? 0
    then Throw ("[ReferralReward] Invalid reward amount for plan "
                ++ toString planAmount)%string
    else
      Ok (withReward
            (referralReward db
             ++ [ReferralReward.mk (nextId (referralReward db)) referrerId
                   referredUserId amount planAmount
                   (Some (planTypeLabel planAmount))
                   ReferralReward.pending now None]) db,
          mkRewardResult amount (nextId (referralReward db)) referrerId
            referredUserId planAmount).
Proof.
  intros Hd Hp. unfold createPendingReward. rewrite Hd, Hp. simpl.
  destruct (planReward _ <=? 0); reflexivity.
Qed.

(** [processReferralReward] leaves the store alone and reports no reward
    when the user's latest plan has no tier. *)
Lemma processReferralReward_no_tier (now : Z) (db : DB) (referredUserId : Z) :
  (forall plan,
     findFirst (fun p => UserPlanProgress.userId p =? referredUserId)
       (orderBy idDesc (userPlanProgress db)) = Some plan ->
     includes allowedPlans (UserPlanProgress.planAmount plan) = false) ->
  fst (processReferralReward now db referredUserId) = db
  /\ forall res, snd (processReferralReward now db referredUserId)
                 <> Ok (Some res).
Proof.
  intros Hoff. unfold processReferralReward.
  destruct (referrerOf db referredUserId) as [referrer|];
    [|split; [reflexivity|discriminate]].
  destruct (findFirst _ (referralReward db));
    [split; [reflexivity|discriminate]|].
  unfold createPendingReward.
  destruct (findFirst _ (orderBy idDesc (deposit db)));
    [|split; [reflexivity|discriminate]].
  destruct (findFirst _ (orderBy idDesc (userPlanProgress db))) as [plan|];
    [|split; [reflexivity|discriminate]].
  rewrite (planReward_unknown _ (Hoff plan eq_refl)). simpl.
  split; [reflexivity|discriminate].
Qed.

Lemma tier_positive (a : Z) :
  includes allowedPlans a = true -> a <> 0 /\ 0 < planReward (toString a).
Proof.
  unfold includes. intros H. apply existsb_exists in H.
  destruct H as [m [Hin E]]. apply Z.eqb_eq in E. subst m.
  simpl in Hin.
  repeat (destruct Hin as [<-|Hin]; [split; [discriminate|reflexivity]|]).
  destruct Hin.
Qed.

Lemma find_is_some {A : Type} (p : A -> bool) (l : list A) (x : A) :
  In x l -> p x = true -> exists y, find p l = Some y.
Proof.
  intros Hin Hp. destruct (find p l) as [y|] eqn:E; [eauto|].
  rewrite (find_none _ _ E x Hin) in Hp. discriminate.
Qed.

(** The variant of [confirmDeposit] that creates the deposit as approved:
    for a referred user without a plan, without an approved deposit and
    without a paid reward, confirming a deposit of a tier amount appends one
    pending reward for the referrer whose amount is the tier's. *)
Lemma confirmDeposit_tier_reward (now : Z) (db : DB) (caller : AuthUser)
  (h c proof : string) (a : Z) (u referrer : User.t) (rid : Z) :
  (String.length h =? 0)%nat = false ->
  (String.length c =? 0)%nat = false ->
  includes allowedPlans a = true ->
  findUnique (auth_id caller) (user db) = Some u ->
  User.referredById u = Some rid ->
  rid <> 0 ->
  findUnique rid (user db) = Some referrer ->
  (forall p, In p (userPlanProgress db) ->
             UserPlanProgress.userId p <> auth_id caller) ->
  (forall d, In d (deposit db) -> Deposit.userId d = auth_id caller ->
             Deposit.status d <> Deposit.approved) ->
  findFirst (paidRewardOf (auth_id caller) rid) (referralReward db) = None ->
  exists db' dep,
    PendingOnly.confirmDeposit now db caller
      (DepositRequest.mk (Some h) (Some a) (Some c) proof)
    = (db', mkResponse 201 "Deposit confirmed and processed successfully"
              (Some dep))
    /\ referralReward db'
       = referralReward db
         ++ [ReferralReward.mk (nextId (referralReward db)) rid (auth_id caller)
               (planReward (toString a)) a (Some (planTypeLabel a))
               ReferralReward.pending now None].
Proof.
  intros Hh Hc Ha Hu Href Hrid Hreferrer Hnoplan Hnodep Hnopaid.
  destruct (tier_positive a Ha) as [Ha0 Hpos].
  assert (Hplans : findFirst (fun p => UserPlanProgress.userId p =? auth_id caller)
                     (userPlanProgress db) = None).
  { apply find_none_iff. intros p Hp. apply Z.eqb_neq. now apply Hnoplan. }
  assert (E0 : (a =? 0) = false) by now apply Z.eqb_neq.
  unfold PendingOnly.confirmDeposit, validateDeposit.
  cbn [DepositRequest.transactionHash DepositRequest.amount
       DepositRequest.currency DepositRequest.paymentProofUrl
       truthyStr truthyNum].
  rewrite Hh, Hc, E0, Hplans, Ha. cbn [negb].
  unfold PendingOnly.depositTransaction. cbn [create fst snd].
  rewrite (update_found _ _ _ _ Hu). cbn [bind].
  eexists _, _. split; [reflexivity|]. cbn [fst].
  (* the plan row the upsert creates *)
  assert (Hups : upsertProgress (auth_id caller) a (userPlanProgress db)
                 = userPlanProgress db
                   ++ [UserPlanProgress.mk (nextId (userPlanProgress db))
                         (auth_id caller) a 0 0 false None]).
  { unfold upsertProgress.
    assert (Hn : findFirst
                   (fun p => (UserPlanProgress.userId p =? auth_id caller)
                             && (UserPlanProgress.planAmount p =? a))
                   (userPlanProgress db) = None).
    { apply find_none_iff. intros p Hp.
      apply andb_false_intro1. apply Z.eqb_neq. now apply Hnoplan. }
    rewrite Hn. reflexivity. }
  rewrite Hups. unfold PendingOnly.pendingReward. store_simpl.
  cbn [Deposit.id].
  set (us := map (fun x => if hasId (auth_id caller) x then User.credit a x else x)
               (user db)).
  assert (Hu' : findUnique (auth_id caller) us = Some (User.credit a u)).
  { apply (findUnique_updated (User.credit a)); [reflexivity|exact Hu]. }
  assert (Er : truthyNum (User.referredById (User.credit a u)) = Some rid).
  { cbn [User.credit User.referredById]. rewrite Href. unfold truthyNum.
    destruct (rid =? 0) eqn:Er; [apply Z.eqb_eq in Er; congruence|reflexivity]. }
  rewrite Hu', Er.
  set (dep := Deposit.mk (nextId (deposit db)) (auth_id caller) a c h proof
                Deposit.approved (Some now) now).
  assert (Hcount : findMany
                     (PendingOnly.otherApproved (auth_id caller) (nextId (deposit db)))
                     (deposit db ++ [dep]) = []).
  { apply filter_nil_iff. intros d Hd. unfold PendingOnly.otherApproved.
    apply in_app_or in Hd. destruct Hd as [Hd|[<-|[]]].
    - destruct (Deposit.userId d =? auth_id caller) eqn:Ed; [|reflexivity].
      apply Z.eqb_eq in Ed. specialize (Hnodep d Hd Ed).
      destruct (Deposit.status d); try (now rewrite andb_false_r); congruence.
    - cbn [dep Deposit.id Deposit.userId]. now rewrite !Z.eqb_refl. }
  rewrite Hcount. cbn [List.length Nat.eqb].
  (* the reward computation on the store the transaction left *)
  unfold processReferralReward, referrerOf. store_simpl.
  rewrite Hu', Er.
  assert (Hreferrer' : exists referrer',
            findUnique rid us = Some referrer' /\ User.id referrer' = rid).
  { subst us.
    rewrite (findUnique_map (auth_id caller) rid (User.credit a) (user db));
      [|reflexivity].
    rewrite Hreferrer. cbn [option_map]. eexists. split; [reflexivity|].
    destruct (findUnique_hasId _ _ _ Hreferrer) as [Hid _].
    change (User.id referrer = rid) in Hid.
    destruct (hasId (auth_id caller) referrer); exact Hid. }
  destruct Hreferrer' as [referrer' [Hr' Hid']]. rewrite Hr', Hid', Hnopaid.
  destruct (find_is_some
              (fun d => (Deposit.userId d =? auth_id caller)
                        && Deposit.status_eqb (Deposit.status d) Deposit.approved)
              (orderBy idDesc (deposit db ++ [dep])) dep) as [d Hd].
  { apply orderBy_In. apply in_or_app. right. now left. }
  { cbn [dep Deposit.userId Deposit.status Deposit.status_eqb].
    now rewrite Z.eqb_refl. }
  set (plan := UserPlanProgress.mk (nextId (userPlanProgress db))
                 (auth_id caller) a 0 0 false None).
  assert (Hplan : findFirst (fun p => UserPlanProgress.userId p =? auth_id caller)
                    (orderBy idDesc (userPlanProgress db ++ [plan])) = Some plan).
  { destruct (find_is_some
                (fun p => UserPlanProgress.userId p =? auth_id caller)
                (orderBy idDesc (userPlanProgress db ++ [plan])) plan) as [q Hq].
    { apply orderBy_In. apply in_or_app. right. now left. }
    { cbn [plan UserPlanProgress.userId]. apply Z.eqb_refl. }
    unfold findFirst. rewrite Hq. f_equal.
    apply find_some in Hq. destruct Hq as [Hin Hq].
    apply orderBy_In in Hin. apply in_app_or in Hin.
    destruct Hin as [Hin|[<-|[]]]; [|reflexivity].
    apply Z.eqb_eq in Hq. exfalso. exact (Hnoplan q Hin Hq). }
  match goal with
  | |- context [createPendingReward now ?d0 _ _] =>
      rewrite (createPendingReward_tier now d0 rid (auth_id caller) d plan
                 Hd Hplan)
  end.
  cbn [plan UserPlanProgress.planAmount]. cbv zeta.
  destruct (planReward (toString a) <=? 0) eqn:El;
    [apply Z.leb_le in El; lia|].
  reflexivity.
Qed.


(** *** The tier in the variant that pays at once *)

(** What a call of [processReferralReward] can return: the store as it was
    and no reward, or the store with one more reward, computed from the
    user's latest plan. *)
Lemma processReferralReward_cases (now : Z) (db db' : DB) (referredUserId : Z)
  (x : Result (option RewardResult)) :
  processReferralReward now db referredUserId = (db', x) ->
  (db' = db /\ forall res, x <> Ok (Some res))
  \/ exists plan rid res,
       x = Ok (Some res)
       /\ findFirst (fun p => UserPlanProgress.userId p =? referredUserId)
            (orderBy idDesc (userPlanProgress db)) = Some plan
       /\ rewardId res = nextId (referralReward db)
       /\ db' = withReward
                  (referralReward db
                   ++ [ReferralReward.mk (nextId (referralReward db)) rid
                         referredUserId
                         (planReward (toString (UserPlanProgress.planAmount plan)))
                         (UserPlanProgress.planAmount plan)
                         (Some (planTypeLabel (UserPlanProgress.planAmount plan)))
                         ReferralReward.pending now None]) db.
Proof.
  unfold processReferralReward.
  destruct (referrerOf db referredUserId) as [referrer|];
    [|intros [= <- <-]; left; split; [reflexivity|discriminate]].
  destruct (findFirst _ (referralReward db));
    [intros [= <- <-]; left; split; [reflexivity|discriminate]|].
  unfold createPendingReward.
  destruct (findFirst _ (orderBy idDesc (deposit db)));
    [|intros [= <- <-]; left; split; [reflexivity|discriminate]].
  destruct (findFirst _ (orderBy idDesc (userPlanProgress db))) as [plan|];
    [|intros [= <- <-]; left; split; [reflexivity|discriminate]].
  destruct (planReward _ <=? 0);
    [intros [= <- <-]; left; split; [reflexivity|discriminate]|].
  cbn [create fst snd]. intros [= <- <-]. right.
  exists plan, (User.id referrer). eexists. repeat split.
Qed.

Lemma validateDeposit_accepts (db : DB) (userId : Z) (req : DepositRequest.t)
  (h c : string) (a : Z) :
  validateDeposit db userId req = inl (h, a, c) ->
  DepositRequest.amount req = Some a
  /\ findFirst (fun p => UserPlanProgress.userId p =? userId)
       (userPlanProgress db) = None.
Proof.
  unfold validateDeposit.
  destruct (truthyStr (DepositRequest.transactionHash req)); [|discriminate].
  destruct (DepositRequest.amount req) as [a'|]; [|discriminate].
  cbn [truthyNum]. destruct (a' =? 0); [discriminate|].
  destruct (truthyStr (DepositRequest.currency req)); [|discriminate].
  destruct (findFirst _ (userPlanProgress db)); [discriminate|].
  destruct (negb (includes allowedPlans a')); [discriminate|].
  intros [= <- <- <-]. auto.
Qed.

(** For a user without a plan row, the row the upsert creates is the user's
    latest plan. *)
Lemma latest_plan_after_upsert (userId a : Z) (plans : list UserPlanProgress.t) :
  findFirst (fun p => UserPlanProgress.userId p =? userId) plans = None ->
  findFirst (fun p => UserPlanProgress.userId p =? userId)
    (orderBy idDesc (upsertProgress userId a plans))
  = Some (UserPlanProgress.mk (nextId plans) userId a 0 0 false None).
Proof.
  intros Hnone.
  assert (Hno : forall p, In p plans -> (UserPlanProgress.userId p =? userId) = false)
    by (apply find_none_iff; exact Hnone).
  unfold upsertProgress.
  assert (Hn : findFirst (fun p => (UserPlanProgress.userId p =? userId)
                                   && (UserPlanProgress.planAmount p =? a))
                 plans = None).
  { apply find_none_iff. intros p Hp. now rewrite (Hno p Hp). }
  rewrite Hn. cbn [create fst].
  set (plan := UserPlanProgress.mk (nextId plans) userId a 0 0 false None).
  destruct (find_is_some (fun p => UserPlanProgress.userId p =? userId)
              (orderBy idDesc (plans ++ [plan])) plan) as [q Hq].
  { apply orderBy_In. apply in_or_app. right. now left. }
  { cbn [plan UserPlanProgress.userId]. apply Z.eqb_refl. }
  unfold findFirst. rewrite Hq. f_equal.
  apply find_some in Hq. destruct Hq as [Hin Hq].
  apply orderBy_In in Hin. apply in_app_or in Hin.
  destruct Hin as [Hin|[<-|[]]]; [|reflexivity].
  rewrite (Hno q Hin) in Hq. discriminate.
Qed.

Lemma map_fresh_id {A : Type} `{Row A} (f : A -> A) (t : list A) :
  map (fun x => if hasId (nextId t) x then f x else x) t = t.
Proof.
  erewrite map_ext_in; [apply map_id|]. intros x Hx. cbv beta.
  pose proof (nextId_above t x Hx) as Hlt. unfold hasId.
  destruct (row_id x =? nextId t) eqn:E; [apply Z.eqb_eq in E; lia|reflexivity].
Qed.

(** Whatever [confirmDeposit] of the paying variant does with a request of
    amount [a], the reward table it leaves is the old one, or the old one
    with one more reward for the caller as referred user, of amount
    [PLAN_REWARDS[a]] on plan amount [a], pending or already paid. *)
Lemma autopay_reward_is_tier (now : Z) (db : DB) (caller : AuthUser)
  (req : DepositRequest.t) (a : Z) :
  DepositRequest.amount req = Some a ->
  let db' := fst (AutoPay.confirmDeposit now db caller req) in
  referralReward db' = referralReward db
  \/ exists r,
       ReferralReward.amount r = planReward (toString a)
       /\ ReferralReward.planAmount r = a
       /\ ReferralReward.referredUserId r = auth_id caller
       /\ (referralReward db' = referralReward db ++ [r]
           \/ referralReward db'
              = referralReward db ++ [ReferralReward.setPaid now r]).
Proof.
  intros Ha. unfold AutoPay.confirmDeposit. cbv zeta.
  destruct (validateDeposit db (auth_id caller) req) as [[[h a'] c]|msg] eqn:Ev;
    [|now left].
  destruct (validateDeposit_accepts _ _ _ _ _ _ Ev) as [Ha' Hnoplan].
  assert (a' = a) by congruence. subst a'.
  destruct (AutoPay.confirmTransaction now db (auth_id caller) h a c
              (DepositRequest.paymentProofUrl req)) as [[db1 dep]|e] eqn:Et;
    [|now left].
  assert (Hdb1 : referralReward db1 = referralReward db
                 /\ userPlanProgress db1
                    = upsertProgress (auth_id caller) a (userPlanProgress db)).
  { unfold AutoPay.confirmTransaction in Et.
    destruct (findFirst _ (deposit db)) as [pending|]; [|discriminate].
    destruct (negb _ || negb _); [discriminate|].
    destruct (update (Deposit.id pending) _ (deposit db)) as [[ds d]|];
      [|discriminate].
    cbn [bind] in Et.
    destruct (update (auth_id caller) _ (user db)) as [[us u]|]; [|discriminate].
    cbn [bind] in Et. inversion Et. split; reflexivity. }
  destruct Hdb1 as [Hrew1 Hplans1].
  destruct (AutoPay.payout now db1 (auth_id caller)) as [db2 reward] eqn:Epay.
  cbn [fst]. unfold AutoPay.payout in Epay.
  destruct (findUnique (auth_id caller) (user db1)) as [u|];
    [|inversion Epay; subst; now left].
  destruct (truthyNum (User.referredById u));
    [|inversion Epay; subst; now left].
  destruct (processReferralReward now db1 (auth_id caller)) as [db1' x] eqn:Ep.
  destruct (processReferralReward_cases _ _ _ _ _ Ep)
    as [[Edb Hx]|[plan [rid [res [Ex [Hplan [Hid Edb]]]]]]]; subst db1'.
  - left. rewrite <- Hrew1.
    destruct x as [[res|]|e']; inversion Epay; subst; try reflexivity.
    now elim (Hx res).
  - subst x.
    rewrite Hplans1, (latest_plan_after_upsert _ a _ Hnoplan) in Hplan.
    inversion Hplan; subst plan; clear Hplan.
    cbn [UserPlanProgress.planAmount] in Epay. rewrite Hrew1 in Epay, Hid.
    set (r := ReferralReward.mk (nextId (referralReward db)) rid (auth_id caller)
                (planReward (toString a)) a (Some (planTypeLabel a))
                ReferralReward.pending now None) in *.
    right. exists r. do 3 (split; [reflexivity|]).
    destruct (rewardId res =? 0); [inversion Epay; subst; now left|].
    destruct (approveReferralReward now _ (rewardId res)) as [[db3 paid]|e'] eqn:Eap;
      [|inversion Epay; subst; now left].
    inversion Epay; subst db2; clear Epay. right.
    unfold approveReferralReward in Eap. store_simpl_in Eap.
    destruct (findUnique (rewardId res) (referralReward db ++ [r])) as [found|];
      [|discriminate].
    destruct (ReferralReward.status_eqb _ _); [discriminate|].
    destruct (update _ _ (user db1)) as [[us u']|]; [|discriminate].
    cbn [bind] in Eap.
    destruct (update (rewardId res) (ReferralReward.setPaid now)
                (referralReward db ++ [r])) as [[rs paid']|] eqn:Eup;
      [|discriminate].
    cbn [bind] in Eap. inversion Eap; subst db3; clear Eap. store_simpl.
    apply update_inv in Eup. destruct Eup as [_ [_ [-> _]]].
    rewrite Hid, map_app, map_fresh_id. cbn [map]. f_equal. f_equal.
    unfold hasId. change (row_id r) with (nextId (referralReward db)).
    now rewrite Z.eqb_refl.
Qed.

(** C8. Reward amounts follow the tier table.  The entry for 250 is 10, and
    confirming a deposit of 250 for a referred user (no plan, no approved
    deposit and no paid reward so far) appends one reward of exactly 10 for
    the referrer, on plan amount 250; in the variant that pays at once, a
    request of 250 leaves the reward table as it was or with one more reward
    of exactly 10.  A request with amount 999 is answered
    400 by the validation of either [confirmDeposit], with the store
    untouched, so no reward logic runs.  A plan amount outside the table
    looks up to 0, and [processReferralReward] then writes no record and
    reports no reward. *)
Theorem tier_table_rewards :
  planReward (toString 250) = 10
  /\ (forall now db caller h c proof u referrer rid,
        (String.length h =? 0)%nat = false ->
        (String.length c =? 0)%nat = false ->
        findUnique (auth_id caller) (user db) = Some u ->
        User.referredById u = Some rid ->
        rid <> 0 ->
        findUnique rid (user db) = Some referrer ->
        (forall p, In p (userPlanProgress db) ->
                   UserPlanProgress.userId p <> auth_id caller) ->
        (forall d, In d (deposit db) -> Deposit.userId d = auth_id caller ->
                   Deposit.status d <> Deposit.approved) ->
        findFirst (paidRewardOf (auth_id caller) rid) (referralReward db) = None ->
        exists db' dep,
          PendingOnly.confirmDeposit now db caller
            (DepositRequest.mk (Some h) (Some 250) (Some c) proof)
          = (db', mkResponse 201 "Deposit confirmed and processed successfully"
                    (Some dep))
          /\ referralReward db'
             = referralReward db
               ++ [ReferralReward.mk (nextId (referralReward db)) rid
                     (auth_id caller) 10 250
                     (Some "Referral Bonus ($250 Plan)")
                     ReferralReward.pending now None])
  /\ (forall now db caller req,
        DepositRequest.amount req = Some 250 ->
        let db' := fst (AutoPay.confirmDeposit now db caller req) in
        referralReward db' = referralReward db
        \/ exists r,
             ReferralReward.amount r = 10
             /\ ReferralReward.planAmount r = 250
             /\ ReferralReward.referredUserId r = auth_id caller
             /\ (referralReward db' = referralReward db ++ [r]
                 \/ referralReward db'
                    = referralReward db ++ [ReferralReward.setPaid now r]))
  /\ (forall now db caller req,
        DepositRequest.amount req = Some 999 ->
        exists msg,
          AutoPay.confirmDeposit now db caller req = (db, respond 400 msg)
          /\ PendingOnly.confirmDeposit now db caller req = (db, respond 400 msg))
  /\ (forall n, includes allowedPlans n = false -> planReward (toString n) = 0)
  /\ (forall now db referredUserId,
        (forall plan,
           findFirst (fun p => UserPlanProgress.userId p =? referredUserId)
             (orderBy idDesc (userPlanProgress db)) = Some plan ->
           includes allowedPlans (UserPlanProgress.planAmount plan) = false) ->
        fst (processReferralReward now db referredUserId) = db
        /\ forall res, snd (processReferralReward now db referredUserId)
                       <> Ok (Some res)).
Proof.
  split; [reflexivity|]. split; [|split; [|split; [|split]]].
  - intros now db caller h c proof u referrer rid Hh Hc Hu Href Hrid Hr Hp Hd Hn.
    apply (confirmDeposit_tier_reward now db caller h c proof 250 u referrer rid);
      auto.
  - intros now db caller req Ha.
    exact (autopay_reward_is_tier now db caller req 250 Ha).
  - intros now db caller req Ha.
    destruct (validateDeposit_off_tier db (auth_id caller) req 999 Ha eq_refl)
      as [msg Hmsg].
    exists msg. unfold AutoPay.confirmDeposit, PendingOnly.confirmDeposit.
    cbv zeta. rewrite Hmsg. auto.
  - exact planReward_unknown.
  - exact processReferralReward_no_tier.
Qed.

(** User 2, referred by user 1, confirms a first deposit of 250; and a plan
    of 999 yields no reward. *)
Lemma tier_table_rewards_witness :
  (exists db' dep,
     PendingOnly.confirmDeposit 50 dbFresh callerTwo deposit250
     = (db', mkResponse 201 "Deposit confirmed and processed successfully"
               (Some dep))
     /\ referralReward db'
        = [ReferralReward.mk 1 1 2 10 250 (Some "Referral Bonus ($250 Plan)")
             ReferralReward.pending 50 None])
  /\ fst (processReferralReward 50 dbOddPlan 2) = dbOddPlan.
Proof.
  destruct tier_table_rewards as [_ [Hconfirm [_ [_ [_ Hnone]]]]].
  split.
  - apply (Hconfirm 50 dbFresh callerTwo "0xccc" "USDT" ""
             (referredUser 2 None 1 "AAAAAAA1" 0)
             (plainUser 1 (Some "AAAAAAA1") 0) 1); try reflexivity.
    + discriminate.
    + intros p [].
    + intros d [].
  - apply (Hnone 50 dbOddPlan 2).
    intros plan Hplan. vm_compute in Hplan. inversion Hplan. reflexivity.
Defined.

(** * Further properties *)

(** ** The code generator *)

Lemma generateFrom_get (rv : nat -> byte) (n : nat) :
  forall i0 i, (i < n)%nat ->
    String.get i (generateFrom rv i0 n)
    = String.get (Byte.to_nat (rv (i0 + i)%nat) mod 36) chars.
Proof.
  induction n as [|n IH]; intros i0 i Hi; [lia|].
  destruct (alphabet_ok (Byte.to_nat (rv i0) mod 36)) as [c [Hc _]].
  { apply Nat.mod_upper_bound. discriminate. }
  cbn [generateFrom]. change (String.length chars) with 36%nat. rewrite Hc.
  cbn [append]. destruct i as [|i].
  - cbn [String.get]. rewrite Nat.add_0_r.
    unfold charAt in Hc.
    destruct (String.get (Byte.to_nat (rv i0) mod 36) chars) as [c'|];
      [|discriminate].
    inversion Hc. reflexivity.
  - cbn [String.get]. rewrite (IH (S i0) i); [|lia].
    now replace (S i0 + i)%nat with (i0 + S i)%nat by lia.
Qed.

(** X1. For every content of the byte array and every requested length,
    [generateReferralCode] returns exactly [length] characters, all of them
    in [0-9A-Z], and the character at position [i] is [chars[b_i % 36]] for
    the byte [b_i] at that position. *)
Theorem generateReferralCode_reads_bytes (randomValues : nat -> byte)
  (length : nat) :
  String.length (generateReferralCode randomValues length) = length
  /\ forallb isUpperAlnum
       (list_ascii_of_string (generateReferralCode randomValues length)) = true
  /\ forall i, (i < length)%nat ->
       String.get i (generateReferralCode randomValues length)
       = String.get (Byte.to_nat (randomValues i) mod 36) chars.
Proof.
  unfold generateReferralCode.
  destruct (generateFrom_shape randomValues length 0) as [Hlen Hall].
  split; [exact Hlen|]. split; [exact Hall|].
  intros i Hi. apply (generateFrom_get randomValues length 0 i Hi).
Qed.

Lemma allBytes_complete (b : byte) : In b allBytes.
Proof.
  unfold allBytes. apply in_flat_map. exists (Byte.to_nat b). split.
  - apply in_seq. pose proof (Byte.to_nat_bounded b). lia.
  - rewrite Byte.of_to_nat. now left.
Qed.

(** X2. The reduction of a byte modulo 36 is not uniform: of the 256 byte
    values, eight yield each of the characters 0, 1, 2 and 3 and seven yield
    each of the other thirty-two characters of the alphabet. *)
Theorem generateReferralCode_modulo_bias (k : nat) :
  (k < 36)%nat ->
  List.length allBytes = 256%nat
  /\ (forall b, In b allBytes)
  /\ List.length (bytesYielding (charAt chars k))
     = if (k <? 4)%nat then 8%nat else 7%nat.
Proof.
  intros Hk. split; [vm_compute; reflexivity|].
  split; [exact allBytes_complete|].
  assert (Hall : forallb
            (fun k => (List.length (bytesYielding (charAt chars k))
                       =? if (k <? 4)%nat then 8 else 7)%nat)
            (seq 0 36) = true) by (vm_compute; reflexivity).
  rewrite forallb_forall in Hall. apply Nat.eqb_eq. apply Hall.
  apply in_seq. lia.
Qed.

Lemma generateReferralCode_modulo_bias_witness :
  List.length (bytesYielding (charAt chars 0)) = 8%nat
  /\ List.length (bytesYielding (charAt chars 35)) = 7%nat.
Proof.
  split.
  - apply (generateReferralCode_modulo_bias 0). lia.
  - apply (generateReferralCode_modulo_bias 35). lia.
Defined.

(** ** The code registry *)

Lemma assignCode_free (db : DB) (userId : Z) (code : string) (u : User.t) :
  findUnique userId (user db) = Some u ->
  findFirst (referralCodeIs code) (user db) = None ->
  assignCode db userId code
  = Ok (Some (withUser
                (map (fun x => if hasId userId x
                               then User.setReferralCode code x else x)
                   (user db)) db,
              User.setReferralCode code u)).
Proof.
  intros Hu Hfree. unfold assignCode. rewrite Hfree.
  rewrite (update_found _ _ _ _ Hu). reflexivity.
Qed.

(** The loop, when the candidates before attempt [k] are taken and the one
    of attempt [k] is free. *)
Lemma retryLoop_first_free (rng : nat -> nat -> byte) (userId : Z) (db : DB)
  (u : User.t) (k : nat) :
  findUnique userId (user db) = Some u ->
  findFirst (referralCodeIs (candidate rng k)) (user db) = None ->
  forall left attempts tried,
    (attempts <= k < attempts + left)%nat ->
    (forall j, (attempts <= j < k)%nat ->
       exists v, findFirst (referralCodeIs (candidate rng j)) (user db) = Some v) ->
    retryLoop rng userId db left attempts tried
    = mkCodeRun (Ok (candidate rng k))
        (withUser
           (map (fun x => if hasId userId x
                          then User.setReferralCode (candidate rng k) x else x)
              (user db)) db)
        (tried ++ attemptCodes rng attempts (S k - attempts)).
Proof.
  unfold candidate. intros Hu Hfree.
  induction left as [|left IH]; intros attempts tried Hk Htaken; [lia|].
  cbn [retryLoop].
  destruct (Nat.eq_dec attempts k) as [->|Hne].
  - rewrite (assignCode_free db userId _ u Hu Hfree).
    cbn [User.setReferralCode User.referralCode].
    rewrite (canonical_nonempty _ (generateReferralCode_canonical (rng k))).
    replace (S k - k)%nat with 1%nat by lia. reflexivity.
  - destruct (Htaken attempts) as [v Hv]; [lia|].
    unfold assignCode. rewrite Hv.
    rewrite (IH (S attempts)); [|lia|intros j Hj; apply Htaken; lia].
    f_equal. rewrite <- app_assoc. f_equal.
    replace (S k - attempts)%nat with (S (S k - S attempts))%nat by lia.
    reflexivity.
Qed.

(** X3. When the user has no canonical code, the candidates of the attempts
    before attempt [k] (with [k] below ten) are all taken and the candidate
    of attempt [k] is free, [getOrCreateUserReferralCode] returns that
    candidate after exactly [k + 1] draws and the only change to the store
    is that the user's row now carries it. *)
Theorem getOrCreateUserReferralCode_first_free
  (rng : nat -> nat -> byte) (db : DB) (userId : Z) (u : User.t) (k : nat) :
  findUnique userId (user db) = Some u ->
  match User.referralCode u with
  | Some c => isCanonicalCode c = false
  | None => True
  end ->
  (k < maxAttempts)%nat ->
  (forall j, (j < k)%nat ->
     exists v, findFirst (referralCodeIs (candidate rng j)) (user db) = Some v) ->
  findFirst (referralCodeIs (candidate rng k)) (user db) = None ->
  getOrCreateUserReferralCode rng db userId
  = mkCodeRun (Ok (candidate rng k))
      (withUser
         (map (fun x => if hasId userId x
                        then User.setReferralCode (candidate rng k) x else x)
            (user db)) db)
      (attemptCodes rng 0 (S k))
  /\ findUnique userId
       (map (fun x => if hasId userId x
                      then User.setReferralCode (candidate rng k) x else x)
          (user db))
     = Some (User.setReferralCode (candidate rng k) u)
  /\ forall j, j <> userId ->
       findUnique j
         (map (fun x => if hasId userId x
                        then User.setReferralCode (candidate rng k) x else x)
            (user db))
       = findUnique j (user db).
Proof.
  intros Hu Hbad Hk Htaken Hfree.
  assert (Hloop : retryLoop rng userId db maxAttempts 0 []
                  = mkCodeRun (Ok (candidate rng k))
                      (withUser
                         (map (fun x => if hasId userId x
                                        then User.setReferralCode
                                               (candidate rng k) x else x)
                            (user db)) db)
                      (attemptCodes rng 0 (S k))).
  { rewrite (retryLoop_first_free rng userId db u k Hu Hfree maxAttempts 0 []).
    - now rewrite Nat.sub_0_r.
    - lia.
    - intros j Hj. apply Htaken. lia. }
  split; [|split].
  - unfold getOrCreateUserReferralCode. rewrite Hu.
    destruct (User.referralCode u) as [c|]; [|exact Hloop].
    rewrite Hbad, andb_false_r. exact Hloop.
  - apply (findUnique_updated (User.setReferralCode (candidate rng k)));
      [reflexivity|exact Hu].
  - intros j Hj.
    apply (findUnique_untouched (User.setReferralCode (candidate rng k)));
      [reflexivity|congruence].
Qed.

(** The first draw collides with the code of user 2, the second is free. *)
Lemma getOrCreateUserReferralCode_first_free_witness :
  getOrCreateUserReferralCode stepRng dbCollide 1
  = mkCodeRun (Ok "11111111")
      (withUser [plainUser 1 (Some "11111111") 0;
                 plainUser 2 (Some "00000000") 0] emptyDB)
      ["00000000"; "11111111"].
Proof.
  apply (getOrCreateUserReferralCode_first_free stepRng dbCollide 1
           (plainUser 1 (Some "b7e1-legacy-uuid") 0) 1).
  - reflexivity.
  - reflexivity.
  - unfold maxAttempts. lia.
  - intros j Hj. assert (j = 0%nat) by lia. subst j.
    exists (plainUser 2 (Some "00000000") 0). reflexivity.
  - reflexivity.
Defined.

(** What a run of the loop can leave: the store as it was and an error, or
    a candidate that was free, written to the user's row and returned. *)
Lemma retryLoop_effect (rng : nat -> nat -> byte) (userId : Z) (db : DB)
  (left : nat) :
  forall attempts tried,
    let run := retryLoop rng userId db left attempts tried in
    match outcome run with
    | Throw _ => store run = db
    | Ok c =>
        isCanonicalCode c = true
        /\ findFirst (referralCodeIs c) (user db) = None
        /\ store run
           = withUser
               (map (fun x => if hasId userId x
                              then User.setReferralCode c x else x)
                  (user db)) db
    end.
Proof.
  induction left as [|left IH]; intros attempts tried; cbn [retryLoop];
    [reflexivity|].
  unfold assignCode.
  destruct (findFirst (referralCodeIs (generateReferralCode (rng attempts) 8))
              (user db)) eqn:Efree; [apply IH|].
  destruct (update userId _ (user db)) as [[us u]|e] eqn:Eup; cbn [bind];
    [|apply IH].
  apply update_inv in Eup. destruct Eup as [u0 [_ [-> ->]]].
  cbn [User.setReferralCode User.referralCode].
  rewrite (canonical_nonempty _ (generateReferralCode_canonical (rng attempts))).
  cbn [outcome store]. split; [apply generateReferralCode_canonical|].
  split; [exact Efree|reflexivity].
Qed.

Lemma getOrCreateUserReferralCode_effect (rng : nat -> nat -> byte) (db : DB)
  (userId : Z) :
  let run := getOrCreateUserReferralCode rng db userId in
  match outcome run with
  | Throw _ => store run = db
  | Ok c =>
      isCanonicalCode c = true
      /\ exists u,
           findUnique userId (user db) = Some u
           /\ ((User.referralCode u = Some c /\ store run = db)
               \/ (findFirst (referralCodeIs c) (user db) = None
                   /\ store run
                      = withUser
                          (map (fun x => if hasId userId x
                                         then User.setReferralCode c x else x)
                             (user db)) db))
  end.
Proof.
  unfold getOrCreateUserReferralCode.
  destruct (findUnique userId (user db)) as [u|] eqn:Hu; [|reflexivity].
  assert (Hloop : match outcome (retryLoop rng userId db maxAttempts 0 []) with
                  | Throw _ => store (retryLoop rng userId db maxAttempts 0 []) = db
                  | Ok c =>
                      isCanonicalCode c = true
                      /\ exists u0,
                           Some u = Some u0
                           /\ ((User.referralCode u0 = Some c
                                /\ store (retryLoop rng userId db maxAttempts 0 [])
                                   = db)
                               \/ (findFirst (referralCodeIs c) (user db) = None
                                   /\ store (retryLoop rng userId db maxAttempts 0 [])
                                      = withUser
                                          (map (fun x =>
                                                  if hasId userId x
                                                  then User.setReferralCode c x
                                                  else x) (user db)) db))
                  end).
  { pose proof (retryLoop_effect rng userId db maxAttempts 0 []) as H.
    cbv zeta in H.
    destruct (outcome (retryLoop rng userId db maxAttempts 0 [])) as [c|e];
      [|exact H].
    destruct H as [Hc [Hfree Hs]]. split; [exact Hc|].
    exists u. split; [reflexivity|]. right. auto. }
  destruct (User.referralCode u) as [c|] eqn:Ecode; [|exact Hloop].
  destruct (negb (String.length c =? 0)%nat && isCanonicalCode c) eqn:Ecan;
    [|exact Hloop].
  cbn [outcome store]. apply andb_prop in Ecan. destruct Ecan as [_ Ecan].
  split; [exact Ecan|]. exists u. split; [reflexivity|]. left. auto.
Qed.

(** X4. Uniqueness of referral codes is an invariant of
    [getOrCreateUserReferralCode]: if no two users of the store hold the
    same code, the same is true of the store any run leaves, whatever the
    random bytes. *)
Theorem getOrCreateUserReferralCode_keeps_codes_unique
  (rng : nat -> nat -> byte) (db : DB) (userId : Z) :
  codesUnique (user db) ->
  codesUnique (user (store (getOrCreateUserReferralCode rng db userId))).
Proof.
  intros Huniq.
  pose proof (getOrCreateUserReferralCode_effect rng db userId) as H.
  cbv zeta in H.
  destruct (outcome (getOrCreateUserReferralCode rng db userId)) as [code|e];
    [|now rewrite H].
  destruct H as [_ [u [_ [[_ ->]|[Hfree ->]]]]]; [exact Huniq|].
  store_simpl.
  assert (Hnot : forall x, In x (user db) -> User.referralCode x <> Some code).
  { intros x Hx E. unfold findFirst in Hfree.
    pose proof (find_none _ _ Hfree x Hx) as Hf. unfold referralCodeIs in Hf.
    rewrite E, String.eqb_refl in Hf. discriminate. }
  intros a' b' c Ha' Hb' Eca Ecb.
  apply in_map_iff in Ha'. destruct Ha' as [a [<- Ha]].
  apply in_map_iff in Hb'. destruct Hb' as [b [<- Hb]].
  unfold hasId in *.
  change (row_id a) with (User.id a) in *.
  change (row_id b) with (User.id b) in *.
  destruct (User.id a =? userId) eqn:Ea; destruct (User.id b =? userId) eqn:Eb;
    cbn [User.setReferralCode User.referralCode User.id] in *.
  - apply Z.eqb_eq in Ea, Eb. congruence.
  - inversion Eca; subst c. elim (Hnot b Hb Ecb).
  - inversion Ecb; subst c. elim (Hnot a Ha Eca).
  - exact (Huniq a b c Ha Hb Eca Ecb).
Qed.

Lemma getOrCreateUserReferralCode_keeps_codes_unique_witness :
  codesUnique (user (store (getOrCreateUserReferralCode stepRng dbCollide 1))).
Proof.
  apply (getOrCreateUserReferralCode_keeps_codes_unique stepRng dbCollide 1).
  intros a b c Ha Hb Ea Eb. simpl in Ha, Hb.
  destruct Ha as [<-|[<-|[]]]; destruct Hb as [<-|[<-|[]]];
    try reflexivity; simpl in Ea, Eb; congruence.
Defined.

(** X5. A code once returned is stable: when a call of
    [getOrCreateUserReferralCode] returns a code, every later call for the
    same user on the store it left returns the same code, draws no candidate
    and writes nothing. *)
Theorem getOrCreateUserReferralCode_stable
  (rng rng' : nat -> nat -> byte) (db : DB) (userId : Z) (c : string) :
  outcome (getOrCreateUserReferralCode rng db userId) = Ok c ->
  let db1 := store (getOrCreateUserReferralCode rng db userId) in
  getOrCreateUserReferralCode rng' db1 userId = mkCodeRun (Ok c) db1 [].
Proof.
  intros Hout. cbv zeta.
  pose proof (getOrCreateUserReferralCode_effect rng db userId) as H.
  cbv zeta in H. rewrite Hout in H.
  destruct H as [Hcan [u [Hu Hcase]]].
  assert (Hu1 : exists u1,
            findUnique userId
              (user (store (getOrCreateUserReferralCode rng db userId)))
            = Some u1 /\ User.referralCode u1 = Some c).
  { destruct Hcase as [[Hcode ->]|[_ ->]].
    - exists u. auto.
    - exists (User.setReferralCode c u). split; [|reflexivity]. store_simpl.
      apply (findUnique_updated (User.setReferralCode c));
        [reflexivity|exact Hu]. }
  destruct Hu1 as [u1 [Hu1 Hcode1]].
  unfold getOrCreateUserReferralCode at 1.
  rewrite Hu1, Hcode1, Hcan, (canonical_nonempty c Hcan). reflexivity.
Qed.

Lemma getOrCreateUserReferralCode_stable_witness :
  getOrCreateUserReferralCode zeroRng
    (store (getOrCreateUserReferralCode stepRng dbCollide 1)) 1
  = mkCodeRun (Ok "11111111")
      (store (getOrCreateUserReferralCode stepRng dbCollide 1)) [].
Proof.
  apply (getOrCreateUserReferralCode_stable stepRng zeroRng dbCollide 1
           "11111111").
  reflexivity.
Defined.

(** ** Attribution by code *)

Lemma toUpperChar_fixed (c : ascii) :
  toUpperChar (toUpperChar c) = toUpperChar c
  /\ isLowerChar (toUpperChar c) = false.
Proof.
  destruct c as [[] [] [] [] [] [] [] []]; split; reflexivity.
Qed.

Lemma toUpperCase_fixed (s : string) :
  toUpperCase (toUpperCase s) = toUpperCase s
  /\ String.length (toUpperCase s) = String.length s
  /\ noLower (toUpperCase s) = true.
Proof.
  unfold noLower.
  induction s as [|c s [IH1 [IH2 IH3]]]; [repeat split|].
  destruct (toUpperChar_fixed c) as [Hc1 Hc2].
  cbn [toUpperCase String.length list_ascii_of_string forallb].
  rewrite Hc1, Hc2, IH1, IH2, IH3. repeat split.
Qed.

(** X6. [processReferral] reads the code without regard to case: a code
    and its upper-cased form give the same result and the same store. *)
Theorem processReferral_ignores_case (db : DB) (userId : Z) (code : string) :
  processReferral db userId (Some code)
  = processReferral db userId (Some (toUpperCase code)).
Proof.
  destruct (toUpperCase_fixed code) as [Hfix [Hlen _]].
  unfold processReferral, truthyStr. rewrite Hlen.
  destruct (String.length code =? 0)%nat; [reflexivity|].
  rewrite Hfix. reflexivity.
Qed.

(** X7. Whom [processReferral] can name as referrer: never the user
    themselves, and only a user whose stored code is the upper-cased
    argument, so a row whose code holds a lower-case letter (the legacy
    codes) is never matched. *)
Theorem processReferral_referrer_holds_upper_code (db : DB) (userId rid : Z)
  (referralCode : option string) :
  NoDup (map row_id (user db)) ->
  snd (processReferral db userId referralCode) = Ok (Some rid) ->
  rid <> userId
  /\ exists r c,
       findUnique rid (user db) = Some r
       /\ User.referralCode r = Some c
       /\ option_map toUpperCase referralCode = Some c
       /\ noLower c = true.
Proof.
  intros keys. unfold processReferral.
  destruct referralCode as [code|]; cbn [truthyStr]; [|discriminate].
  destruct (String.length code =? 0)%nat; [discriminate|].
  destruct (findFirst _ (user db)) as [referrer|] eqn:Hfind; [|discriminate].
  destruct (update userId _ (user db)) as [[us1 u1]|e]; [|discriminate].
  destruct (update (User.id referrer) _ us1) as [[us2 u2]|e]; [|discriminate].
  cbn [snd]. intros [= <-].
  unfold findFirst in Hfind. apply find_some in Hfind.
  destruct Hfind as [Hin Hp]. apply andb_prop in Hp. destruct Hp as [Hcode Hne].
  apply negb_true_iff, Z.eqb_neq in Hne. split; [exact Hne|].
  unfold referralCodeIs in Hcode.
  destruct (User.referralCode referrer) as [c|] eqn:Ec; [|discriminate].
  apply String.eqb_eq in Hcode. subst c.
  exists referrer, (toUpperCase code).
  split; [exact (findUnique_In _ referrer keys Hin)|].
  split; [exact Ec|]. split; [reflexivity|].
  exact (proj2 (proj2 (toUpperCase_fixed code))).
Qed.

Lemma processReferral_referrer_holds_upper_code_witness :
  1 <> 2
  /\ exists r c,
       findUnique 1 (user dbThree) = Some r
       /\ User.referralCode r = Some c
       /\ option_map toUpperCase (Some "aaaaaaa1") = Some c
       /\ noLower c = true.
Proof.
  apply (processReferral_referrer_holds_upper_code dbThree 2 1
           (Some "aaaaaaa1")).
  - simpl. repeat constructor; simpl; intuition discriminate.
  - reflexivity.
Defined.

(** ** Rewards of a referred user *)

(** The store of [dbFirstDeposit]: the first call creates reward 1, the
    second reward 2. *)
Lemma processReferralReward_repeats_witness :
  exists r1 r2 res',
    fst (processReferralReward 50 dbFirstDeposit 2)
    = withReward (referralReward dbFirstDeposit ++ [r1]) dbFirstDeposit
    /\ processReferralReward 60 (fst (processReferralReward 50 dbFirstDeposit 2)) 2
       = (withReward (referralReward dbFirstDeposit ++ [r1; r2]) dbFirstDeposit,
          Ok (Some res'))
    /\ ReferralReward.status r1 = ReferralReward.pending
    /\ ReferralReward.status r2 = ReferralReward.pending
    /\ ReferralReward.referrerId r2 = ReferralReward.referrerId r1
    /\ ReferralReward.referredUserId r1 = 2
    /\ ReferralReward.referredUserId r2 = 2
    /\ ReferralReward.id r1 < ReferralReward.id r2.
Proof.
  apply (processReferralReward_repeats 50 60 dbFirstDeposit
           (fst (processReferralReward 50 dbFirstDeposit 2)) 2
           (mkRewardResult 4 1 1 2 100)).
  reflexivity.
Defined.

Lemma tier_is_four_percent (a : Z) :
  (planReward (toString a) <=? 0) = false ->
  includes allowedPlans a = true /\ 25 * planReward (toString a) = a.
Proof.
  intros Hpos. destruct (includes allowedPlans a) eqn:Hin.
  - split; [reflexivity|]. unfold includes in Hin.
    apply existsb_exists in Hin. destruct Hin as [m [Hm E]].
    apply Z.eqb_eq in E. subst m. simpl in Hm.
    repeat (destruct Hm as [<-|Hm]; [reflexivity|]). destruct Hm.
  - rewrite (planReward_unknown a Hin) in Hpos. discriminate.
Qed.

(** X9. Every reward [processReferralReward] creates is the tier of one of
    the eight plans, four percent of the plan amount; it goes to the user
    recorded as referrer of the referred user, is pending, and is appended
    under a key no reward had. *)
Theorem processReferralReward_reward_is_four_percent (now : Z) (db db' : DB)
  (referredUserId : Z) (res : RewardResult) :
  processReferralReward now db referredUserId = (db', Ok (Some res)) ->
  includes allowedPlans (res_planAmount res) = true
  /\ 25 * rewardAmount res = res_planAmount res
  /\ (exists u, findUnique referredUserId (user db) = Some u
                /\ User.referredById u = Some (res_referrerId res))
  /\ db' = withReward
             (referralReward db
              ++ [ReferralReward.mk (rewardId res) (res_referrerId res)
                    referredUserId (rewardAmount res) (res_planAmount res)
                    (Some (planTypeLabel (res_planAmount res)))
                    ReferralReward.pending now None]) db
  /\ ~ In (rewardId res) (map row_id (referralReward db)).
Proof.
  unfold processReferralReward.
  destruct (referrerOf db referredUserId) as [referrer|] eqn:Eref;
    [|discriminate].
  destruct (findFirst _ (referralReward db)); [discriminate|].
  unfold createPendingReward.
  destruct (findFirst _ (orderBy idDesc (deposit db))); [|discriminate].
  destruct (findFirst _ (orderBy idDesc (userPlanProgress db))) as [plan|];
    [|discriminate].
  destruct (planReward (toString (UserPlanProgress.planAmount plan)) <=? 0)
    eqn:Eamt; [discriminate|].
  cbn [create fst snd]. intros [= <- <-].
  cbn [res_planAmount rewardAmount res_referrerId rewardId ReferralReward.id].
  destruct (tier_is_four_percent _ Eamt) as [Hin Hfour].
  split; [exact Hin|]. split; [exact Hfour|]. split; [|split; [reflexivity|]].
  - unfold referrerOf in Eref.
    destruct (findUnique referredUserId (user db)) as [u|]; [|discriminate].
    exists u. split; [reflexivity|].
    destruct (User.referredById u) as [rid|]; cbn [truthyNum] in Eref;
      [|discriminate].
    destruct (rid =? 0); [discriminate|].
    destruct (findUnique_hasId _ _ _ Eref) as [Hid _].
    change (row_id referrer) with (User.id referrer) in Hid. now rewrite Hid.
  - intros Hdup. apply in_map_iff in Hdup. destruct Hdup as [x [Hid Hx]].
    pose proof (nextId_above (referralReward db) x Hx). lia.
Qed.

Lemma processReferralReward_reward_is_four_percent_witness :
  includes allowedPlans 100 = true
  /\ 25 * 4 = 100
  /\ (exists u, findUnique 2 (user dbFirstDeposit) = Some u
                /\ User.referredById u = Some 1)
  /\ fst (processReferralReward 50 dbFirstDeposit 2)
     = withReward
         (referralReward dbFirstDeposit
          ++ [ReferralReward.mk 1 1 2 4 100
                (Some (planTypeLabel 100)) ReferralReward.pending 50 None])
         dbFirstDeposit
  /\ ~ In 1 (map row_id (referralReward dbFirstDeposit)).
Proof.
  apply (processReferralReward_reward_is_four_percent 50 dbFirstDeposit
           (fst (processReferralReward 50 dbFirstDeposit 2)) 2
           (mkRewardResult 4 1 1 2 100)).
  reflexivity.
Defined.

(** ** Approval followed by reconciliation *)

Lemma sum_filter_weight {A : Type} (p : A -> bool) (f : A -> Z) (l : list A) :
  sumZ (map f (filter p l)) = sumZ (map (fun x => if p x then f x else 0) l).
Proof.
  induction l as [|x l IH]; cbn [filter map]; [reflexivity|].
  destruct (p x); cbn [map sumZ fold_right]; fold (sumZ (map f (filter p l)));
    fold (sumZ (map (fun x => if p x then f x else 0) l)); lia.
Qed.

(** Rewriting the one row under a key moves a sum over the table by the
    difference of that row's weights. *)
Lemma sum_after_update {A : Type} `{Row A} (w : A -> Z) (f : A -> A)
  (t : list A) (r : A) :
  NoDup (map row_id t) ->
  In r t ->
  sumZ (map w (map (fun x => if hasId (row_id r) x then f x else x) t))
  = sumZ (map w t) - w r + w (f r).
Proof.
  intros Hnd Hin.
  assert (Hkeep : forall l,
            ~ In (row_id r) (map row_id l) ->
            map (fun x => if hasId (row_id r) x then f x else x) l = l).
  { intros l Hl. erewrite map_ext_in; [apply map_id|]. intros y Hy. cbv beta.
    destruct (hasId (row_id r) y) eqn:E; [|reflexivity].
    unfold hasId in E. apply Z.eqb_eq in E. exfalso. apply Hl.
    rewrite <- E. now apply in_map. }
  induction t as [|x t IH]; [destruct Hin|].
  apply NoDup_cons_iff in Hnd. destruct Hnd as [Hx Hnd'].
  cbn [map sumZ fold_right].
  fold (sumZ (map w t)).
  fold (sumZ (map w (map (fun x => if hasId (row_id r) x then f x else x) t))).
  destruct Hin as [->|Hin].
  - assert (Hself : hasId (row_id r) r = true)
      by (unfold hasId; apply Z.eqb_refl).
    rewrite Hself, (Hkeep t Hx). lia.
  - assert (Hne : hasId (row_id r) x = false).
    { destruct (hasId (row_id r) x) eqn:E; [|reflexivity].
      unfold hasId in E. apply Z.eqb_eq in E. exfalso. apply Hx.
      rewrite E. now apply in_map. }
    rewrite Hne, (IH Hnd' Hin). lia.
Qed.

(** One run of the reconciliation for an existing user succeeds and raises
    the balance by what was owed. *)
Lemma reconcile_credits_owed (db : DB) (userId : Z) (u : User.t) :
  findUnique userId (user db) = Some u ->
  Forall (fun r => 0 <= ReferralReward.amount r) (referralReward db) ->
  exists db2,
    AllProgress.reconcile db userId = Ok db2
    /\ balanceOf db2 userId = User.balance u + owedTo db userId
    /\ userPlanProgress db2 = userPlanProgress db.
Proof.
  intros Hu Hpos. unfold AllProgress.reconcile, owedTo.
  assert (Htot : 0 <= sumZ (map ReferralReward.amount
                              (findMany (AllProgress.uncredited userId)
                                 (referralReward db)))).
  { apply sumZ_nonneg. apply Forall_forall. intros a Ha.
    apply in_map_iff in Ha. destruct Ha as [r [<- Hr]].
    apply filter_In in Hr. destruct Hr as [Hr _].
    rewrite Forall_forall in Hpos. now apply Hpos. }
  assert (Hmark : AllProgress.markCredited
                    (findMany (AllProgress.uncredited userId) (referralReward db))
                    (referralReward db)
                  = Ok (map (Marking.applyMarks
                               (findMany (AllProgress.uncredited userId)
                                  (referralReward db))) (referralReward db))).
  { apply ReconcileFacts.markCredited_map. intros r Hr.
    apply filter_In in Hr. destruct Hr as [Hr _].
    exact (findUnique_exists (referralReward db) r Hr). }
  rewrite sumAmount_sumZ, Hmark.
  destruct (findMany (AllProgress.uncredited userId) (referralReward db))
    as [|r0 owed] eqn:Eowed.
  - exists db. split; [reflexivity|]. split; [|reflexivity].
    unfold balanceOf. rewrite Hu. cbn [map sumZ fold_right]. lia.
  - change (0 <? List.length (r0 :: owed))%nat with true. cbv iota.
    destruct (0 <? sumZ (map ReferralReward.amount (r0 :: owed))) eqn:Epos.
    + rewrite (update_found _ _ _ _ Hu). cbn [bind].
      eexists. split; [reflexivity|]. split; [|reflexivity].
      unfold balanceOf. store_simpl.
      rewrite (@findUnique_updated _ Row_User
                 (User.credit (sumZ (map ReferralReward.amount (r0 :: owed))))
                 (fun _ => eq_refl) userId (user db) u Hu).
      reflexivity.
    + apply Z.ltb_ge in Epos. cbn [bind].
      eexists. split; [reflexivity|]. split; [|reflexivity].
      unfold balanceOf. store_simpl. rewrite Hu. lia.
Qed.

(** X10. A reward paid by the approval transaction is credited twice: the
    approval raises the referrer's balance by the amount and leaves the
    label without the credited marker, so the reconciliation that the
    account-summary handler runs next counts the reward among those owed
    and adds the amount again. *)
Theorem approval_then_reconcile_credits_twice (now : Z) (db : DB)
  (rewardId : Z) (r : ReferralReward.t) (u : User.t) :
  NoDup (map row_id (referralReward db)) ->
  Forall (fun x => 0 <= ReferralReward.amount x) (referralReward db) ->
  findUnique rewardId (referralReward db) = Some r ->
  ReferralReward.status r = ReferralReward.pending ->
  unmarked r = true ->
  findUnique (ReferralReward.referrerId r) (user db) = Some u ->
  exists db1 r1 db2,
    approveTransaction now db rewardId = Ok (db1, r1)
    /\ balanceOf db1 (ReferralReward.referrerId r)
       = User.balance u + ReferralReward.amount r
    /\ AllProgress.reconcile db1 (ReferralReward.referrerId r) = Ok db2
    /\ balanceOf db2 (ReferralReward.referrerId r)
       = User.balance u + 2 * ReferralReward.amount r
         + owedTo db (ReferralReward.referrerId r).
Proof.
  intros keys Hpos Hr Hs Hun Hu.
  set (uid := ReferralReward.referrerId r) in *.
  destruct (findUnique_hasId _ _ _ Hr) as [Hid Hin].
  pose proof (@findUnique_updated _ Row_User
                (User.credit (ReferralReward.amount r))
                (fun _ => eq_refl) uid (user db) u Hu) as Hu1.
  rewrite (approveTransaction_pending now db rewardId r u Hr Hs Hu).
  fold uid.
  set (db1 := withUser _ (withReward _ db)).
  assert (Hpos1 : Forall (fun x => 0 <= ReferralReward.amount x)
                    (referralReward db1)).
  { subst db1. store_simpl. rewrite Forall_forall in *. intros x Hx.
    apply in_map_iff in Hx. destruct Hx as [y [<- Hy]].
    destruct (hasId rewardId y); [|now apply Hpos].
    cbn [ReferralReward.setPaid ReferralReward.amount]. now apply Hpos. }
  destruct (reconcile_credits_owed db1 uid
              (User.credit (ReferralReward.amount r) u) Hu1 Hpos1)
    as [db2 [Hrec [Hbal _]]].
  exists db1, (ReferralReward.setPaid now r), db2.
  split; [reflexivity|].
  split; [unfold balanceOf; subst db1; store_simpl; now rewrite Hu1|].
  split; [exact Hrec|]. rewrite Hbal.
  assert (Howed : owedTo db1 uid = owedTo db uid + ReferralReward.amount r).
  { unfold owedTo, findMany. subst db1. store_simpl.
    rewrite !sum_filter_weight.
    rewrite <- Hid.
    rewrite (sum_after_update
               (fun x => if AllProgress.uncredited uid x
                         then ReferralReward.amount x else 0)
               (ReferralReward.setPaid now) (referralReward db) r keys Hin).
    assert (E0 : AllProgress.uncredited uid r = false).
    { unfold AllProgress.uncredited, AllProgress.isPaid. rewrite Hs.
      now rewrite andb_false_r. }
    assert (E1 : AllProgress.uncredited uid (ReferralReward.setPaid now r) = true).
    { unfold AllProgress.uncredited, AllProgress.isPaid.
      cbn [ReferralReward.setPaid ReferralReward.referrerId
           ReferralReward.status ReferralReward.planType
           ReferralReward.status_eqb].
      subst uid. rewrite Z.eqb_refl. exact Hun. }
    rewrite E0, E1. cbn [ReferralReward.setPaid ReferralReward.amount]. lia. }
  rewrite Howed. cbn [User.credit User.balance]. lia.
Qed.

Lemma approval_then_reconcile_credits_twice_witness :
  exists db1 r1 db2,
    approveTransaction 50 dbPending 1 = Ok (db1, r1)
    /\ balanceOf db1 1 = 0 + 4
    /\ AllProgress.reconcile db1 1 = Ok db2
    /\ balanceOf db2 1 = 0 + 2 * 4 + owedTo dbPending 1.
Proof.
  apply (approval_then_reconcile_credits_twice 50 dbPending 1 rewardPending
           (plainUser 1 (Some "AAAAAAA1") 0)).
  - simpl. repeat constructor; simpl; intuition lia.
  - repeat constructor; simpl; lia.
  - reflexivity.
  - reflexivity.
  - reflexivity.
  - reflexivity.
Defined.

(** ** The account summary *)

(** For a user without plan rows, the row the handler creates from the
    latest confirmed deposit is the user's only plan row afterwards. *)
Lemma progressesOf_created (db : DB) (userId a : Z) :
  AllProgress.progressesOf db userId = [] ->
  AllProgress.progressesOf
    (withProgress (upsertProgress userId a (userPlanProgress db)) db) userId
  = [UserPlanProgress.mk (nextId (userPlanProgress db)) userId a 0 0 false None].
Proof.
  unfold AllProgress.progressesOf, findMany. intros Hnone.
  assert (Hrows : filter (fun p => UserPlanProgress.userId p =? userId)
                    (userPlanProgress db) = []).
  { pose proof (orderBy_perm AllProgress.lastRoundDesc
                  (filter (fun p => UserPlanProgress.userId p =? userId)
                     (userPlanProgress db))) as Hperm.
    rewrite Hnone in Hperm. exact (Permutation_nil Hperm). }
  assert (Hno : forall p, In p (userPlanProgress db) ->
                          (UserPlanProgress.userId p =? userId) = false)
    by (apply filter_nil_iff; exact Hrows).
  assert (Hfirst : findFirst
                     (fun p => (UserPlanProgress.userId p =? userId)
                               && (UserPlanProgress.planAmount p =? a))
                     (userPlanProgress db) = None).
  { apply find_none_iff. intros p Hp. now rewrite (Hno p Hp). }
  store_simpl. unfold upsertProgress. rewrite Hfirst.
  cbn [create fst]. rewrite filter_app, Hrows.
  cbn [filter app UserPlanProgress.userId]. rewrite Z.eqb_refl. reflexivity.
Qed.

Lemma ensureProgress_cases (db : DB) (userId : Z) :
  AllProgress.ensureProgress db userId = db
  \/ exists a,
       AllProgress.progressesOf db userId = []
       /\ AllProgress.ensureProgress db userId
          = withProgress (upsertProgress userId a (userPlanProgress db)) db
       /\ AllProgress.progressesOf (AllProgress.ensureProgress db userId) userId
          = [UserPlanProgress.mk (nextId (userPlanProgress db)) userId a
               0 0 false None].
Proof.
  unfold AllProgress.ensureProgress.
  destruct (AllProgress.progressesOf db userId) eqn:Hnone; [|now left].
  destruct (findFirst _ (orderBy AllProgress.createdDesc (deposit db)))
    as [d|]; [|now left].
  right. exists (Deposit.amount d). split; [reflexivity|].
  split; [reflexivity|]. exact (progressesOf_created db userId _ Hnone).
Qed.

(** X11. The four account-summary handlers agree on [canWithdraw]: each
    reports whether some plan row of the user has the flag set with profit
    and rounds above zero, whatever the rewards, the balance, or the plan
    row a handler may have just created. *)
Theorem canWithdraw_same_in_all_handlers (db : DB) (userId : Z) :
  let flag := AllProgress.eligible (AllProgress.progressesOf db userId) in
  AllProgress.canWithdraw (AllProgress.GET_paidEitherRole db userId) = flag
  /\ AllProgress.canWithdraw (AllProgress.GET_paidReferrer db userId) = flag
  /\ AllProgress.canWithdraw (snd (AllProgress.GET_pendingInclusive db userId))
     = flag
  /\ forall db' msg s,
       AllProgress.GET_reconciling db userId
       = (db', mkResponse 200 msg (Some s)) ->
       AllProgress.canWithdraw s = flag.
Proof.
  assert (Hens : forall d,
            userPlanProgress d = userPlanProgress db ->
            AllProgress.eligible
              (AllProgress.progressesOf (AllProgress.ensureProgress d userId)
                 userId)
            = AllProgress.eligible (AllProgress.progressesOf db userId)).
  { intros d Hd.
    assert (Hsame : AllProgress.progressesOf d userId
                    = AllProgress.progressesOf db userId)
      by (unfold AllProgress.progressesOf; now rewrite Hd).
    destruct (ensureProgress_cases d userId) as [->|[a [Hnone [_ ->]]]].
    - now rewrite Hsame.
    - rewrite <- Hsame, Hnone. reflexivity. }
  cbv zeta. split; [reflexivity|]. split; [reflexivity|].
  split; [exact (Hens db eq_refl)|].
  intros db' msg s. unfold AllProgress.GET_reconciling.
  destruct (AllProgress.reconcile db userId) as [db1|e] eqn:Hrec;
    [|discriminate].
  intros [= _ _ <-]. cbn [AllProgress.canWithdraw]. apply Hens.
  unfold AllProgress.reconcile in Hrec.
  destruct (0 <? List.length _)%nat; [|now inversion Hrec].
  destruct (0 <? AllProgress.sumAmount _).
  - destruct (update userId _ (user db)) as [[us u]|]; [|discriminate].
    cbn [bind] in Hrec.
    destruct (AllProgress.markCredited _ _) as [rs|]; [|discriminate].
    now inversion Hrec.
  - cbn [bind] in Hrec.
    destruct (AllProgress.markCredited _ _) as [rs|]; [|discriminate].
    now inversion Hrec.
Qed.

(** X12. A summary request is idempotent in the handler of
    [GET_pendingInclusive]: the plan row it may create is created once, and
    a second request on the store it left changes nothing and returns the
    same summary. *)
Theorem GET_pendingInclusive_idempotent (db : DB) (userId : Z) :
  AllProgress.GET_pendingInclusive
    (fst (AllProgress.GET_pendingInclusive db userId)) userId
  = AllProgress.GET_pendingInclusive db userId.
Proof.
  unfold AllProgress.GET_pendingInclusive. cbn [fst].
  assert (Hidem : AllProgress.ensureProgress
                    (AllProgress.ensureProgress db userId) userId
                  = AllProgress.ensureProgress db userId).
  { destruct (ensureProgress_cases db userId) as [E|[a [_ [_ Hone]]]].
    - now rewrite !E.
    - unfold AllProgress.ensureProgress at 1. now rewrite Hone. }
  assert (Hrew : referralReward (AllProgress.ensureProgress db userId)
                 = referralReward db).
  { destruct (ensureProgress_cases db userId) as [->|[a [_ [-> _]]]];
      reflexivity. }
  rewrite Hidem, Hrew. reflexivity.
Qed.

(** ** Withdrawals *)

(** The shortfall of 13 against plan rows that hold 3. *)
Lemma topUp_drains_min_witness :
  exists db1,
    topUp dbSpent 1 13 = Ok db1
    /\ planProfitOf dbSpent 1 - planProfitOf db1 1
       = Z.min 13 (positiveProfitOf dbSpent 1)
    /\ (Forall (fun p => 0 <= UserPlanProgress.profit p)
          (userPlanProgress dbSpent) ->
        Forall (fun p => 0 <= UserPlanProgress.profit p)
          (userPlanProgress db1)).
Proof.
  eexists. split; [reflexivity|].
  apply (topUp_drains_min dbSpent _ 1 13).
  - simpl. repeat constructor; simpl; intuition lia.
  - lia.
  - reflexivity.
Defined.

(** A request for 14 against a total of 13. *)
Lemma submitWithdrawal_refuses_witness :
  fst (submitWithdrawal dbSpent callerOne
         (WithdrawalRequest.mk (Some 14) (Some "USDT") (Some "TXYZ-wallet")))
  = dbSpent
  /\ (httpStatus
        (snd (submitWithdrawal dbSpent callerOne
                (WithdrawalRequest.mk (Some 14) (Some "USDT")
                   (Some "TXYZ-wallet")))) = 400
      \/ httpStatus
           (snd (submitWithdrawal dbSpent callerOne
                   (WithdrawalRequest.mk (Some 14) (Some "USDT")
                      (Some "TXYZ-wallet")))) = 404).
Proof.
  apply (submitWithdrawal_refuses dbSpent callerOne
           (WithdrawalRequest.mk (Some 14) (Some "USDT") (Some "TXYZ-wallet"))
           14).
  - reflexivity.
  - right. vm_compute. reflexivity.
Defined.

Lemma drain_keys (rows : list UserPlanProgress.t) :
  forall remaining tbl tbl' rest,
    drain rows remaining tbl = Ok (tbl', rest) ->
    map row_id tbl' = map row_id tbl.
Proof.
  induction rows as [|p rows IH]; intros remaining tbl tbl' rest;
    cbn [drain].
  - now intros [= <- _].
  - destruct (remaining <=? 0); [now intros [= <- _]|].
    destruct (0 <? Z.min (orZero (UserPlanProgress.profit p)) remaining);
      [|apply IH].
    destruct (update (UserPlanProgress.id p) _ tbl) as [[tbl1 p1]|] eqn:Eup;
      [|discriminate].
    cbn [bind]. intros Hd. rewrite (IH _ _ _ _ Hd).
    apply update_inv in Eup. destruct Eup as [p0 [_ [-> _]]].
    apply map_update_ids. reflexivity.
Qed.

(** The top-up block keeps the keys of the plan table and drives no profit
    below zero. *)
Lemma topUp_plan_rows (db db1 : DB) (userId neededTopUp : Z) :
  NoDup (map row_id (userPlanProgress db)) ->
  Forall (fun p => 0 <= UserPlanProgress.profit p) (userPlanProgress db) ->
  topUp db userId neededTopUp = Ok db1 ->
  NoDup (map row_id (userPlanProgress db1))
  /\ Forall (fun p => 0 <= UserPlanProgress.profit p) (userPlanProgress db1).
Proof.
  intros Hnd Hall Htop. unfold topUp in Htop.
  destruct (0 <? neededTopUp) eqn:E; [|inversion Htop; subst; auto].
  apply Z.ltb_lt in E.
  destruct (drain (progressesForUpdate db userId) neededTopUp
              (userPlanProgress db)) as [[ps rest]|] eqn:Hd; [|discriminate].
  cbn [bind] in Htop.
  destruct (update userId _ (user db)) as [[us u]|]; [|discriminate].
  cbn [bind] in Htop. inversion Htop; subst db1; clear Htop. store_simpl.
  split; [rewrite (drain_keys _ _ _ _ _ Hd); exact Hnd|].
  assert (Hperm : Permutation (progressesForUpdate db userId)
                    (filter (fun p => (UserPlanProgress.userId p =? userId)
                                      && (0 <? UserPlanProgress.profit p))
                       (userPlanProgress db)))
    by apply orderBy_perm.
  destruct (drain_accounting userId (progressesForUpdate db userId)
              neededTopUp (userPlanProgress db) ps rest) as [_ [_ Hnn]].
  - exact Hnd.
  - apply (Permutation_NoDup (Permutation_map row_id (Permutation_sym Hperm))).
    apply (findMany_keys
             (fun p => (UserPlanProgress.userId p =? userId)
                       && (0 <? UserPlanProgress.profit p))
             (userPlanProgress db) Hnd).
  - intros p Hp. apply (Permutation_in _ Hperm) in Hp.
    apply filter_In in Hp. destruct Hp as [Hp Hf].
    apply andb_prop in Hf. destruct Hf as [Hu Hpp].
    apply Z.eqb_eq in Hu. apply Z.ltb_lt in Hpp. auto.
  - lia.
  - exact Hd.
  - exact (Hnn Hall).
Qed.

(** One accepted request, with what the next request finds. *)
Lemma submitWithdrawal_backed_by_rewards (db : DB) (caller : AuthUser)
  (X : Z) (currency recipientAddress : string) (u : User.t) :
  findUnique (auth_id caller) (user db) = Some u ->
  NoDup (map row_id (userPlanProgress db)) ->
  Forall (fun p => 0 <= UserPlanProgress.profit p) (userPlanProgress db) ->
  0 < X ->
  X <= rewardSum (paidTo (auth_id caller)) db ->
  (String.length currency =? 0)%nat = false ->
  (String.length recipientAddress =? 0)%nat = false ->
  exists db1 resp u1,
    submitWithdrawal db caller
      (WithdrawalRequest.mk (Some X) (Some currency) (Some recipientAddress))
    = (db1, resp)
    /\ httpStatus resp = 201
    /\ findUnique (auth_id caller) (user db1) = Some u1
    /\ NoDup (map row_id (userPlanProgress db1))
    /\ Forall (fun p => 0 <= UserPlanProgress.profit p) (userPlanProgress db1)
    /\ referralReward db1 = referralReward db
    /\ List.length (withdrawal db1) = S (List.length (withdrawal db)).
Proof.
  intros Hu Hnd Hall HX Hrew Hc Ha.
  set (uid := auth_id caller) in *.
  assert (Htot : X <= withdrawableTotal db uid).
  { unfold withdrawableTotal. rewrite sumProfit_sumZ, orZero_id.
    unfold rewardSum, paidTo in Hrew. unfold findMany.
    assert (0 <= sumZ (map UserPlanProgress.profit
                         (filter (fun p => UserPlanProgress.userId p =? uid)
                            (userPlanProgress db)))).
    { apply sumZ_nonneg. apply Forall_forall. intros a Hin.
      apply in_map_iff in Hin. destruct Hin as [p [<- Hp]].
      apply filter_In in Hp. destruct Hp as [Hp _].
      rewrite Forall_forall in Hall. now apply Hall. }
    lia. }
  destruct (topUp_credit db uid (Z.max 0 (X - User.balance u)) u Hu)
    as [db0 [Htop [Hu0 [Hr0 Hw0]]]]; [lia|].
  destruct (topUp_plan_rows db db0 uid _ Hnd Hall Htop) as [Hnd0 Hall0].
  pose proof (@findUnique_updated _ Row_User (User.addBalance (- X))
                (fun _ => eq_refl) uid (user db0) _ Hu0) as Hu1.
  unfold submitWithdrawal. fold uid.
  cbn [WithdrawalRequest.amount WithdrawalRequest.currency
       WithdrawalRequest.recipientAddress truthyNum truthyStr].
  destruct (X =? 0) eqn:E0; [apply Z.eqb_eq in E0; lia|].
  rewrite Hc, Ha.
  destruct (X <=? 0) eqn:E1; [apply Z.leb_le in E1; lia|].
  rewrite Hu.
  destruct (withdrawableTotal db uid <? X) eqn:E2;
    [apply Z.ltb_lt in E2; lia|].
  unfold withdrawTransaction. rewrite Htop. cbn [bind].
  rewrite (update_found _ _ _ _ Hu0). cbn [bind create].
  eexists _, _, _. split; [reflexivity|]. store_simpl.
  split; [reflexivity|]. split; [exact Hu1|].
  split; [exact Hnd0|]. split; [exact Hall0|]. split; [exact Hr0|].
  rewrite Hw0, length_app. cbn [List.length]. lia.
Qed.

(** X15. Paid referral rewards are never consumed by a withdrawal: a user
    whose paid rewards as referrer sum to at least [X] has a request for
    [X] accepted every time it is submitted, any number of times in a row;
    each request leaves one more withdrawal row and the reward table as it
    was. *)
Theorem paid_rewards_back_every_withdrawal (n : nat) :
  forall (db : DB) (caller : AuthUser) (X : Z)
         (currency recipientAddress : string) (u : User.t),
    findUnique (auth_id caller) (user db) = Some u ->
    NoDup (map row_id (userPlanProgress db)) ->
    Forall (fun p => 0 <= UserPlanProgress.profit p) (userPlanProgress db) ->
    0 < X ->
    X <= rewardSum (paidTo (auth_id caller)) db ->
    (String.length currency =? 0)%nat = false ->
    (String.length recipientAddress =? 0)%nat = false ->
    let req :=
      WithdrawalRequest.mk (Some X) (Some currency) (Some recipientAddress) in
    snd (repeatWithdrawal n db caller req) = repeat 201 n
    /\ List.length (withdrawal (fst (repeatWithdrawal n db caller req)))
       = (List.length (withdrawal db) + n)%nat
    /\ referralReward (fst (repeatWithdrawal n db caller req))
       = referralReward db.
Proof.
  induction n as [|n IH];
    intros db caller X currency recipientAddress u Hu Hnd Hall HX Hrew Hc Ha;
    cbv zeta.
  - cbn [repeatWithdrawal fst snd repeat]. split; [reflexivity|].
    split; [lia|reflexivity].
  - destruct (submitWithdrawal_backed_by_rewards db caller X currency
                recipientAddress u Hu Hnd Hall HX Hrew Hc Ha)
      as [db1 [resp [u1 [Hsub [Hcode [Hu1 [Hnd1 [Hall1 [Hr1 Hw1]]]]]]]]].
    assert (Hrew1 : X <= rewardSum (paidTo (auth_id caller)) db1)
      by (unfold rewardSum in *; now rewrite Hr1).
    destruct (IH db1 caller X currency recipientAddress u1 Hu1 Hnd1 Hall1 HX
                Hrew1 Hc Ha) as [Hcodes [Hlen Hrs]].
    cbv zeta in Hcodes, Hlen, Hrs. cbn [repeatWithdrawal]. rewrite Hsub.
    destruct (repeatWithdrawal n db1 caller _) as [db2 codes].
    cbn [fst snd] in *. cbn [repeat]. rewrite Hcode, Hcodes.
    split; [reflexivity|]. split; [lia|congruence].
Qed.

(** Three requests for 10 against a paid reward of 10. *)
Lemma paid_rewards_back_every_withdrawal_witness :
  snd (repeatWithdrawal 3 dbSpent callerOne
         (WithdrawalRequest.mk (Some 10) (Some "USDT") (Some "TXYZ-wallet")))
  = repeat 201 3
  /\ List.length
       (withdrawal
          (fst (repeatWithdrawal 3 dbSpent callerOne
                  (WithdrawalRequest.mk (Some 10) (Some "USDT")
                     (Some "TXYZ-wallet")))))
     = (List.length (withdrawal dbSpent) + 3)%nat
  /\ referralReward
       (fst (repeatWithdrawal 3 dbSpent callerOne
               (WithdrawalRequest.mk (Some 10) (Some "USDT")
                  (Some "TXYZ-wallet"))))
     = referralReward dbSpent.
Proof.
  apply (paid_rewards_back_every_withdrawal 3 dbSpent callerOne 10 "USDT"
           "TXYZ-wallet" (plainUser 1 (Some "AAAAAAA1") 0)).
  - reflexivity.
  - simpl. repeat constructor; simpl; intuition lia.
  - repeat constructor; simpl; lia.
  - lia.
  - vm_compute. discriminate.
  - reflexivity.
  - reflexivity.
Defined.

(** ** Deposit confirmation *)

Lemma validateDeposit_inl (db : DB) (userId : Z) (req : DepositRequest.t)
  (h c : string) (a : Z) :
  validateDeposit db userId req = inl (h, a, c) ->
  truthyStr (DepositRequest.transactionHash req) = Some h
  /\ DepositRequest.amount req = Some a
  /\ truthyStr (DepositRequest.currency req) = Some c
  /\ includes allowedPlans a = true
  /\ findFirst (fun p => UserPlanProgress.userId p =? userId)
       (userPlanProgress db) = None.
Proof.
  unfold validateDeposit.
  destruct (truthyStr (DepositRequest.transactionHash req)); [|discriminate].
  destruct (DepositRequest.amount req) as [a'|]; [|discriminate].
  cbn [truthyNum]. destruct (a' =? 0); [discriminate|].
  destruct (truthyStr (DepositRequest.currency req)); [|discriminate].
  destruct (findFirst _ (userPlanProgress db)); [discriminate|].
  destruct (includes allowedPlans a') eqn:Hin; [|discriminate].
  cbn [negb]. intros [= <- <- <-]. auto.
Qed.

(** A user who has a plan row is turned away by the checks, whatever the
    request. *)
Lemma validateDeposit_has_plan (db : DB) (userId : Z) (req : DepositRequest.t)
  (p : UserPlanProgress.t) :
  In p (userPlanProgress db) ->
  UserPlanProgress.userId p = userId ->
  exists msg, validateDeposit db userId req = inr msg.
Proof.
  intros Hin Hp. unfold validateDeposit.
  destruct (truthyStr (DepositRequest.transactionHash req)); [|eauto].
  destruct (truthyNum (DepositRequest.amount req)); [|eauto].
  destruct (truthyStr (DepositRequest.currency req)); [|eauto].
  destruct (find_is_some (fun q => UserPlanProgress.userId q =? userId)
              (userPlanProgress db) p Hin) as [q Hq];
    [now apply Z.eqb_eq|].
  unfold findFirst. rewrite Hq. eauto.
Qed.

Lemma upsertProgress_first (userId a : Z) (t : list UserPlanProgress.t) :
  findFirst (fun p => UserPlanProgress.userId p =? userId) t = None ->
  upsertProgress userId a t
  = t ++ [UserPlanProgress.mk (nextId t) userId a 0 0 false None].
Proof.
  intros Hnone. unfold upsertProgress.
  assert (Hfirst : findFirst
                     (fun p => (UserPlanProgress.userId p =? userId)
                               && (UserPlanProgress.planAmount p =? a)) t = None).
  { apply find_none_iff. intros p Hp.
    unfold findFirst in Hnone.
    now rewrite (proj1 (find_none_iff _ _) Hnone p Hp). }
  now rewrite Hfirst.
Qed.

(** X17. What a 201 of the [confirmDeposit] that creates the deposit means:
    the caller had no plan row and asked for one of the eight plans; one
    deposit row was appended, approved and stamped with the time of the
    call; the caller's balance and totalEarned rose by the amount and no
    other user changed; one plan row with no profit was appended.  Every
    later call by the same user on that store is answered 400 and changes
    nothing. *)
Theorem confirmDeposit_accepts_once (now : Z) (db db' : DB)
  (caller : AuthUser) (req : DepositRequest.t) (resp : Response Deposit.t) :
  PendingOnly.confirmDeposit now db caller req = (db', resp) ->
  httpStatus resp = 201 ->
  (exists u h a c,
     findUnique (auth_id caller) (user db) = Some u
     /\ truthyStr (DepositRequest.transactionHash req) = Some h
     /\ DepositRequest.amount req = Some a
     /\ truthyStr (DepositRequest.currency req) = Some c
     /\ includes allowedPlans a = true
     /\ findFirst (fun p => UserPlanProgress.userId p =? auth_id caller)
          (userPlanProgress db) = None
     /\ deposit db'
        = deposit db
          ++ [Deposit.mk (nextId (deposit db)) (auth_id caller) a c h
                (DepositRequest.paymentProofUrl req) Deposit.approved
                (Some now) now]
     /\ findUnique (auth_id caller) (user db') = Some (User.credit a u)
     /\ (forall j, j <> auth_id caller ->
           findUnique j (user db') = findUnique j (user db))
     /\ userPlanProgress db'
        = userPlanProgress db
          ++ [UserPlanProgress.mk (nextId (userPlanProgress db))
                (auth_id caller) a 0 0 false None])
  /\ forall now' req',
       exists msg,
         PendingOnly.confirmDeposit now' db' caller req'
         = (db', respond 400 msg).
Proof.
  unfold PendingOnly.confirmDeposit at 1.
  destruct (validateDeposit db (auth_id caller) req) as [[[h a] c]|msg] eqn:Hval;
    [|intros [= <- <-]; discriminate].
  destruct (validateDeposit_inl _ _ _ _ _ _ Hval)
    as [Hh [Ha [Hc [Hplan Hnone]]]].
  unfold PendingOnly.depositTransaction. cbn [create].
  destruct (update (auth_id caller) (User.credit a) (user db))
    as [[us u1]|e] eqn:Eup; cbn [bind]; [|intros [= <- <-]; discriminate].
  apply update_inv in Eup. destruct Eup as [u [Hu [-> ->]]].
  rewrite (upsertProgress_first _ a _ Hnone).
  intros [= <- <-] _.
  match goal with
  | |- context [PendingOnly.pendingReward now ?d ?i ?k] =>
      assert (Hkeep : user (PendingOnly.pendingReward now d i k) = user d
                      /\ deposit (PendingOnly.pendingReward now d i k) = deposit d
                      /\ userPlanProgress (PendingOnly.pendingReward now d i k)
                         = userPlanProgress d);
      [unfold PendingOnly.pendingReward;
       destruct (findUnique i (user d)) as [u'|]; [|auto];
       destruct (truthyNum (User.referredById u')); [|auto];
       match goal with |- context [if ?b then _ else _] => destruct b end;
       [|auto];
       destruct (processReferralReward_pending now d i) as [H1 [H2 [H3 _]]];
       auto|]
  end.
  destruct Hkeep as [Kuser [Kdep Kplan]]. store_simpl_in Kuser.
  store_simpl_in Kdep. store_simpl_in Kplan.
  split.
  - exists u, h, a, c. rewrite Kuser, Kdep, Kplan.
    do 6 (split; [assumption|]). split; [reflexivity|].
    split; [apply (findUnique_updated (User.credit a)); [reflexivity|exact Hu]|].
    split; [|reflexivity].
    intros j Hj. apply (findUnique_untouched (User.credit a));
      [reflexivity|congruence].
  - intros now' req'.
    match goal with
    | |- context [PendingOnly.confirmDeposit now' ?d caller req'] =>
        destruct (validateDeposit_has_plan d (auth_id caller) req'
                    (UserPlanProgress.mk (nextId (userPlanProgress db))
                       (auth_id caller) a 0 0 false None))
          as [msg Hmsg]
    end.
    + rewrite Kplan. apply in_or_app. right. now left.
    + reflexivity.
    + exists msg. unfold PendingOnly.confirmDeposit. now rewrite Hmsg.
Qed.

Lemma confirmDeposit_accepts_once_witness :
  (exists u h a c,
     findUnique 2 (user dbFresh) = Some u
     /\ truthyStr (DepositRequest.transactionHash deposit250) = Some h
     /\ DepositRequest.amount deposit250 = Some a
     /\ truthyStr (DepositRequest.currency deposit250) = Some c
     /\ includes allowedPlans a = true
     /\ findFirst (fun p => UserPlanProgress.userId p =? 2)
          (userPlanProgress dbFresh) = None
     /\ deposit (fst (PendingOnly.confirmDeposit 50 dbFresh callerTwo deposit250))
        = deposit dbFresh
          ++ [Deposit.mk (nextId (deposit dbFresh)) 2 a c h
                (DepositRequest.paymentProofUrl deposit250) Deposit.approved
                (Some 50) 50]
     /\ findUnique 2
          (user (fst (PendingOnly.confirmDeposit 50 dbFresh callerTwo deposit250)))
        = Some (User.credit a u)
     /\ (forall j, j <> 2 ->
           findUnique j
             (user (fst (PendingOnly.confirmDeposit 50 dbFresh callerTwo
                           deposit250)))
           = findUnique j (user dbFresh))
     /\ userPlanProgress
          (fst (PendingOnly.confirmDeposit 50 dbFresh callerTwo deposit250))
        = userPlanProgress dbFresh
          ++ [UserPlanProgress.mk (nextId (userPlanProgress dbFresh))
                2 a 0 0 false None])
  /\ forall now' req',
       exists msg,
         PendingOnly.confirmDeposit now'
           (fst (PendingOnly.confirmDeposit 50 dbFresh callerTwo deposit250))
           callerTwo req'
         = (fst (PendingOnly.confirmDeposit 50 dbFresh callerTwo deposit250),
            respond 400 msg).
Proof.
  apply (confirmDeposit_accepts_once 50 dbFresh
           (fst (PendingOnly.confirmDeposit 50 dbFresh callerTwo deposit250))
           callerTwo deposit250
           (snd (PendingOnly.confirmDeposit 50 dbFresh callerTwo deposit250))).
  - reflexivity.
  - reflexivity.
Defined.

(** The payout after the transaction touches users and rewards only. *)
Lemma payout_keeps (now : Z) (db : DB) (userId : Z) :
  deposit (fst (AutoPay.payout now db userId)) = deposit db
  /\ userPlanProgress (fst (AutoPay.payout now db userId))
     = userPlanProgress db.
Proof.
  unfold AutoPay.payout.
  destruct (findUnique userId (user db)) as [u|]; [|auto].
  destruct (truthyNum (User.referredById u)); [|auto].
  destruct (processReferralReward_pending now db userId) as [_ [Hd [Hp _]]].
  cbv zeta in Hd, Hp.
  destruct (processReferralReward now db userId) as [db1 [[res|]|e]];
    cbn [fst] in *; [|auto|auto].
  destruct (rewardId res =? 0); [auto|].
  unfold approveReferralReward.
  destruct (findUnique (rewardId res) (referralReward db1)) as [reward|];
    [|auto].
  destruct (ReferralReward.status_eqb _ _); [auto|].
  destruct (update _ _ (user db1)) as [[us x]|]; cbn [bind]; [|auto].
  destruct (update _ _ (referralReward db1)) as [[rs y]|]; cbn [bind fst];
    auto.
Qed.

(** X18. What a 201 of the [confirmDeposit] that pays at once means: the
    caller had no plan row and held a pending deposit with the submitted
    hash, amount and currency; that row, and no other, was rewritten as
    confirmed, no deposit row was added, and one plan row with no profit was
    appended.  Every later call by the same user on that store is answered
    400 and changes nothing. *)
Theorem confirmDeposit_autopay_accepts_once (now : Z) (db db' : DB)
  (caller : AuthUser) (req : DepositRequest.t)
  (resp : Response (Deposit.t * option ReferralReward.t)) :
  AutoPay.confirmDeposit now db caller req = (db', resp) ->
  httpStatus resp = 201 ->
  (exists pending h a c,
     truthyStr (DepositRequest.transactionHash req) = Some h
     /\ DepositRequest.amount req = Some a
     /\ truthyStr (DepositRequest.currency req) = Some c
     /\ includes allowedPlans a = true
     /\ findFirst (fun p => UserPlanProgress.userId p =? auth_id caller)
          (userPlanProgress db) = None
     /\ In pending (deposit db)
     /\ Deposit.userId pending = auth_id caller
     /\ Deposit.status pending = Deposit.pending
     /\ Deposit.transactionHash pending = h
     /\ Deposit.amount pending = a
     /\ Deposit.currency pending = c
     /\ deposit db'
        = map (fun d => if hasId (Deposit.id pending) d
                        then confirmRow now
                               (orElse (DepositRequest.paymentProofUrl req)
                                  (Deposit.paymentProofUrl pending)) d
                        else d) (deposit db)
     /\ userPlanProgress db'
        = userPlanProgress db
          ++ [UserPlanProgress.mk (nextId (userPlanProgress db))
                (auth_id caller) a 0 0 false None])
  /\ forall now' req',
       exists msg,
         AutoPay.confirmDeposit now' db' caller req' = (db', respond 400 msg).
Proof.
  unfold AutoPay.confirmDeposit at 1.
  destruct (validateDeposit db (auth_id caller) req) as [[[h a] c]|msg] eqn:Hval;
    [|intros [= <- <-]; discriminate].
  destruct (validateDeposit_inl _ _ _ _ _ _ Hval)
    as [Hh [Ha [Hc [Hplan Hnone]]]].
  unfold AutoPay.confirmTransaction.
  destruct (findFirst _ (deposit db)) as [pending|] eqn:Hpend;
    [|intros [= <- <-]; discriminate].
  destruct (negb (Deposit.amount pending =? a)
            || negb (String.eqb (Deposit.currency pending) c)) eqn:Hmatch;
    [intros [= <- <-]; discriminate|].
  destruct (update (Deposit.id pending) _ (deposit db)) as [[ds dep]|] eqn:Edep;
    cbn [bind]; [|intros [= <- <-]; discriminate].
  destruct (update (auth_id caller) _ (user db)) as [[us u1]|] eqn:Eus;
    cbn [bind]; [|intros [= <- <-]; discriminate].
  apply update_inv in Edep. destruct Edep as [d0 [_ [-> _]]].
  rewrite (upsertProgress_first _ a _ Hnone).
  match goal with
  | |- context [AutoPay.payout now ?d ?i] =>
      destruct (payout_keeps now d i) as [Kdep Kplan];
      destruct (AutoPay.payout now d i) as [db2 reward]
  end.
  cbn [fst] in Kdep, Kplan. store_simpl_in Kdep. store_simpl_in Kplan.
  intros [= <- <-] _.
  unfold findFirst in Hpend. apply find_some in Hpend.
  destruct Hpend as [Hin Hp].
  apply andb_prop in Hp. destruct Hp as [Hp Hhash].
  apply andb_prop in Hp. destruct Hp as [Huid Hstatus].
  apply Z.eqb_eq in Huid. apply String.eqb_eq in Hhash.
  apply orb_false_elim in Hmatch. destruct Hmatch as [Hamt Hcur].
  apply negb_false_iff in Hamt, Hcur.
  apply Z.eqb_eq in Hamt. apply String.eqb_eq in Hcur.
  split.
  - exists pending, h, a, c. rewrite Kdep, Kplan.
    do 5 (split; [assumption|]). split; [exact Hin|].
    split; [exact Huid|].
    split; [destruct (Deposit.status pending); try discriminate; reflexivity|].
    split; [exact Hhash|]. split; [exact Hamt|]. split; [exact Hcur|].
    split; reflexivity.
  - intros now' req'.
    destruct (validateDeposit_has_plan db2 (auth_id caller) req'
                (UserPlanProgress.mk (nextId (userPlanProgress db))
                   (auth_id caller) a 0 0 false None))
      as [msg Hmsg].
    + rewrite Kplan. apply in_or_app. right. now left.
    + reflexivity.
    + exists msg. unfold AutoPay.confirmDeposit. now rewrite Hmsg.
Qed.

Lemma confirmDeposit_autopay_accepts_once_witness :
  (exists pending h a c,
     truthyStr (DepositRequest.transactionHash confirmSecond) = Some h
     /\ DepositRequest.amount confirmSecond = Some a
     /\ truthyStr (DepositRequest.currency confirmSecond) = Some c
     /\ includes allowedPlans a = true
     /\ findFirst (fun p => UserPlanProgress.userId p =? 2)
          (userPlanProgress dbTwoDeposits) = None
     /\ In pending (deposit dbTwoDeposits)
     /\ Deposit.userId pending = 2
     /\ Deposit.status pending = Deposit.pending
     /\ Deposit.transactionHash pending = h
     /\ Deposit.amount pending = a
     /\ Deposit.currency pending = c
     /\ deposit (fst (AutoPay.confirmDeposit 50 dbTwoDeposits callerTwo
                        confirmSecond))
        = map (fun d => if hasId (Deposit.id pending) d
                        then confirmRow 50
                               (orElse
                                  (DepositRequest.paymentProofUrl confirmSecond)
                                  (Deposit.paymentProofUrl pending)) d
                        else d) (deposit dbTwoDeposits)
     /\ userPlanProgress
          (fst (AutoPay.confirmDeposit 50 dbTwoDeposits callerTwo confirmSecond))
        = userPlanProgress dbTwoDeposits
          ++ [UserPlanProgress.mk (nextId (userPlanProgress dbTwoDeposits))
                2 a 0 0 false None])
  /\ forall now' req',
       exists msg,
         AutoPay.confirmDeposit now'
           (fst (AutoPay.confirmDeposit 50 dbTwoDeposits callerTwo confirmSecond))
           callerTwo req'
         = (fst (AutoPay.confirmDeposit 50 dbTwoDeposits callerTwo confirmSecond),
            respond 400 msg).
Proof.
  apply (confirmDeposit_autopay_accepts_once 50 dbTwoDeposits
           (fst (AutoPay.confirmDeposit 50 dbTwoDeposits callerTwo confirmSecond))
           callerTwo confirmSecond
           (snd (AutoPay.confirmDeposit 50 dbTwoDeposits callerTwo confirmSecond))).
  - reflexivity.
  - reflexivity.
Defined.

(** ** Deposit submission *)

Lemma submitChecks_inl (db : DB) (userId : Z) (req : DepositRequest.t)
  (h c : string) (a : Z) :
  submitChecks db userId req = inl (h, a, c) ->
  truthyStr (DepositRequest.transactionHash req) = Some h
  /\ DepositRequest.amount req = Some a
  /\ a <> 0
  /\ truthyStr (DepositRequest.currency req) = Some c
  /\ includes allowedPlans a = true
  /\ findFirst (fun d => (Deposit.userId d =? userId)
                         && Deposit.status_eqb (Deposit.status d) Deposit.pending)
       (deposit db) = None.
Proof.
  unfold submitChecks.
  destruct (truthyStr (DepositRequest.transactionHash req)); [|discriminate].
  destruct (DepositRequest.amount req) as [a'|]; [|discriminate].
  cbn [truthyNum]. destruct (a' =? 0) eqn:E0; [discriminate|].
  destruct (truthyStr (DepositRequest.currency req)); [|discriminate].
  destruct (includes allowedPlans a') eqn:Hin; [|discriminate]. cbn [negb].
  destruct (findFirst _ (deposit db)); [discriminate|].
  intros [= <- <- <-]. apply Z.eqb_neq in E0. repeat split; auto.
Qed.

(** A user who holds a pending deposit is turned away by the checks,
    whatever the request. *)
Lemma submitChecks_has_pending (db : DB) (userId : Z) (req : DepositRequest.t)
  (d : Deposit.t) :
  In d (deposit db) ->
  Deposit.userId d = userId ->
  Deposit.status d = Deposit.pending ->
  exists msg, submitChecks db userId req = inr msg.
Proof.
  intros Hin Hu Hs. unfold submitChecks.
  destruct (truthyStr (DepositRequest.transactionHash req)); [|eauto].
  destruct (truthyNum (DepositRequest.amount req)); [|eauto].
  destruct (truthyStr (DepositRequest.currency req)); [|eauto].
  destruct (negb (includes allowedPlans z)); [eauto|].
  destruct (find_is_some
              (fun x => (Deposit.userId x =? userId)
                        && Deposit.status_eqb (Deposit.status x) Deposit.pending)
              (deposit db) d Hin) as [y Hy].
  { rewrite Hu, Hs, Z.eqb_refl. reflexivity. }
  unfold findFirst. rewrite Hy. eauto.
Qed.

(** X19. What a 201 of the [submitDeposit] that only records the deposit
    means: the amount is one of the eight plans, the caller held no pending
    deposit, and the store differs by one appended deposit row, pending and
    not confirmed.  While that row is pending every later submission by the
    same user is answered 400 and changes nothing. *)
Theorem submitDeposit_records_once (now : Z) (db db' : DB)
  (caller : AuthUser) (req : DepositRequest.t) (resp : Response Deposit.t) :
  DepositOnly.submitDeposit now db caller req = (db', resp) ->
  httpStatus resp = 201 ->
  (exists h a c,
     truthyStr (DepositRequest.transactionHash req) = Some h
     /\ DepositRequest.amount req = Some a
     /\ truthyStr (DepositRequest.currency req) = Some c
     /\ includes allowedPlans a = true
     /\ noPendingDeposit db (auth_id caller)
     /\ db' = withDeposit
                (deposit db
                 ++ [Deposit.mk (nextId (deposit db)) (auth_id caller) a c h
                       (DepositRequest.paymentProofUrl req) Deposit.pending
                       None now]) db)
  /\ forall now' req',
       exists msg,
         DepositOnly.submitDeposit now' db' caller req' = (db', respond 400 msg).
Proof.
  unfold DepositOnly.submitDeposit at 1.
  destruct (submitChecks db (auth_id caller) req) as [[[h a] c]|msg] eqn:Hchk;
    [|intros [= <- <-]; discriminate].
  destruct (submitChecks_inl _ _ _ _ _ _ Hchk)
    as [Hh [Ha [_ [Hc [Hplan Hnone]]]]].
  cbn [create]. intros [= <- <-] _. split.
  - exists h, a, c. do 4 (split; [assumption|]). split; [|reflexivity].
    intros d Hd Hu Hs. unfold findFirst in Hnone.
    pose proof (proj1 (find_none_iff _ _) Hnone d Hd) as Hf. cbv beta in Hf.
    rewrite Hu, Hs, Z.eqb_refl in Hf. discriminate.
  - intros now' req'.
    match goal with
    | |- context [DepositOnly.submitDeposit now' ?d caller req'] =>
        destruct (submitChecks_has_pending d (auth_id caller) req'
                    (pendingDeposit now (auth_id caller) h a c
                       (DepositRequest.paymentProofUrl req)
                       (nextId (deposit db))))
          as [msg Hmsg]
    end.
    + store_simpl. apply in_or_app. right. now left.
    + reflexivity.
    + reflexivity.
    + exists msg. unfold DepositOnly.submitDeposit. now rewrite Hmsg.
Qed.

Lemma submitDeposit_records_once_witness :
  (exists h a c,
     truthyStr (DepositRequest.transactionHash deposit250) = Some h
     /\ DepositRequest.amount deposit250 = Some a
     /\ truthyStr (DepositRequest.currency deposit250) = Some c
     /\ includes allowedPlans a = true
     /\ noPendingDeposit dbFresh 2
     /\ fst (DepositOnly.submitDeposit 40 dbFresh callerTwo deposit250)
        = withDeposit
            (deposit dbFresh
             ++ [Deposit.mk (nextId (deposit dbFresh)) 2 a c h
                   (DepositRequest.paymentProofUrl deposit250) Deposit.pending
                   None 40]) dbFresh)
  /\ forall now' req',
       exists msg,
         DepositOnly.submitDeposit now'
           (fst (DepositOnly.submitDeposit 40 dbFresh callerTwo deposit250))
           callerTwo req'
         = (fst (DepositOnly.submitDeposit 40 dbFresh callerTwo deposit250),
            respond 400 msg).
Proof.
  apply (submitDeposit_records_once 40 dbFresh
           (fst (DepositOnly.submitDeposit 40 dbFresh callerTwo deposit250))
           callerTwo deposit250
           (snd (DepositOnly.submitDeposit 40 dbFresh callerTwo deposit250))).
  - reflexivity.
  - reflexivity.
Defined.

Lemma orElse_same (a : string) : orElse a a = a.
Proof. unfold orElse. now destruct (String.length a =? 0)%nat. Qed.

(** X20. Submission and confirmation fit together: for an existing user
    without a plan row, a deposit accepted by [submitDeposit] is the one the
    [confirmDeposit] that looks for a pending deposit finds when it is
    called with the same request; it answers 201 and the row is confirmed,
    stamped with the time of the confirmation, under the key it was
    submitted with. *)
Theorem submitDeposit_then_confirmDeposit (now now' : Z) (db db1 : DB)
  (caller : AuthUser) (req : DepositRequest.t) (resp : Response Deposit.t)
  (u : User.t) :
  findUnique (auth_id caller) (user db) = Some u ->
  findFirst (fun p => UserPlanProgress.userId p =? auth_id caller)
    (userPlanProgress db) = None ->
  DepositOnly.submitDeposit now db caller req = (db1, resp) ->
  httpStatus resp = 201 ->
  exists db2 dep reward,
    AutoPay.confirmDeposit now' db1 caller req
    = (db2, mkResponse 201 "Deposit confirmed and processed successfully"
              (Some (dep, reward)))
    /\ payload resp
       = Some (Deposit.mk (Deposit.id dep) (Deposit.userId dep)
                 (Deposit.amount dep) (Deposit.currency dep)
                 (Deposit.transactionHash dep) (Deposit.paymentProofUrl dep)
                 Deposit.pending None now)
    /\ Deposit.id dep = nextId (deposit db)
    /\ Deposit.status dep = Deposit.confirmed
    /\ Deposit.confirmedAt dep = Some now'
    /\ DepositRequest.amount req = Some (Deposit.amount dep)
    /\ findUnique (Deposit.id dep) (deposit db2) = Some dep.
Proof.
  intros Hu Hplan. unfold DepositOnly.submitDeposit.
  destruct (submitChecks db (auth_id caller) req) as [[[h a] c]|msg] eqn:Hchk;
    [|intros [= <- <-]; discriminate].
  destruct (submitChecks_inl _ _ _ _ _ _ Hchk)
    as [Hh [Ha [Ha0 [Hc [Hin Hnone]]]]].
  cbn [create]. intros [= <- <-] _.
  set (proof := DepositRequest.paymentProofUrl req).
  set (new := pendingDeposit now (auth_id caller) h a c proof
                (nextId (deposit db))).
  assert (Hval : validateDeposit (withDeposit (deposit db ++ [new]) db)
                   (auth_id caller) req = inl (h, a, c)).
  { unfold validateDeposit. rewrite Hh, Ha, Hc. cbn [truthyNum].
    destruct (a =? 0) eqn:E0; [apply Z.eqb_eq in E0; contradiction|].
    store_simpl. rewrite Hplan, Hin. reflexivity. }
  assert (Hfind : findFirst
                    (fun d => (Deposit.userId d =? auth_id caller)
                              && Deposit.status_eqb (Deposit.status d)
                                   Deposit.pending
                              && String.eqb (Deposit.transactionHash d) h)
                    (deposit db ++ [new]) = Some new).
  { unfold findFirst. rewrite find_app_none.
    - cbn [find]. subst new.
      cbn [pendingDeposit Deposit.userId Deposit.status Deposit.transactionHash
           Deposit.status_eqb].
      now rewrite Z.eqb_refl, String.eqb_refl.
    - apply find_none_iff. intros d Hd. unfold findFirst in Hnone.
      pose proof (proj1 (find_none_iff _ _) Hnone d Hd) as Hf. cbv beta in Hf.
      now rewrite Hf. }
  assert (Hkey : findUnique (nextId (deposit db)) (deposit db ++ [new])
                 = Some new).
  { unfold findUnique. rewrite find_app_none.
    - cbn [find]. unfold hasId. subst new. cbn [pendingDeposit row_id Row_Deposit
                                                  Deposit.id].
      now rewrite Z.eqb_refl.
    - apply find_none_iff. intros d Hd. unfold hasId. apply Z.eqb_neq.
      pose proof (nextId_above (deposit db) d Hd). lia. }
  unfold AutoPay.confirmDeposit. rewrite Hval.
  unfold AutoPay.confirmTransaction. store_simpl. rewrite Hfind.
  subst new.
  cbn [pendingDeposit Deposit.amount Deposit.currency Deposit.id
       Deposit.paymentProofUrl].
  rewrite Z.eqb_refl, String.eqb_refl. cbn [negb orb].
  fold proof. rewrite orElse_same.
  rewrite (update_found _ _ _ _ Hkey). cbn [bind].
  rewrite (update_found _ _ _ _ Hu). cbn [bind].
  match goal with
  | |- context [AutoPay.payout now' ?d ?i] =>
      destruct (payout_keeps now' d i) as [Kdep _];
      destruct (AutoPay.payout now' d i) as [db2 reward]
  end.
  cbn [fst] in Kdep. store_simpl_in Kdep.
  eexists db2, _, reward. split; [reflexivity|].
  cbn [payload confirmRow pendingDeposit Deposit.id Deposit.userId
       Deposit.amount Deposit.currency Deposit.transactionHash
       Deposit.paymentProofUrl Deposit.status Deposit.confirmedAt].
  split; [reflexivity|]. split; [reflexivity|]. split; [reflexivity|].
  split; [reflexivity|]. split; [exact Ha|].
  rewrite Kdep.
  apply (findUnique_updated (confirmRow now' proof)); [reflexivity|exact Hkey].
Qed.

Lemma submitDeposit_then_confirmDeposit_witness :
  exists db2 dep reward,
    AutoPay.confirmDeposit 50
      (fst (DepositOnly.submitDeposit 40 dbFresh callerTwo deposit250))
      callerTwo deposit250
    = (db2, mkResponse 201 "Deposit confirmed and processed successfully"
              (Some (dep, reward)))
    /\ payload (snd (DepositOnly.submitDeposit 40 dbFresh callerTwo deposit250))
       = Some (Deposit.mk (Deposit.id dep) (Deposit.userId dep)
                 (Deposit.amount dep) (Deposit.currency dep)
                 (Deposit.transactionHash dep) (Deposit.paymentProofUrl dep)
                 Deposit.pending None 40)
    /\ Deposit.id dep = nextId (deposit dbFresh)
    /\ Deposit.status dep = Deposit.confirmed
    /\ Deposit.confirmedAt dep = Some 50
    /\ DepositRequest.amount deposit250 = Some (Deposit.amount dep)
    /\ findUnique (Deposit.id dep) (deposit db2) = Some dep.
Proof.
  apply (submitDeposit_then_confirmDeposit 40 50 dbFresh
           (fst (DepositOnly.submitDeposit 40 dbFresh callerTwo deposit250))
           callerTwo deposit250
           (snd (DepositOnly.submitDeposit 40 dbFresh callerTwo deposit250))
           (referredUser 2 None 1 "AAAAAAA1" 0)).
  - reflexivity.
  - reflexivity.
  - reflexivity.
  - reflexivity.
Defined.

(** X21. The [submitDeposit] of [deposits/submit/route.ts] never creates
    a reward.  It reads [PLAN_REWARDS], which the library does not export:
    for a referred caller whose pair has no reward yet, a request that
    passes the checks throws inside the transaction and is answered 500
    with nothing written.  Every request that is not answered 500 is
    answered as the variant that only records the deposit answers it, with
    the same store; users, plan rows and rewards are never changed. *)
Theorem submitDeposit_reward_branch_throws (now : Z) (db : DB)
  (caller : AuthUser) (req : DepositRequest.t) :
  let out := RewardAtSubmit.submitDeposit now db caller req in
  user (fst out) = user db
  /\ userPlanProgress (fst out) = userPlanProgress db
  /\ referralReward (fst out) = referralReward db
  /\ (httpStatus (snd out) <> 500 ->
      out = DepositOnly.submitDeposit now db caller req)
  /\ (forall u rid h a c,
        submitChecks db (auth_id caller) req = inl (h, a, c) ->
        findUnique (auth_id caller) (user db) = Some u ->
        truthyNum (User.referredById u) = Some rid ->
        findFirst (RewardAtSubmit.rewardOfPair rid (auth_id caller))
          (referralReward db) = None ->
        out = (db, respond 500 "Internal server error")).
Proof.
  cbv zeta. unfold RewardAtSubmit.submitDeposit, DepositOnly.submitDeposit.
  destruct (submitChecks db (auth_id caller) req) as [[[h a] c]|msg];
    [|cbn [fst snd]; repeat split; auto; intros; discriminate].
  unfold RewardAtSubmit.submitTransaction. cbn [create]. store_simpl.
  destruct (findUnique (auth_id caller) (user db)) as [u|] eqn:Hu.
  - destruct (truthyNum (User.referredById u)) as [rid|] eqn:Hrid.
    + destruct (findFirst (RewardAtSubmit.rewardOfPair rid (auth_id caller))
                  (referralReward db)) eqn:Hpair.
      * cbn [fst snd]. store_simpl. repeat split; auto.
        intros u' rid' h' a' c' _ Hu' Hrid' Hnone.
        injection Hu' as <-. rewrite Hrid in Hrid'. injection Hrid' as <-.
        rewrite Hpair in Hnone. discriminate.
      * unfold RewardAtSubmit.planReward, RewardAtSubmit.PLAN_REWARDS.
        cbn [bind fst snd httpStatus respond]. repeat split; auto.
        intros Hnot. now elim Hnot.
    + cbn [fst snd]. store_simpl. repeat split; auto.
      intros u' rid' h' a' c' _ Hu' Hrid' _.
      injection Hu' as <-. rewrite Hrid in Hrid'. discriminate.
  - cbn [fst snd]. store_simpl. repeat split; auto.
    intros u' rid' h' a' c' _ Hu' _ _. discriminate.
Qed.

(** User 2 of [dbFresh] is referred by user 1 and the pair has no reward:
    the submission of 250 is answered 500. *)
Lemma submitDeposit_reward_branch_throws_witness :
  RewardAtSubmit.submitDeposit 40 dbFresh callerTwo deposit250
  = (dbFresh, respond 500 "Internal server error").
Proof.
  destruct (submitDeposit_reward_branch_throws 40 dbFresh callerTwo deposit250)
    as [_ [_ [_ [_ Hthrows]]]].
  apply (Hthrows (referredUser 2 None 1 "AAAAAAA1" 0) 1 "0xccc" 250 "USDT");
    reflexivity.
Defined.

(** ** Lookup of a referrer by code *)

Lemma noLower_fixed (s : string) : noLower s = true -> toUpperCase s = s.
Proof.
  unfold noLower. induction s as [|c s IH]; [reflexivity|].
  cbn [list_ascii_of_string forallb toUpperCase]. intros H.
  apply andb_prop in H. destruct H as [Hc Hs]. rewrite (IH Hs). f_equal.
  unfold toUpperChar. unfold isLowerChar in Hc. cbv zeta in Hc.
  apply negb_true_iff in Hc. cbv zeta. now rewrite Hc.
Qed.

(** X22. The lookup route and [processReferral] read a code differently.
    When the lookup finds a user under a code, that user is not the caller
    and the caller's row exists: if the code has no lower-case letter,
    [processReferral] attributes the caller to the very user the lookup
    returned; if it has one, [processReferral], which upper-cases the code,
    never returns that user. *)
Theorem lookupReferrer_and_processReferral (db : DB) (userId rid : Z)
  (code : string) (u : User.t) :
  NoDup (map row_id (user db)) ->
  lookupReferrer db (Some code) = mkResponse 200 "success" (Some rid) ->
  rid <> userId ->
  findUnique userId (user db) = Some u ->
  (noLower code = true ->
   exists db', processReferral db userId (Some code) = (db', Ok (Some rid)))
  /\ (noLower code = false ->
      snd (processReferral db userId (Some code)) <> Ok (Some rid)).
Proof.
  intros keys Hlook Hne Hu. unfold lookupReferrer in Hlook.
  cbn [truthyStr] in Hlook.
  destruct (String.length code =? 0)%nat eqn:Elen; [discriminate|].
  destruct (findFirst (referralCodeIs code) (user db)) as [referrer|] eqn:Hfind;
    [|discriminate].
  injection Hlook as Hid.
  unfold findFirst in Hfind. pose proof (find_some _ _ Hfind) as [Hin Hcode].
  split.
  - intros Hup. unfold processReferral. cbn [truthyStr]. rewrite Elen.
    rewrite (noLower_fixed code Hup).
    assert (Hq : negb (User.id referrer =? userId) = true).
    { apply negb_true_iff, Z.eqb_neq. congruence. }
    pose proof (find_refine (referralCodeIs code)
                  (fun x => negb (User.id x =? userId)) (user db) referrer
                  Hfind Hq) as Hboth.
    unfold findFirst. rewrite Hboth.
    rewrite (update_found _ _ _ _ Hu).
    destruct (findUnique_exists (user db) referrer Hin) as [x0 Hx0].
    change (row_id referrer) with (User.id referrer) in Hx0.
    assert (Hx1 : findUnique (User.id referrer)
                    (map (fun x => if hasId userId x
                                   then User.setReferredBy code
                                          (User.id referrer) x
                                   else x) (user db))
                  = Some (if hasId userId x0
                          then User.setReferredBy code (User.id referrer) x0
                          else x0)).
    { rewrite (findUnique_map userId (User.id referrer)
                 (User.setReferredBy code (User.id referrer)) (user db));
        [|reflexivity].
      now rewrite Hx0. }
    rewrite (update_found _ _ _ _ Hx1). rewrite Hid. eauto.
  - intros Hlow Hres. unfold processReferral in Hres. cbn [truthyStr] in Hres.
    rewrite Elen in Hres.
    destruct (findFirst _ (user db)) as [other|] eqn:Hother; [|discriminate].
    destruct (update userId _ (user db)) as [[us1 u1]|]; [|discriminate].
    destruct (update (User.id other) _ us1) as [[us2 u2]|]; [|discriminate].
    cbn [snd] in Hres. injection Hres as Hsame.
    unfold findFirst in Hother. apply find_some in Hother.
    destruct Hother as [Hin' Hp]. apply andb_prop in Hp.
    destruct Hp as [Hcode' _].
    assert (other = referrer).
    { apply (unique_row (user db)); auto.
      change (User.id other = User.id referrer). congruence. }
    subst other. unfold referralCodeIs in Hcode, Hcode'.
    destruct (User.referralCode referrer) as [stored|]; [|discriminate].
    apply String.eqb_eq in Hcode, Hcode'.
    assert (E : toUpperCase code = code) by congruence.
    pose proof (proj2 (proj2 (toUpperCase_fixed code))) as Hup.
    rewrite E in Hup. congruence.
Qed.

Lemma lookupReferrer_and_processReferral_witness :
  (noLower "AAAAAAA1" = true ->
   exists db', processReferral dbThree 2 (Some "AAAAAAA1") = (db', Ok (Some 1)))
  /\ (noLower "AAAAAAA1" = false ->
      snd (processReferral dbThree 2 (Some "AAAAAAA1")) <> Ok (Some 1)).
Proof.
  apply (lookupReferrer_and_processReferral dbThree 2 1 "AAAAAAA1"
           (plainUser 2 None 0)).
  - simpl. repeat constructor; simpl; intuition discriminate.
  - reflexivity.
  - discriminate.
  - reflexivity.
Defined.

(** ** The statistics route *)

Lemma stats_code_nonempty (draws : nat -> nat) :
  (draws 0 < 36)%nat ->
  truthyStr (Some (Stats.generateReferralCode draws 8))
  = Some (Stats.generateReferralCode draws 8).
Proof.
  intros Hlt.
  assert (Hhead : exists c rest,
            Stats.generateReferralCode draws 8 = String c rest).
  { unfold Stats.generateReferralCode. cbn [Stats.generateFrom].
    unfold Stats.charAt at 1.
    destruct (String.get (draws 0%nat) Stats.chars) as [c|] eqn:Eget.
    - cbn [append]. eauto.
    - exfalso. revert Eget. generalize dependent (draws 0%nat). intros n Hlt.
      do 36 (destruct n as [|n]; [discriminate|]). lia. }
  destruct Hhead as [c [rest ->]]. reflexivity.
Qed.

Lemma filter_length_after_map {A : Type} (p : A -> bool) (g : A -> A)
  (l : list A) :
  (forall x, p (g x) = p x) ->
  List.length (filter p (map g l)) = List.length (filter p l).
Proof.
  intros Hg. induction l as [|x l IH]; cbn [map filter]; [reflexivity|].
  rewrite Hg. destruct (p x); cbn [List.length]; now rewrite IH.
Qed.

(** X23. The statistics route gives a user a code at most once.  After a
    request that was answered 200, another request for the same user
    returns the same answer and leaves the store as it is, whatever it would
    draw; a code the user already had, canonical or not, is returned as it
    is without a write; and no other user's row is touched. *)
Theorem stats_GET_assigns_once (draws draws' : nat -> nat) (db db1 : DB)
  (userId : Z) (body : Stats.Body) :
  (draws 0 < 36)%nat ->
  Stats.GET draws db (Some userId)
  = (db1, mkResponse 200 "success" (Some body)) ->
  Stats.GET draws' db1 (Some userId)
  = (db1, mkResponse 200 "success" (Some body))
  /\ (forall x c,
        findUnique userId (user db) = Some x ->
        truthyStr (User.referralCode x) = Some c ->
        db1 = db /\ Stats.referralCode body = c)
  /\ (forall j, j <> userId ->
        findUnique j (user db1) = findUnique j (user db)).
Proof.
  intros Hdraw. unfold Stats.GET at 1.
  destruct (userId =? 0) eqn:E0; [discriminate|].
  destruct (findUnique userId (user db)) as [x|] eqn:Hx.
  - destruct (truthyStr (User.referralCode x)) as [c|] eqn:Hc.
    + intros [= <- <-]. split; [|split].
      * unfold Stats.GET. now rewrite E0, Hx, Hc.
      * intros x' c' [= <-] Hc'. rewrite Hc in Hc'. injection Hc' as <-.
        split; reflexivity.
      * reflexivity.
    + unfold Stats.writeCode. rewrite Hx.
      destruct (findFirst _ (user db)); [discriminate|].
      rewrite (update_found _ _ _ _ Hx).
      cbn [User.setReferralCode User.referralCode].
      rewrite (stats_code_nonempty draws Hdraw).
      intros [= <- <-]. split; [|split].
      * unfold Stats.GET. rewrite E0. store_simpl.
        rewrite (@findUnique_updated _ Row_User
                   (User.setReferralCode (Stats.generateReferralCode draws 8))
                   (fun _ => eq_refl) userId (user db) x Hx).
        cbn [User.setReferralCode User.referralCode].
        rewrite (stats_code_nonempty draws Hdraw).
        unfold findMany.
        rewrite (filter_length_after_map
                   (fun y => eqOpt (User.referredById y) userId));
          [reflexivity|].
        intros y. now destruct (hasId userId y).
      * intros x' c' [= <-] Hc'. congruence.
      * intros j Hj. store_simpl.
        apply (findUnique_untouched
                 (User.setReferralCode (Stats.generateReferralCode draws 8)));
          [reflexivity|congruence].
  - unfold Stats.writeCode. rewrite Hx. discriminate.
Qed.

Lemma stats_GET_assigns_once_witness :
  Stats.GET (fun _ => 7%nat) (fst (Stats.GET firstDraw dbThree (Some 2))) (Some 2)
  = (fst (Stats.GET firstDraw dbThree (Some 2)),
     mkResponse 200 "success" (Some (Stats.mkBody 0 0 0 "AAAAAAAA" [])))
  /\ (forall x c,
        findUnique 2 (user dbThree) = Some x ->
        truthyStr (User.referralCode x) = Some c ->
        fst (Stats.GET firstDraw dbThree (Some 2)) = dbThree
        /\ Stats.referralCode (Stats.mkBody 0 0 0 "AAAAAAAA" []) = c)
  /\ (forall j, j <> 2 ->
        findUnique j (user (fst (Stats.GET firstDraw dbThree (Some 2))))
        = findUnique j (user dbThree)).
Proof.
  apply (stats_GET_assigns_once firstDraw (fun _ => 7%nat) dbThree
           (fst (Stats.GET firstDraw dbThree (Some 2))) 2
           (Stats.mkBody 0 0 0 "AAAAAAAA" [])).
  - unfold firstDraw. lia.
  - reflexivity.
Defined.

Lemma filter_length_perm {A : Type} (p : A -> bool) (l l' : list A) :
  Permutation l l' -> List.length (filter p l) = List.length (filter p l').
Proof.
  induction 1 as [|x l l' _ IH|x y l|l l' l'' _ IH1 _ IH2];
    cbn [filter]; [reflexivity| | |congruence].
  - destruct (p x); cbn [List.length]; now rewrite IH.
  - destruct (p x), (p y); reflexivity.
Qed.

(** The paid amount over an ordered selection of the rewards. *)
Lemma paid_sum_of_ordered (le : ReferralReward.t -> ReferralReward.t -> bool)
  (q : ReferralReward.t -> bool) (l : list ReferralReward.t) :
  AllProgress.sumAmount (filter AllProgress.isPaid (orderBy le (filter q l)))
  = sumZ (map ReferralReward.amount
            (filter (fun r => q r && AllProgress.isPaid r) l)).
Proof.
  rewrite sumAmount_sumZ, sum_filter_weight.
  rewrite (sumZ_perm _ _
             (Permutation_map
                (fun x => if AllProgress.isPaid x
                          then ReferralReward.amount x else 0)
                (orderBy_perm le (filter q l)))).
  rewrite <- sum_filter_weight, filter_filter. reflexivity.
Qed.

(** X24. The totals of the statistics route are those of the other
    routes: [totalEarnings] is the sum of the paid rewards of the user as
    referrer, the referral profit of the account summary and the reward
    part of the total a withdrawal is checked against; [pendingRewards]
    counts the pending rewards of the user as referrer. *)
Theorem stats_totals_agree (draws : nat -> nat) (db db1 : DB) (userId : Z)
  (body : Stats.Body) :
  Stats.GET draws db (Some userId)
  = (db1, mkResponse 200 "success" (Some body)) ->
  Stats.totalEarnings body = rewardSum (paidTo userId) db
  /\ Stats.totalEarnings body
     = AllProgress.referralProfit (AllProgress.GET_paidReferrer db userId)
  /\ withdrawableTotal db userId
     = planProfitOf db userId + Stats.totalEarnings body
  /\ Stats.pendingRewards body
     = List.length
         (filter (fun r => (ReferralReward.referrerId r =? userId)
                           && AllProgress.isPending r) (referralReward db)).
Proof.
  intros Hget.
  assert (Hbody : Stats.totalEarnings body
                  = AllProgress.sumAmount
                      (filter AllProgress.isPaid
                         (orderBy Stats.createdDesc
                            (findMany
                               (fun r => ReferralReward.referrerId r =? userId)
                               (referralReward db))))
                  /\ Stats.pendingRewards body
                     = List.length
                         (filter AllProgress.isPending
                            (orderBy Stats.createdDesc
                               (findMany
                                  (fun r => ReferralReward.referrerId r =? userId)
                                  (referralReward db))))).
  { unfold Stats.GET in Hget.
    destruct (userId =? 0); [discriminate|].
    destruct (match findUnique userId (user db) with
              | Some x => truthyStr (User.referralCode x)
              | None => None
              end) as [c|].
    - injection Hget as _ <-. split; reflexivity.
    - destruct (Stats.writeCode userId _ (user db)) as [[us x]|];
        [|discriminate].
      injection Hget as _ <-. split; reflexivity. }
  destruct Hbody as [Hsum Hcount]. unfold findMany in Hsum, Hcount.
  rewrite paid_sum_of_ordered in Hsum.
  split; [exact Hsum|]. split; [|split].
  - rewrite Hsum. unfold AllProgress.GET_paidReferrer.
    cbn [AllProgress.referralProfit]. now rewrite sumAmount_sumZ.
  - rewrite Hsum. unfold withdrawableTotal, planProfitOf, findMany.
    now rewrite sumProfit_sumZ, orZero_id.
  - rewrite Hcount.
    rewrite (filter_length_perm AllProgress.isPending _ _
               (orderBy_perm Stats.createdDesc _)).
    now rewrite filter_filter.
Qed.

Lemma stats_totals_agree_witness :
  Stats.totalEarnings (Stats.mkBody 0 0 0 "AAAAAAAA" [])
  = rewardSum (paidTo 2) dbThree
  /\ Stats.totalEarnings (Stats.mkBody 0 0 0 "AAAAAAAA" [])
     = AllProgress.referralProfit (AllProgress.GET_paidReferrer dbThree 2)
  /\ withdrawableTotal dbThree 2
     = planProfitOf dbThree 2
       + Stats.totalEarnings (Stats.mkBody 0 0 0 "AAAAAAAA" [])
  /\ Stats.pendingRewards (Stats.mkBody 0 0 0 "AAAAAAAA" [])
     = List.length
         (filter (fun r => (ReferralReward.referrerId r =? 2)
                           && AllProgress.isPending r) (referralReward dbThree)).
Proof.
  apply (stats_totals_agree firstDraw dbThree
           (fst (Stats.GET firstDraw dbThree (Some 2))) 2
           (Stats.mkBody 0 0 0 "AAAAAAAA" [])).
  reflexivity.
Defined.

(** ** The two implementations of approval *)

(** X25. The library [approveReferralReward] and the transaction of the
    admin route, over a reward table with unique keys, for a reward whose
    recipient exists.  On a pending reward that is not labelled as the
    referred user's bonus they return the same reward and the same store.
    On a rejected reward they part: the route refuses, the library function,
    whose guard only excludes paid rewards, marks it paid and credits the
    amount. *)
Theorem approval_library_and_route (now : Z) (db : DB) (rewardId : Z)
  (r : ReferralReward.t) (u : User.t) :
  NoDup (map row_id (referralReward db)) ->
  findUnique rewardId (referralReward db) = Some r ->
  findUnique (recipient r) (user db) = Some u ->
  (ReferralReward.status r = ReferralReward.pending ->
   isReferredUserBonus r = false ->
   approveReferralReward now db rewardId = approveTransaction now db rewardId)
  /\ (ReferralReward.status r = ReferralReward.rejected ->
      approveTransaction now db rewardId
      = Throw "Pending reward not found or already processed"
      /\ exists db1,
           approveReferralReward now db rewardId
           = Ok (db1, ReferralReward.setPaid now r)
           /\ balanceOf db1 (recipient r)
              = User.balance u + ReferralReward.amount r).
Proof.
  intros keys Hr Hu. split.
  - intros Hs Hplain.
    rewrite (approveReferralReward_unpaid now db rewardId r u Hr); [| |exact Hu].
    + unfold recipient in *. rewrite Hplain in *.
      now rewrite (approveTransaction_pending now db rewardId r u Hr Hs Hu).
    + rewrite Hs. discriminate.
  - intros Hs. split.
    + apply approveTransaction_refused; [exact keys|].
      right. exists r. split; [exact Hr|]. rewrite Hs. discriminate.
    + rewrite (approveReferralReward_unpaid now db rewardId r u Hr);
        [| |exact Hu].
      * eexists. split; [reflexivity|]. unfold balanceOf. store_simpl.
        rewrite (@findUnique_updated _ Row_User
                   (User.credit (ReferralReward.amount r))
                   (fun _ => eq_refl) (recipient r) (user db) u Hu).
        reflexivity.
      * rewrite Hs. discriminate.
Qed.

Lemma approval_library_and_route_witness :
  (ReferralReward.status rewardPending = ReferralReward.pending ->
   isReferredUserBonus rewardPending = false ->
   approveReferralReward 50 dbPending 1 = approveTransaction 50 dbPending 1)
  /\ (ReferralReward.status rewardPending = ReferralReward.rejected ->
      approveTransaction 50 dbPending 1
      = Throw "Pending reward not found or already processed"
      /\ exists db1,
           approveReferralReward 50 dbPending 1
           = Ok (db1, ReferralReward.setPaid 50 rewardPending)
           /\ balanceOf db1 (recipient rewardPending)
              = User.balance (plainUser 1 (Some "AAAAAAA1") 0)
                + ReferralReward.amount rewardPending).
Proof.
  apply (approval_library_and_route 50 dbPending 1 rewardPending
           (plainUser 1 (Some "AAAAAAA1") 0)).
  - simpl. repeat constructor; simpl; intuition lia.
  - reflexivity.
  - reflexivity.
Defined.

(** ** A code issued is a code that attributes *)

(** X26. Issue and redemption fit together.  Over a user table in which
    no two users hold the same code: once
    [getOrCreateUserReferralCode] has returned a code for a user, any other
    existing user who gives that code to [processReferral], in any letter
    case, is attributed to that user. *)
Theorem issued_code_attributes (rng : nat -> nat -> byte) (db : DB)
  (rid userId : Z) (c code : string) (u : User.t) :
  codesUnique (user db) ->
  outcome (getOrCreateUserReferralCode rng db rid) = Ok c ->
  userId <> rid ->
  findUnique userId (user db) = Some u ->
  toUpperCase code = c ->
  exists db',
    processReferral (store (getOrCreateUserReferralCode rng db rid)) userId
      (Some code)
    = (db', Ok (Some rid)).
Proof.
  intros Huniq Hout Hne Hu Hup. subst c.
  set (c := toUpperCase code) in *.
  pose proof (getOrCreateUserReferralCode_effect rng db rid) as H.
  cbv zeta in H. rewrite Hout in H. destruct H as [Hcan [x [Hx Hcase]]].
  destruct (findUnique_hasId _ _ _ Hx) as [Hxid Hxin].
  change (row_id x) with (User.id x) in Hxid.
  set (S := user (store (getOrCreateUserReferralCode rng db rid))).
  assert (Hfacts :
            (exists xr, In xr S /\ referralCodeIs c xr = true /\ User.id xr = rid)
            /\ (forall y, In y S -> referralCodeIs c y = true -> User.id y = rid)
            /\ exists u', findUnique userId S = Some u').
  { subst S. destruct Hcase as [[Hcode ->]|[Hfree ->]].
    - split; [|split].
      + exists x. split; [exact Hxin|]. split; [|exact Hxid].
        unfold referralCodeIs. rewrite Hcode. apply String.eqb_refl.
      + intros y Hy Hc. unfold referralCodeIs in Hc.
        destruct (User.referralCode y) as [cy|] eqn:Ey; [|discriminate].
        apply String.eqb_eq in Hc. subst cy.
        rewrite (Huniq y x c Hy Hxin Ey Hcode). exact Hxid.
      + eauto.
    - store_simpl. split; [|split].
      + exists (User.setReferralCode c x). split; [|split].
        * apply in_map_iff. exists x. split; [|exact Hxin].
          unfold hasId. change (row_id x) with (User.id x).
          now rewrite Hxid, Z.eqb_refl.
        * unfold referralCodeIs. cbn [User.setReferralCode User.referralCode].
          apply String.eqb_refl.
        * exact Hxid.
      + intros y Hy Hc. apply in_map_iff in Hy. destruct Hy as [y0 [<- Hy0]].
        unfold hasId in *. change (row_id y0) with (User.id y0) in *.
        destruct (User.id y0 =? rid) eqn:E.
        * apply Z.eqb_eq in E. exact E.
        * unfold findFirst in Hfree.
          rewrite (proj1 (find_none_iff _ _) Hfree y0 Hy0) in Hc. discriminate.
      + exists u.
        rewrite (@findUnique_untouched _ Row_User (User.setReferralCode c)
                   (fun _ => eq_refl) rid userId (user db));
          [exact Hu|congruence]. }
  destruct Hfacts as [[xr [Hxr [Hxc Hxrid]]] [Honly [u' Hu']]].
  assert (Hnz : (String.length code =? 0)%nat = false).
  { destruct (toUpperCase_fixed code) as [_ [Hlen _]].
    rewrite <- Hlen. exact (canonical_nonempty c Hcan). }
  unfold processReferral, truthyStr. rewrite Hnz. fold c. fold S.
  destruct (find_is_some
              (fun y => referralCodeIs c y && negb (User.id y =? userId)) S xr
              Hxr) as [r' Hr'].
  { rewrite Hxc, Hxrid. apply andb_true_intro. split; [reflexivity|].
    apply negb_true_iff, Z.eqb_neq. congruence. }
  unfold findFirst. rewrite Hr'. apply find_some in Hr'.
  destruct Hr' as [Hin' Hp]. apply andb_prop in Hp. destruct Hp as [Hc' _].
  rewrite (Honly r' Hin' Hc').
  rewrite (update_found _ _ _ _ Hu').
  destruct (findUnique_exists S xr Hxr) as [x0 Hx0].
  change (row_id xr) with (User.id xr) in Hx0. rewrite Hxrid in Hx0.
  assert (Hx1 : findUnique rid
                  (map (fun y => if hasId userId y
                                 then User.setReferredBy c rid y else y) S)
                = Some (if hasId userId x0
                        then User.setReferredBy c rid x0 else x0)).
  { rewrite (findUnique_map userId rid (User.setReferredBy c rid) S);
      [|reflexivity].
    now rewrite Hx0. }
  rewrite (update_found _ _ _ _ Hx1). eauto.
Qed.

Lemma issued_code_attributes_witness :
  exists db',
    processReferral (store (getOrCreateUserReferralCode stepRng dbCollide 1)) 2
      (Some "11111111")
    = (db', Ok (Some 1)).
Proof.
  apply (issued_code_attributes stepRng dbCollide 1 2 "11111111" "11111111"
           (plainUser 2 (Some "00000000") 0)).
  - intros a b c Ha Hb Ea Eb. simpl in Ha, Hb.
    destruct Ha as [<-|[<-|[]]]; destruct Hb as [<-|[<-|[]]];
      try reflexivity; simpl in Ea, Eb; congruence.
  - reflexivity.
  - discriminate.
  - reflexivity.
  - reflexivity.
Defined.

(** ** The reward computed in place *)

(** X27. The formula of the [confirmDeposit] that computes the reward in
    place agrees with the tier table: for each of the eight amounts the
    checks let through, the binary64 product [depositAmount * 0.04] is
    exactly the whole number [PLAN_REWARDS] holds for that plan, with no
    rounding residue. *)
Theorem inline_reward_is_tier (a : Z) :
  includes allowedPlans a = true ->
  InlineReward.fourPercent a = InlineReward.number (planReward (toString a)).
Proof.
  unfold includes. intros Hin. apply existsb_exists in Hin.
  destruct Hin as [m [Hm E]]. apply Z.eqb_eq in E. subst m.
  cbn [allowedPlans In] in Hm.
  repeat (destruct Hm as [<-|Hm]; [vm_compute; reflexivity|]). destruct Hm.
Qed.

Lemma inline_reward_is_tier_witness :
  InlineReward.fourPercent 250
  = InlineReward.number (planReward (toString 250)).
Proof. apply (inline_reward_is_tier 250). reflexivity. Defined.

(** ** Where the payout at confirmation can happen *)

(** X28. The [confirmDeposit] that pays at once reaches its payout only
    for a user who already holds an approved deposit.  It marks the deposit
    it confirms as confirmed, and [processReferralReward] looks for an
    approved one: when no deposit of the caller is approved, no reward is
    created or paid, whatever the request, and no user other than the caller
    is touched. *)
Theorem confirmDeposit_autopay_needs_approved_deposit (now : Z) (db : DB)
  (caller : AuthUser) (req : DepositRequest.t) :
  (forall d, In d (deposit db) -> Deposit.userId d = auth_id caller ->
             Deposit.status d <> Deposit.approved) ->
  referralReward (fst (AutoPay.confirmDeposit now db caller req))
  = referralReward db
  /\ forall j, j <> auth_id caller ->
       findUnique j (user (fst (AutoPay.confirmDeposit now db caller req)))
       = findUnique j (user db).
Proof.
  intros Hnone. unfold AutoPay.confirmDeposit.
  destruct (validateDeposit db (auth_id caller) req) as [[[h a] c]|msg];
    [|cbn [fst]; auto].
  unfold AutoPay.confirmTransaction.
  destruct (findFirst _ (deposit db)) as [pending|]; [|cbn [fst]; auto].
  destruct (negb (Deposit.amount pending =? a)
            || negb (String.eqb (Deposit.currency pending) c));
    [cbn [fst]; auto|].
  destruct (update (Deposit.id pending) _ (deposit db)) as [[ds dep]|] eqn:Edep;
    cbn [bind]; [|cbn [fst]; auto].
  destruct (update (auth_id caller) _ (user db)) as [[us u1]|] eqn:Eus;
    cbn [bind]; [|cbn [fst]; auto].
  apply update_inv in Edep. destruct Edep as [d0 [_ [-> _]]].
  apply update_inv in Eus. destruct Eus as [u0 [_ [-> _]]].
  set (db1 := withProgress _ (withUser _ (withDeposit _ db))).
  assert (Hstill : findFirst
                     (fun d => (Deposit.userId d =? auth_id caller)
                               && Deposit.status_eqb (Deposit.status d)
                                    Deposit.approved)
                     (orderBy idDesc (deposit db1)) = None).
  { apply find_none_iff. intros d Hd. apply orderBy_In in Hd.
    subst db1. store_simpl_in Hd. apply in_map_iff in Hd.
    destruct Hd as [d1 [<- Hd1]].
    destruct (hasId (Deposit.id pending) d1).
    - cbn [confirmRow Deposit.status Deposit.status_eqb]. apply andb_false_r.
    - destruct (Deposit.userId d1 =? auth_id caller) eqn:E; [|reflexivity].
      apply Z.eqb_eq in E. pose proof (Hnone d1 Hd1 E) as Hs.
      destruct (Deposit.status d1); try reflexivity. congruence. }
  assert (Hpay : fst (AutoPay.payout now db1 (auth_id caller)) = db1).
  { unfold AutoPay.payout.
    destruct (findUnique (auth_id caller) (user db1)) as [x|]; [|reflexivity].
    destruct (truthyNum (User.referredById x)); [|reflexivity].
    unfold processReferralReward.
    destruct (referrerOf db1 (auth_id caller)); [|reflexivity].
    destruct (findFirst _ (referralReward db1)); [reflexivity|].
    unfold createPendingReward. rewrite Hstill. reflexivity. }
  destruct (AutoPay.payout now db1 (auth_id caller)) as [db2 reward].
  cbn [fst] in *. subst db2. subst db1. store_simpl.
  split; [reflexivity|]. intros j Hj.
  apply (findUnique_untouched (User.credit a)); [reflexivity|congruence].
Qed.

Lemma confirmDeposit_autopay_needs_approved_deposit_witness :
  referralReward (fst (AutoPay.confirmDeposit 50 dbSubmitted callerTwo deposit250))
  = referralReward dbSubmitted
  /\ forall j, j <> 2 ->
       findUnique j
         (user (fst (AutoPay.confirmDeposit 50 dbSubmitted callerTwo deposit250)))
       = findUnique j (user dbSubmitted).
Proof.
  apply (confirmDeposit_autopay_needs_approved_deposit 50 dbSubmitted callerTwo
           deposit250).
  intros d Hd _. simpl in Hd. destruct Hd as [<-|[]]. discriminate.
Defined.


(** ** Who pays a reward, on the stores the handlers produce *)















